(** * Interview orchestration engine: a shallow embedding

    The development follows the TypeScript sources of the interview server:
    - [controllers/InterviewController.ts] (createSession, sendMessage,
      getNextPhase, shouldEndInterview),
    - [services/OllamaService.ts] and [services/BedrockService.ts]
      (analyzeResponseApproppriateness, generateModerationResponse,
      makeAgenticDecision, getNextPhase),
    - [services/LLMService.ts] (initializeServices, getService,
      getActiveServiceName),
    - [models/InterviewSession.ts] (the schemas: what the constructor
      keeps and what [save] validates),
    - [types/InterviewTypes.ts] (the records).

    Conventions.
    - Dates are integers: milliseconds since the epoch ([Date.getTime]).
    - [durationMinutes] and [questionsAsked] are integers, and so are the
      numbers inside JSON payloads.  The elapsed minutes compared with
      [durationMinutes * 0.8] are binary64 numbers, computed and compared
      as the source does; those compared with the integer
      [durationMinutes] are exact rationals, the rounding of the quotient
      not changing that comparison.
    - A string holds the UTF-8 encoding of the JavaScript string; lengths
      count UTF-16 code units, as [String.prototype.length] does.
    - The language model is not part of the program: its replies, and the
      outcome of [JSON.parse] on them, are supplied by a [World] record, one
      per turn.  Every call to the service facade is recorded in a trace. *)

From Stdlib Require Import ZArith QArith String Ascii List Bool Lia.
From Stdlib Require Import DecimalString.
From Stdlib Require Floats.SpecFloat.
Import ListNotations.

Set Warnings "-register-all".

Local Open Scope Z_scope.
Local Open Scope string_scope.

(** ** JavaScript values, as far as the code observes them *)

Module Js.

Inductive value : Type :=
| Undefined
| Null
| Boolean (b : bool)
| Num (z : Z)
| Str (s : string)
| Arr (items : list value)
| Obj (fields : list (string * value)).

Fixpoint assoc (k : string) (fields : list (string * value)) : value :=
  match fields with
  | [] => Undefined
  | (k', v) :: rest => if String.eqb k k' then v else assoc k rest
  end.

(** [v.k]: [None] is the TypeError raised on [undefined] and [null]. *)
Definition get (v : value) (k : string) : option value :=
  match v with
  | Undefined | Null => None
  | Obj fields => Some (assoc k fields)
  | _ => Some Undefined
  end.

(** [v?.k] *)
Definition getOpt (v : value) (k : string) : value :=
  match get v k with
  | Some x => x
  | None => Undefined
  end.

(** [v[i]] for a literal index [i]. *)
Definition index (v : value) (i : nat) : option value :=
  match v with
  | Undefined | Null => None
  | Arr items => Some (nth i items Undefined)
  | Str s =>
      Some (match String.get i s with
            | Some c => Str (String c EmptyString)
            | None => Undefined
            end)
  | _ => Some Undefined
  end.

Definition truthy (v : value) : bool :=
  match v with
  | Undefined | Null => false
  | Boolean b => b
  | Num z => negb (Z.eqb z 0)
  | Str s => negb (String.eqb s EmptyString)
  | Arr _ | Obj _ => true
  end.

(** [a === b] where [b] is a string literal. *)
Definition is_string (v : value) (lit : string) : bool :=
  match v with
  | Str s => String.eqb s lit
  | _ => false
  end.

Definition string_of_Z (z : Z) : string :=
  NilZero.string_of_int (Z.to_int z).

(** Template-literal coercion [`${v}`]. *)
Fixpoint toString (v : value) : string :=
  match v with
  | Undefined => "undefined"
  | Null => "null"
  | Boolean true => "true"
  | Boolean false => "false"
  | Num z => string_of_Z z
  | Str s => s
  | Arr items =>
      (* Array.prototype.join: null and undefined elements print empty *)
      (fix join (l : list value) : string :=
         match l with
         | [] => EmptyString
         | x :: rest =>
             let hd := match x with
                       | Undefined | Null => EmptyString
                       | _ => toString x
                       end in
             match rest with
             | [] => hd
             | _ :: _ => hd ++ "," ++ join rest
             end
         end) items
  | Obj _ => "[object Object]"
  end.

End Js.

(** ** Array helpers with JavaScript's conventions *)

Section ArrayOps.

Context {A : Type} (eqb : A -> A -> bool).

Fixpoint indexOfFrom (i : Z) (l : list A) (x : A) : Z :=
  match l with
  | [] => -1
  | y :: rest => if eqb y x then i else indexOfFrom (i + 1) rest x
  end.

(** [l.indexOf(x)]: the first position of [x], or [-1]. *)
Definition indexOf (l : list A) (x : A) : Z := indexOfFrom 0 l x.

(** [l[i]]: [None] stands for [undefined]. *)
Definition element (l : list A) (i : Z) : option A :=
  if Z.ltb i 0 then None else nth_error l (Z.to_nat i).

(** [l.pop()] on a copy: the last element. *)
Definition lastElement (l : list A) : option A :=
  match rev l with
  | [] => None
  | x :: _ => Some x
  end.

End ArrayOps.

(** ** Phases ([SessionState['phase']]) *)

Inductive Phase : Type :=
| setup | warmup | behavioral | technical
| system_design | product | wrap_up | completed.

Definition Phase_eqb (a b : Phase) : bool :=
  match a, b with
  | setup, setup | warmup, warmup | behavioral, behavioral
  | technical, technical | system_design, system_design
  | product, product | wrap_up, wrap_up | completed, completed => true
  | _, _ => false
  end.

Definition phaseName (p : Phase) : string :=
  match p with
  | setup => "setup"
  | warmup => "warmup"
  | behavioral => "behavioral"
  | technical => "technical"
  | system_design => "system_design"
  | product => "product"
  | wrap_up => "wrap_up"
  | completed => "completed"
  end.

(** Position in the enum of [InterviewTypes.ts]. *)
Definition phaseRank (p : Phase) : Z :=
  match p with
  | setup => 0 | warmup => 1 | behavioral => 2 | technical => 3
  | system_design => 4 | product => 5 | wrap_up => 6 | completed => 7
  end.

(** The local constant [phases] of the three [getNextPhase] methods. *)
Definition phases : list Phase :=
  [warmup; behavioral; technical; system_design; product; wrap_up].

Definition phaseNames : list string := map phaseName phases.

(** [InterviewController.getNextPhase]:
    [phases[phases.indexOf(currentPhase) + 1] || 'wrap_up'].
    Every phase name is a non-empty string, so [||] only replaces
    [undefined]. *)
Definition getNextPhase (currentPhase : Phase) : Phase :=
  let currentIndex := indexOf Phase_eqb phases currentPhase in
  match element phases (currentIndex + 1) with
  | Some next => next
  | None => wrap_up
  end.

(** [OllamaService.getNextPhase] and [BedrockService.getNextPhase]: the same
    body over arbitrary strings. *)
Definition getNextPhaseName (currentPhase : string) : string :=
  let currentIndex := indexOf String.eqb phaseNames currentPhase in
  match element phaseNames (currentIndex + 1) with
  | Some next => if String.eqb next EmptyString then "wrap_up" else next
  | None => "wrap_up"
  end.

(** ** The records of [types/InterviewTypes.ts] *)

Inductive Role : Type := user | assistant | system.

Definition Role_eqb (a b : Role) : bool :=
  match a, b with
  | user, user | assistant, assistant | system, system => true
  | _, _ => false
  end.

Inductive InterviewMode : Type := practice | mock.

Module Message.

Record Metadata : Type := mkMetadata {
  questionType : Phase;
  isFollowUp : bool;
  evaluationScore : Js.value
}.

Record t : Type := mk {
  role : Role;
  content : string;
  timestamp : Z;
  metadata : option Metadata
}.

End Message.

Record SessionConfig : Type := mkConfig {
  role : string;
  seniority : string;
  interviewTypes : list string;
  company : string;
  jobDescription : option string;
  durationMinutes : Z;
  questionFamiliarity : string;
  interviewMode : InterviewMode
}.

Record SessionState : Type := mkState {
  phase : Phase;
  currentQuestionIndex : Z;
  questionsAsked : Z;
  startTime : option Z;
  endTime : option Z;
  lastActivity : Z;
  isActive : bool
}.

(** The three text fields are typed [string] in the source but are copied
    unchecked from the planner's JSON, so they hold any JavaScript value. *)
Record AgenticDecision : Type := mkDecision {
  timestamp : Z;
  decision : Js.value;
  reasoning : Js.value;
  context : Js.value
}.

Record InterviewSession : Type := mkSession {
  sessionId : string;
  candidateName : option string;
  candidateEmail : option string;
  config : SessionConfig;
  state : SessionState;
  messages : list Message.t;
  evaluation : option Js.value;
  agenticDecisions : list AgenticDecision;
  createdAt : Z;
  updatedAt : Z
}.

(** The result type of [analyzeResponseApproppriateness]. *)
Record ContentAnalysis : Type := mkAnalysis {
  isAppropriate : bool;
  isOnTopic : bool;
  containsProfanity : bool;
  severity : Js.value;
  reason : Js.value
}.

(** The result type of [generateModerationResponse]. *)
Record ModerationResponse : Type := mkModeration {
  message : string;
  shouldTerminate : bool
}.

(** *** Field assignments *)

Definition set_phase (p : Phase) (st : SessionState) : SessionState :=
  mkState p (currentQuestionIndex st) (questionsAsked st) (startTime st)
          (endTime st) (lastActivity st) (isActive st).

Definition set_questionsAsked (n : Z) (st : SessionState) : SessionState :=
  mkState (phase st) (currentQuestionIndex st) n (startTime st)
          (endTime st) (lastActivity st) (isActive st).

Definition set_lastActivity (t : Z) (st : SessionState) : SessionState :=
  mkState (phase st) (currentQuestionIndex st) (questionsAsked st)
          (startTime st) (endTime st) t (isActive st).

Definition set_endTime (t : Z) (st : SessionState) : SessionState :=
  mkState (phase st) (currentQuestionIndex st) (questionsAsked st)
          (startTime st) (Some t) (lastActivity st) (isActive st).

Definition set_isActive (b : bool) (st : SessionState) : SessionState :=
  mkState (phase st) (currentQuestionIndex st) (questionsAsked st)
          (startTime st) (endTime st) (lastActivity st) b.

Definition updState (f : SessionState -> SessionState)
           (s : InterviewSession) : InterviewSession :=
  mkSession (sessionId s) (candidateName s) (candidateEmail s) (config s)
            (f (state s)) (messages s) (evaluation s) (agenticDecisions s)
            (createdAt s) (updatedAt s).

(** [session.messages.push(m)] *)
Definition pushMessage (m : Message.t) (s : InterviewSession)
  : InterviewSession :=
  mkSession (sessionId s) (candidateName s) (candidateEmail s) (config s)
            (state s) (messages s ++ [m])%list (evaluation s)
            (agenticDecisions s) (createdAt s) (updatedAt s).

(** [session.agenticDecisions.push(d)] *)
Definition pushDecision (d : AgenticDecision) (s : InterviewSession)
  : InterviewSession :=
  mkSession (sessionId s) (candidateName s) (candidateEmail s) (config s)
            (state s) (messages s) (evaluation s)
            (agenticDecisions s ++ [d])%list (createdAt s) (updatedAt s).

Definition set_evaluation (e : Js.value) (s : InterviewSession)
  : InterviewSession :=
  mkSession (sessionId s) (candidateName s) (candidateEmail s) (config s)
            (state s) (messages s) (Some e) (agenticDecisions s)
            (createdAt s) (updatedAt s).

Definition set_updatedAt (t : Z) (s : InterviewSession) : InterviewSession :=
  mkSession (sessionId s) (candidateName s) (candidateEmail s) (config s)
            (state s) (messages s) (evaluation s) (agenticDecisions s)
            (createdAt s) t.

(** ** Effects: a trace of facade calls, and exceptions

    A computation yields the calls it made to the service facade and to the
    store, and either a value or nothing, when an exception escaped. *)

Inductive Call : Type :=
| CallTestConnection
| CallInitialQuestion
| CallAnalyze           (* analyzeResponseApproppriateness *)
| CallModeration        (* generateModerationResponse *)
| CallPlanner           (* makeAgenticDecision *)
| CallNextQuestion (action : Js.value)  (* generateNextQuestion(decision, ..) *)
| CallPracticeFeedback
| CallEvaluation        (* generateEvaluation *)
| CallSave.             (* session.save() *)

Definition M (A : Type) : Type := (list Call * option A)%type.

Definition ret {A : Type} (a : A) : M A := ([], Some a).

Definition bind {A B : Type} (m : M A) (k : A -> M B) : M B :=
  match m with
  | (calls, None) => (calls, None)
  | (calls, Some a) => ((calls ++ fst (k a))%list, snd (k a))
  end.

(** One awaited call: it is recorded, and resolves or rejects. *)
Definition await {A : Type} (c : Call) (outcome : option A) : M A :=
  ([c], outcome).

Declare Scope turn_scope.
Delimit Scope turn_scope with turn.
Notation "x <- m ;; k" := (bind m (fun x => k))
  (at level 61, m at next level, right associativity) : turn_scope.

Definition calls {A : Type} (m : M A) : list Call := fst m.
Definition outcome {A : Type} (m : M A) : option A := snd m.

(** [called c m]: the computation [m] made the call [c]. *)
Definition called {A : Type} (c : Call) (m : M A) : Prop := In c (calls m).

Definition isNextQuestion (c : Call) : bool :=
  match c with
  | CallNextQuestion _ => true
  | _ => false
  end.

(** ** The world outside the program *)

(** What a prompt sent to the model comes back as, seen through
    [JSON.parse]. *)
Inductive Reply : Type :=
| Rejected                  (* the invocation throws *)
| Garbled                   (* a text on which JSON.parse throws *)
| Parsed (v : Js.value).    (* a text that JSON.parse turns into [v] *)

Record World : Type := mkWorld {
  now : Z;                  (* [new Date()] at the start of the turn *)
  clockAtPlanner : Z;       (* [new Date()] inside makeAgenticDecision *)
  clockAtDecision : Z;      (* [Date.now()] after the planner returned *)
  clockAtCheck : Z;         (* [Date.now()] inside shouldEndInterview *)
  profanityMatch : bool;    (* one of [profanityPatterns] matches the message *)
  shortNonsense : bool;     (* [isVeryShortNonsense] for the message *)
  moderationReply : Reply;  (* reply to the moderation prompt *)
  plannerReply : Reply;     (* reply to the decision prompt *)
  questionReply : option string;  (* reply to the question prompt *)
  feedbackReply : Reply;    (* reply to the practice-feedback prompt *)
  evaluationReply : Reply;  (* reply to the evaluation prompt *)
  saveSucceeds : bool;      (* [session.save()] resolves, as far as the
                               validators written out below leave it
                               open *)
  clockAtSave : Z           (* [new Date()] in the pre-save hook *)
}.

Definition nl : string := String (ascii_of_nat 10) EmptyString.

(** The white space and line terminators that [String.prototype.trim]
    removes, by the length of their UTF-8 encoding.  One byte: U+0009 to
    U+000D and U+0020. *)
Definition isSpace (c : ascii) : bool :=
  let n := nat_of_ascii c in
  (Nat.eqb n 32 || (Nat.leb 9 n && Nat.leb n 13))%bool.

(** Two bytes: U+00A0. *)
Definition isSpace2 (a b : ascii) : bool :=
  (Nat.eqb (nat_of_ascii a) 194 && Nat.eqb (nat_of_ascii b) 160)%bool.

(** Three bytes: U+1680, U+2000 to U+200A, U+2028, U+2029, U+202F, U+205F,
    U+3000 and U+FEFF. *)
Definition isSpace3 (a b c : ascii) : bool :=
  let x := nat_of_ascii a in
  let y := nat_of_ascii b in
  let z := nat_of_ascii c in
  ((Nat.eqb x 225 && Nat.eqb y 154 && Nat.eqb z 128)
   || (Nat.eqb x 226 && Nat.eqb y 128
       && ((Nat.leb 128 z && Nat.leb z 138)
           || Nat.eqb z 168 || Nat.eqb z 169 || Nat.eqb z 175))
   || (Nat.eqb x 226 && Nat.eqb y 129 && Nat.eqb z 159)
   || (Nat.eqb x 227 && Nat.eqb y 128 && Nat.eqb z 128)
   || (Nat.eqb x 239 && Nat.eqb y 187 && Nat.eqb z 191))%bool.

Fixpoint trimStart (s : string) : string :=
  match s with
  | EmptyString => EmptyString
  | String a rest =>
      if isSpace a then trimStart rest
      else
        match rest with
        | String b rest2 =>
            if isSpace2 a b then trimStart rest2
            else
              match rest2 with
              | String c rest3 =>
                  if isSpace3 a b c then trimStart rest3 else s
              | EmptyString => s
              end
        | EmptyString => s
        end
  end.

(** The same from the end, on the reversed string: the bytes of a
    character come last byte first. *)
Fixpoint trimEndReversed (s : string) : string :=
  match s with
  | EmptyString => EmptyString
  | String c rest =>
      if isSpace c then trimEndReversed rest
      else
        match rest with
        | String b rest2 =>
            if isSpace2 b c then trimEndReversed rest2
            else
              match rest2 with
              | String a rest3 =>
                  if isSpace3 a b c then trimEndReversed rest3 else s
              | EmptyString => s
              end
        | EmptyString => s
        end
  end.

Fixpoint revString (s acc : string) : string :=
  match s with
  | EmptyString => acc
  | String c rest => revString rest (String c acc)
  end.

(** [s.trim()] *)
Definition trim (s : string) : string :=
  revString (trimEndReversed (revString (trimStart s) EmptyString))
            EmptyString.

(** The UTF-16 code units a byte stands for: none for a continuation
    byte, two (a surrogate pair) for the lead byte of a four-byte
    sequence, one otherwise. *)
Definition codeUnits (c : ascii) : nat :=
  let n := nat_of_ascii c in
  if (Nat.leb 128 n && Nat.leb n 191)%bool then 0%nat
  else if Nat.leb 240 n then 2%nat else 1%nat.

Fixpoint utf16Length (s : string) : nat :=
  match s with
  | EmptyString => 0%nat
  | String c rest => (codeUnits c + utf16Length rest)%nat
  end.

(** [s.length] *)
Definition strLength (s : string) : Z := Z.of_nat (utf16Length s).

(** ** The providers *)

(** The three texts of [generateModerationResponse]. *)
Definition terminationNotice : string :=
  "I need to end our interview session here. Professional communication is required for interview practice. Thank you for your time.".

Definition warningNotice (warningCount : Z) (question : string) : string :=
  "I need you to maintain professional communication during our interview. This is your "
    ++ (if Z.eqb warningCount 1 then "first" else "second")
    ++ " warning. Let's continue professionally. " ++ nl ++ nl
    ++ "Let me repeat the question: " ++ question.

Definition redirectNotice (question : string) : string :=
  "I notice your response isn't directly addressing the question I asked. Let me help redirect our conversation."
    ++ nl ++ nl ++ "The question was: " ++ question ++ nl ++ nl
    ++ "Could you please provide a response that specifically addresses this question about your professional experience?".

(** [generateModerationResponse]: the same body in [BedrockService] and in
    both revisions of [OllamaService]. *)
Definition generateModerationResponse
           (analysis : ContentAnalysis) (warningCount : Z) (question : string)
  : ModerationResponse :=
  if (containsProfanity analysis
      || Js.is_string (severity analysis) "high")%bool
  then
    let warningCount := warningCount + 1 in
    if Z.leb 2 warningCount
    then mkModeration terminationNotice true
    else mkModeration (warningNotice warningCount question) false
  else if negb (isOnTopic analysis)
       then mkModeration (redirectNotice question) false
       else mkModeration EmptyString false.

(** The value the [catch] of [makeAgenticDecision] returns. *)
Definition parseFallback (t : Z) : AgenticDecision :=
  mkDecision t (Js.Str "MOVE_NEXT")
             (Js.Str "Default action due to parsing error")
             (Js.Str "Failed to parse AI decision response").

(** [makeAgenticDecision], after the prompt was sent: the invocation is
    outside the [try]; [JSON.parse] and the three field reads are inside. *)
Definition decisionOfReply (t : Z) (r : Reply) : option AgenticDecision :=
  match r with
  | Rejected => None
  | Garbled => Some (parseFallback t)
  | Parsed d =>
      match Js.get d "decision", Js.get d "reasoning", Js.get d "context" with
      | Some a, Some why, Some ctx => Some (mkDecision t a why ctx)
      | _, _, _ => Some (parseFallback t)
      end
  end.

Module BedrockService.

(** [analyzeResponseApproppriateness]: decided by regular expressions on
    the message (the earlier revision of [OllamaService] has the same
    three results). *)
Definition analyzeResponseApproppriateness (w : World) : ContentAnalysis :=
  if profanityMatch w then
    mkAnalysis false true true (Js.Str "high")
               (Js.Str "Contains inappropriate language")
  else if shortNonsense w then
    mkAnalysis true false false (Js.Str "low")
               (Js.Str "Response appears to be random characters")
  else
    mkAnalysis true true false (Js.Str "low")
               (Js.Str "Response appears appropriate").

End BedrockService.

Module OllamaService.

(** The [catch] branch of [analyzeResponseApproppriateness]. *)
Definition analysisFallback (response : string) : ContentAnalysis :=
  let isSuspicious := Z.ltb (strLength (trim response)) 5 in
  mkAnalysis (negb isSuspicious) (negb isSuspicious) false
             (Js.Str (if isSuspicious then "medium" else "low"))
             (Js.Str (if isSuspicious then "Very short response"
                      else "Unable to analyze, assumed appropriate")).

Definition orElse (v : Js.value) (default : string) : Js.value :=
  if Js.truthy v then v else Js.Str default.

(** [analyzeResponseApproppriateness]: the model classifies; the
    invocation, [JSON.parse] and the field reads are all inside the [try].
    The three flags are kept as their truth values, which is all their
    readers look at. *)
Definition analyzeResponseApproppriateness (w : World) (response : string)
  : ContentAnalysis :=
  match moderationReply w with
  | Parsed analysis =>
      match Js.get analysis "isAppropriate",
            Js.get analysis "containsProfanity",
            Js.get analysis "isAbusive",
            Js.get analysis "isOnTopic",
            Js.get analysis "severity",
            Js.get analysis "reason" with
      | Some appropriate, Some profanity, Some abusive,
        Some onTopic, Some sev, Some why =>
          mkAnalysis
            (Js.truthy appropriate && negb (Js.truthy profanity)
             && negb (Js.truthy abusive))%bool
            (Js.truthy onTopic)
            (Js.truthy profanity || Js.truthy abusive)%bool
            (orElse sev "low")
            (orElse why "Response appears appropriate")
      | _, _, _, _, _, _ => analysisFallback response
      end
  | Garbled | Rejected => analysisFallback response
  end.

End OllamaService.

(** ** The facade ([services/LLMService.ts]) *)

Inductive Service : Type := Bedrock | Ollama.

Definition Service_eqb (a b : Service) : bool :=
  match a, b with
  | Bedrock, Bedrock | Ollama, Ollama => true
  | _, _ => false
  end.

(** [a === b] on two fields holding a service instance or [null].  Each
    class is instantiated at most once, so the class identifies the
    instance. *)
Definition sameRef (a b : option Service) : bool :=
  match a, b with
  | None, None => true
  | Some x, Some y => Service_eqb x y
  | _, _ => false
  end.

(** Which providers answer a probe at a given moment. *)
Definition Network : Type := Service -> bool.

Module LLMService.

Record t : Type := mk {
  primaryService : option Service;
  fallbackService : option Service;
  activeService : option Service
}.

(** The process environment and the outcome of the constructors at
    start-up. *)
Record Startup : Type := mkStartup {
  USE_BEDROCK : bool;            (* process.env.USE_BEDROCK === 'true' *)
  bedrockConstructorThrows : bool;
  ollamaConstructorThrows : bool
}.

(** The field initialisers. *)
Definition fresh : t := mk None None None.

(** The first [try] block of [initializeServices]; the boolean tells
    whether it left through [return]. *)
Definition tryPrimary (env : Startup) (net : Network) (this : t)
  : t * bool :=
  if USE_BEDROCK env then
    if bedrockConstructorThrows env then (this, false)
    else
      let this := mk (Some Bedrock) (fallbackService this)
                     (activeService this) in
      if net Bedrock then
        (mk (primaryService this) (fallbackService this)
            (primaryService this), true)
      else (this, false)
  else (this, false).

(** The second half of [initializeServices]. *)
Definition tryFallback (env : Startup) (net : Network) (this : t) : t :=
  match activeService this with
  | Some _ => this
  | None =>
      if ollamaConstructorThrows env then this
      else
        let this := mk (primaryService this) (Some Ollama)
                       (activeService this) in
        if net Ollama then
          mk (primaryService this) (fallbackService this)
             (fallbackService this)
        else this
  end.

Definition initializeServices (env : Startup) (net : Network) : t :=
  let (this, returned) := tryPrimary env net fresh in
  if returned then this else tryFallback env net this.

(** [getService]: [None] is the thrown "No LLM service is available". *)
Definition getService (this : t) : option Service := activeService this.

Definition getActiveServiceName (this : t) : string :=
  if sameRef (activeService this) (primaryService this) then "AWS Bedrock"
  else if sameRef (activeService this) (fallbackService this) then "Ollama"
  else "None".

(** [testConnection]: both providers catch their own errors. *)
Definition testConnection (this : t) (net : Network) : bool :=
  match getService this with
  | Some service => net service
  | None => false
  end.

(** Every other method is [getService] followed by the provider's
    method of the same name. *)
Definition delegate {A : Type} (this : t) (c : Call)
           (method : Service -> option A) : M A :=
  await c (match getService this with
           | Some service => method service
           | None => None
           end).

Definition analyzeResponseApproppriateness
           (this : t) (w : World) (response : string) : M ContentAnalysis :=
  delegate this CallAnalyze
    (fun service =>
       match service with
       | Bedrock => Some (BedrockService.analyzeResponseApproppriateness w)
       | Ollama =>
           Some (OllamaService.analyzeResponseApproppriateness w response)
       end).

Definition generateModerationResponse
           (this : t) (analysis : ContentAnalysis) (warningCount : Z)
           (question : string) : M ModerationResponse :=
  delegate this CallModeration
    (fun _ => Some (generateModerationResponse analysis warningCount
                                                question)).

Definition makeAgenticDecision (this : t) (w : World) : M AgenticDecision :=
  delegate this CallPlanner
    (fun _ => decisionOfReply (clockAtPlanner w) (plannerReply w)).

Definition generateNextQuestion (this : t) (w : World)
           (d : AgenticDecision) : M string :=
  delegate this (CallNextQuestion (decision d)) (fun _ => questionReply w).

(** The two methods below return the model's text; their callers parse
    it.  [None] is a rejected invocation. *)
Definition textOf (r : Reply) : option Reply :=
  match r with
  | Rejected => None
  | _ => Some r
  end.

Definition generatePracticeFeedback (this : t) (w : World) : M Reply :=
  delegate this CallPracticeFeedback (fun _ => textOf (feedbackReply w)).

Definition generateEvaluation (this : t) (w : World) : M Reply :=
  delegate this CallEvaluation (fun _ => textOf (evaluationReply w)).

End LLMService.

(** ** The session model ([models/InterviewSession.ts])

    The schemas decide what a document keeps and what [save] accepts.
    What is written out here are the validators whose verdict the values
    at hand determine; what else the store may object to (the casts of
    other kinds of values, the unique index, the connection) is the
    [saveSucceeds] of the world. *)

Module InterviewSessionModel.

(** The cast of a value to a path of type [String]: [None] is a cast
    error, [Some None] an absent value.  Numbers and booleans are
    printed; an array is refused, and so is an object unless it has a
    non-empty string [_id], which is then taken. *)
Definition castString (v : Js.value) : option (option string) :=
  match v with
  | Js.Undefined | Js.Null => Some None
  | Js.Str s => Some (Some s)
  | Js.Num _ | Js.Boolean _ => Some (Some (Js.toString v))
  | Js.Arr _ => None
  | Js.Obj fields =>
      match Js.assoc "_id" fields with
      | Js.Str id =>
          if String.eqb id EmptyString then None else Some (Some id)
      | _ => None
      end
  end.

(** [{ type: String, required: true }]: a non-empty string. *)
Definition requiredString (v : Js.value) : bool :=
  match castString v with
  | Some (Some s) => negb (String.eqb s EmptyString)
  | _ => false
  end.

(** [{ type: String, enum: values }] *)
Definition oneOf (values : list string) (x : string) : bool :=
  existsb (String.eqb x) values.

(** [messageSchema]: [content] is required. *)
Definition messageSchema (m : Message.t) : bool :=
  negb (String.eqb (Message.content m) EmptyString).

(** [agenticDecisionSchema]: [decision], [reasoning] and [context] are
    required. *)
Definition agenticDecisionSchema (d : AgenticDecision) : bool :=
  (requiredString (decision d) && requiredString (reasoning d)
   && requiredString (context d))%bool.

(** [score: { type: Number, min: 1, max: 5 }], for a score that is a
    number. *)
Definition scoreInRange (v : Js.value) : bool :=
  match v with
  | Js.Num z => (Z.leb 1 z && Z.leb z 5)%bool
  | _ => true
  end.

(** [evaluationCriteriaSchema], for a criterion that is an object. *)
Definition evaluationCriteriaSchema (v : Js.value) : bool :=
  match v with
  | Js.Obj _ => scoreInRange (Js.getOpt v "score")
  | _ => true
  end.

Definition recommendations : list string :=
  ["Strong Hire"; "Hire"; "Maybe"; "No Hire"].

(** The nested path [overall], for an object. *)
Definition overallSchema (v : Js.value) : bool :=
  match v with
  | Js.Obj _ =>
      (scoreInRange (Js.getOpt v "score")
       && match Js.getOpt v "recommendation" with
          | Js.Str r => oneOf recommendations r
          | _ => true
          end)%bool
  | _ => true
  end.

(** [evaluationSchema]: the value assigned to [session.evaluation] must be
    an object ([null] and [undefined] unset the path), its numeric scores
    in range and its recommendation one of the four. *)
Definition evaluationSchema (e : option Js.value) : bool :=
  match e with
  | None | Some Js.Undefined | Some Js.Null => true
  | Some (Js.Obj fields) =>
      let v := Js.Obj fields in
      (evaluationCriteriaSchema (Js.getOpt v "communication")
       && evaluationCriteriaSchema (Js.getOpt v "technicalDepth")
       && evaluationCriteriaSchema (Js.getOpt v "problemSolving")
       && evaluationCriteriaSchema (Js.getOpt v "leadership")
       && overallSchema (Js.getOpt v "overall"))%bool
  | Some _ => false
  end.

Definition roles : list string :=
  ["Software Engineer"; "Product Manager"; "Sales Representative";
   "Marketing Manager"; "Data Scientist"; "Designer"; "Consultant";
   "Other"].

Definition seniorities : list string :=
  ["Intern"; "Junior"; "Mid-Level"; "Senior"; "Staff"; "Principal";
   "Distinguished";
   "Associate PM"; "PM"; "Senior PM"; "Principal PM"; "Director";
   "VP Product";
   "Sales Associate"; "Account Executive"; "Senior AE";
   "Territory Manager"; "Regional Manager"; "Country Manager";
   "Global Head";
   "Marketing Associate"; "Marketing Manager"; "Senior Manager";
   "VP Marketing"; "CMO";
   "Junior Data Scientist"; "Data Scientist"; "Senior Data Scientist";
   "Staff Data Scientist"; "Principal Data Scientist";
   "Junior Designer"; "Product Designer"; "Senior Designer";
   "Staff Designer"; "Principal Designer"; "Design Director";
   "Analyst"; "Associate"; "Senior Associate"; "Manager";
   "Senior Manager";
   "Entry Level"; "Mid Level"; "Senior Level"; "Leadership"].

Definition interviewTypeNames : list string :=
  ["Behavioral"; "Technical"; "System Design"; "Product Sense";
   "Case Study"; "Leadership";
   "Coding"; "Sales Roleplay"; "Negotiation"; "Strategy";
   "Campaign Planning";
   "Statistics & ML"; "Portfolio Review"; "Design Challenge";
   "Problem Solving";
   "Client Interaction"].

Definition familiarities : list string := ["known"; "mixed"; "unique"].

(** [sessionConfigSchema]: the enums of [role], [seniority],
    [interviewTypes] and [questionFamiliarity]. *)
Definition sessionConfigSchema (c : SessionConfig) : bool :=
  (oneOf roles (role c)
   && oneOf seniorities (seniority c)
   && forallb (oneOf interviewTypeNames) (interviewTypes c)
   && oneOf familiarities (questionFamiliarity c))%bool.

(** [new InterviewSessionModel(doc)].  The schemas are strict and
    [sessionConfigSchema] has no path [interviewMode]: the field is not
    kept, and [session.config.interviewMode] reads [undefined] on every
    document.  The controller only compares that field with ['practice'];
    [mock] is what the record holds for a value that is not
    ['practice']. *)
Definition construct (doc : InterviewSession) : InterviewSession :=
  let c := config doc in
  mkSession (sessionId doc) (candidateName doc) (candidateEmail doc)
            (mkConfig (role c) (seniority c) (interviewTypes c) (company c)
                      (jobDescription c) (durationMinutes c)
                      (questionFamiliarity c) mock)
            (state doc) (messages doc) (evaluation doc)
            (agenticDecisions doc) (createdAt doc) (updatedAt doc).

(** The validation [save] runs on the paths [sendMessage] writes: the
    messages, the decision log and the evaluation. *)
Definition validate (s : InterviewSession) : bool :=
  (forallb messageSchema (messages s)
   && forallb agenticDecisionSchema (agenticDecisions s)
   && evaluationSchema (evaluation s))%bool.

(** The validation of a new document: every path. *)
Definition validateNew (s : InterviewSession) : bool :=
  (negb (String.eqb (sessionId s) EmptyString)
   && sessionConfigSchema (config s)
   && validate s)%bool.

End InterviewSessionModel.

(** ** The session store *)

Definition Store : Type := list InterviewSession.

(** [InterviewSessionModel.findOne({ sessionId })] *)
Definition findOne (db : Store) (id : string) : option InterviewSession :=
  find (fun doc => String.eqb (sessionId doc) id) db.

(** [session.save()] on a valid document obtained from [findOne]: the
    pre-save hook stamps [updatedAt], then the stored document is
    replaced. *)
Definition save (db : Store) (t : Z) (session : InterviewSession) : Store :=
  map (fun doc =>
         if String.eqb (sessionId doc) (sessionId session)
         then set_updatedAt t session else doc) db.

(** ** The controller ([controllers/InterviewController.ts]) *)

Inductive Response : Type :=
| Created (id : string) (text : string) (st : SessionState)        (* 201 *)
| Ok (id : string) (text : string) (st : SessionState)
     (ev : option Js.value)                                        (* 200 *)
| BadRequest (error : string)                                      (* 400 *)
| NotFound                                                         (* 404 *)
| ServerError                                                      (* 500 *)
| ServiceUnavailable.                                              (* 503 *)

(** ** Numbers

    JavaScript numbers are binary64; [SpecFloat] gives their arithmetic,
    rounding to nearest, ties to even. *)

Module Double.

Definition t : Type := SpecFloat.spec_float.

Definition prec : Z := 53.
Definition emax : Z := 1024.

(** An integer as a number: exact below [2^53]. *)
Definition ofZ (z : Z) : t := SpecFloat.binary_normalize prec emax z 0 false.

Definition mul (x y : t) : t := SpecFloat.SFmul prec emax x y.
Definition div (x y : t) : t := SpecFloat.SFdiv prec emax x y.

(** [x >= y] *)
Definition geb (x y : t) : bool := SpecFloat.SFleb y x.

(** The literal [0.8]: the binary64 number nearest to 4/5,
    [0x1.999999999999ap-1]. *)
Definition lit_0_8 : t :=
  SpecFloat.S754_finite false 7205759403792794 (-53).

End Double.

Module InterviewController.

(** *** Helper methods *)

(** [(Date.now() - state.startTime.getTime()) / (1000 * 60)], where it is
    compared with the integer [durationMinutes]. *)
Definition elapsedMinutes (clock start : Z) : Q :=
  Qmake (clock - start) 60000.

(** The same quotient as the number the source computes. *)
Definition elapsedMinutesNumber (clock start : Z) : Double.t :=
  Double.div (Double.ofZ (clock - start)) (Double.ofZ (1000 * 60)).

(** [Math.max(6, Math.min(12, Math.floor(durationMinutes / 4)))] *)
Definition maxQuestions (durationMinutes : Z) : Z :=
  Z.max 6 (Z.min 12 (durationMinutes / 4)).

(** [shouldEndInterview(state, durationMinutes)], with the reading of
    [Date.now()] as an argument. *)
Definition shouldEndInterview
           (st : SessionState) (clock : Z) (durationMinutes : Z) : bool :=
  match startTime st with
  | None => false
  | Some start =>
      let elapsed := elapsedMinutes clock start in
      (Qle_bool (inject_Z durationMinutes) elapsed
       || Z.leb (maxQuestions durationMinutes) (questionsAsked st)
       || Phase_eqb (phase st) completed)%bool
  end.

(** *** The wrap-up thresholds *)

(** [Math.ceil(n / d)] on integers. *)
Definition ceilDiv (n d : Z) : Z := - ((- n) / d).

(** [session.config.durationMinutes * 0.8] *)
Definition minTimeElapsed (durationMinutes : Z) : Double.t :=
  Double.mul (Double.ofZ durationMinutes) Double.lit_0_8.

(** [Math.max(3, Math.ceil(session.config.durationMinutes / 5))] *)
Definition minQuestions (durationMinutes : Z) : Z :=
  Z.max 3 (ceilDiv durationMinutes 5).

(** [elapsedMinutes >= minTimeElapsed
     && session.state.questionsAsked >= minQuestions] *)
Definition canWrapUp (elapsed : Double.t) (session : InterviewSession)
  : bool :=
  (Double.geb elapsed (minTimeElapsed (durationMinutes (config session)))
   && Z.leb (minQuestions (durationMinutes (config session)))
            (questionsAsked (state session)))%bool.

(** *** sendMessage, piece by piece *)

(** The local variables that survive the branches of [sendMessage]. *)
Record Progress : Type := mkProgress {
  session : InterviewSession;
  aiResponse : string;
  practiceEvaluation : Js.value;
  shouldEndSession : bool
}.

Definition lastQuestionOf (msgs : list Message.t) : string :=
  match lastElement
          (filter (fun m => Role_eqb (Message.role m) assistant) msgs) with
  | Some m =>
      if String.eqb (Message.content m) EmptyString
      then "Previous question" else Message.content m
  | None => "Previous question"
  end.

Definition isModerate (d : AgenticDecision) : bool :=
  Js.is_string (decision d) "MODERATE".

Definition warningCountOf (s : InterviewSession) : Z :=
  Z.of_nat (List.length (filter isModerate (agenticDecisions s))).

(** Lines 142-153: the user message, the activity stamp, the counter. *)
Definition receive (w : World) (text : string) (s : InterviewSession)
  : InterviewSession :=
  let s := pushMessage (Message.mk user text (now w) None) s in
  let s := updState (set_lastActivity (now w)) s in
  updState (fun st => set_questionsAsked (questionsAsked st + 1) st) s.

Definition terminateEntry (w : World) (analysis : ContentAnalysis)
  : AgenticDecision :=
  mkDecision (now w) (Js.Str "TERMINATE")
             (Js.Str "Session terminated due to inappropriate behavior")
             (reason analysis).

Definition moderateEntry (w : World) (analysis : ContentAnalysis)
  : AgenticDecision :=
  mkDecision (now w) (Js.Str "MODERATE")
             (Js.Str "Inappropriate or off-topic response detected")
             (reason analysis).

(** [isActive = false; endTime = now; phase = 'completed'] *)
Definition freeze (w : World) (st : SessionState) : SessionState :=
  set_phase completed (set_endTime (now w) (set_isActive false st)).

(** Lines 198-229: the branch taken when the gate
    [!isAppropriate || containsProfanity] holds. *)
Definition moderationBranch
           (llm : LLMService.t) (w : World) (s : InterviewSession)
           (analysis : ContentAnalysis) (warningCount : Z)
           (lastQuestion : string) : M Progress :=
  (moderationResponse <-
     LLMService.generateModerationResponse llm analysis warningCount
                                           lastQuestion ;;
   if shouldTerminate moderationResponse then
     let s := updState (freeze w) s in
     let s := pushDecision (terminateEntry w analysis) s in
     ret (mkProgress s (message moderationResponse) Js.Null true)
   else if negb (String.eqb (message moderationResponse) EmptyString) then
     let s := pushDecision (moderateEntry w analysis) s in
     ret (mkProgress s (message moderationResponse) Js.Null false)
   else ret (mkProgress s EmptyString Js.Null false))%turn.

(** The template literal of the practice branch; [None] when one of its
    property reads throws. *)
Definition bullet : string :=
  String (ascii_of_nat 226)
         (String (ascii_of_nat 128) (String (ascii_of_nat 162) " ")).

Definition item (v : Js.value) (field : string) (i : nat) : option string :=
  match Js.get v field with
  | Some arr =>
      match Js.index arr i with
      | Some x => Some (Js.toString x)
      | None => None
      end
  | None => None
  end.

Definition lines (prefix : nat -> string) (v : Js.value) (field : string)
           (n : nat) : option string :=
  fold_left
    (fun acc i =>
       match acc, item v field i with
       | Some text, Some x => Some (text ++ nl ++ prefix i ++ x)
       | _, _ => None
       end)
    (seq 0 n) (Some EmptyString).

Definition numbered (i : nat) : string :=
  Js.string_of_Z (Z.of_nat (S i)) ++ ". ".

Definition renderFeedback (pe : Js.value) : option string :=
  match Js.get pe "score", Js.get pe "feedback",
        lines numbered pe "sampleAnswers" 5,
        lines (fun _ => bullet) pe "improvements" 3,
        Js.get pe "nextQuestion" with
  | Some score, Some feedback, Some samples, Some improvements,
    Some next =>
      Some ("Your Score: " ++ Js.toString score ++ "/5" ++ nl ++ nl
            ++ "Feedback: " ++ Js.toString feedback ++ nl ++ nl
            ++ "Sample Answers:" ++ samples ++ nl ++ nl
            ++ "Improvements:" ++ improvements ++ nl ++ nl
            ++ "Next Question: " ++ Js.toString next)
  | _, _, _, _, _ => None
  end.

Definition practiceApology : string :=
  "Great answer! Let me ask you the next question...".

(** Lines 232-263: practice mode. *)
Definition practiceBranch
           (llm : LLMService.t) (w : World) (s : InterviewSession)
  : M Progress :=
  (feedbackText <- LLMService.generatePracticeFeedback llm w ;;
   match feedbackText with
   | Parsed pe =>
       match renderFeedback pe with
       | Some text => ret (mkProgress s text pe false)
       | None => ret (mkProgress s practiceApology pe false)
       end
   | _ => ret (mkProgress s practiceApology Js.Null false)
   end)%turn.

(** Lines 276-316: the [switch] on the planner's decision.  [elapsed] is
    [elapsedMinutes] of line 271. *)
Definition govern
           (llm : LLMService.t) (w : World) (s : InterviewSession)
           (d : AgenticDecision) (elapsed : Double.t) : M Progress :=
  let newPhase := phase (state s) in
  (if Js.is_string (decision d) "WRAP_UP" then
     if canWrapUp elapsed s then
       let newPhase := wrap_up in
       text <- LLMService.generateNextQuestion llm w d ;;
       ret (mkProgress (updState (set_phase newPhase) s) text Js.Null true)
     else
       let newPhase := phase (state s) in
       text <- LLMService.generateNextQuestion llm w
                 (mkDecision (timestamp d) (Js.Str "MOVE_NEXT")
                             (reasoning d) (context d)) ;;
       ret (mkProgress (updState (set_phase newPhase) s) text Js.Null false)
   else if Js.is_string (decision d) "CHANGE_PHASE" then
     let newPhase := getNextPhase (phase (state s)) in
     let s := updState (set_phase newPhase) s in
     text <- LLMService.generateNextQuestion llm w d ;;
     ret (mkProgress (updState (set_phase newPhase) s) text Js.Null false)
   else
     text <- LLMService.generateNextQuestion llm w d ;;
     ret (mkProgress (updState (set_phase newPhase) s) text Js.Null false)
  )%turn.

(** Lines 266-317: mock mode. *)
Definition mockBranch
           (llm : LLMService.t) (w : World) (s : InterviewSession)
  : M Progress :=
  (d <- LLMService.makeAgenticDecision llm w ;;
   let s := pushDecision d s in
   let elapsed :=
     match startTime (state s) with
     | Some start => elapsedMinutesNumber (clockAtDecision w) start
     | None => Double.ofZ 0
     end in
   govern llm w s d elapsed)%turn.

(** Lines 353-361. *)
Definition fallbackEvaluation : Js.value :=
  Js.Obj
    [("overall",
      Js.Obj
        [("score", Js.Num 3);
         ("recommendation", Js.Str "Maybe");
         ("strengths", Js.Arr [Js.Str "Participated in the interview"]);
         ("improvements",
          Js.Arr [Js.Str "Could provide more detailed responses"]);
         ("detailedFeedback",
          Js.Str "Thank you for completing the mock interview. Please review the conversation for areas of improvement.")])].

Definition isPractice (m : InterviewMode) : bool :=
  match m with
  | practice => true
  | mock => false
  end.

(** Lines 320-330: the assistant message. *)
Definition reply (w : World) (p : Progress) : InterviewSession :=
  let s := session p in
  pushMessage
    (Message.mk assistant (aiResponse p) (now w)
       (Some (Message.mkMetadata
                (phase (state s))
                (isPractice (interviewMode (config s)))
                (Js.getOpt (practiceEvaluation p) "score"))))
    s.

(** Lines 332-364: the end-of-interview check, the freeze and the
    evaluation. *)
Definition conclude
           (llm : LLMService.t) (w : World) (shouldEndSession : bool)
           (s : InterviewSession) : M InterviewSession :=
  let shouldEnd :=
    (shouldEndSession
     || shouldEndInterview (state s) (clockAtCheck w)
                           (durationMinutes (config s)))%bool in
  (if shouldEnd then
     let s := updState (freeze w) s in
     if negb shouldEndSession then
       evaluationText <- LLMService.generateEvaluation llm w ;;
       match evaluationText with
       | Parsed e => ret (set_evaluation e s)
       | _ => ret (set_evaluation fallbackEvaluation s)
       end
     else ret s
   else ret s)%turn.

(** The three-way branch of lines 197-318. *)
Definition respond
           (llm : LLMService.t) (w : World) (s : InterviewSession)
           (analysis : ContentAnalysis) (warningCount : Z)
           (lastQuestion : string) : M Progress :=
  if (negb (isAppropriate analysis) || containsProfanity analysis)%bool
  then moderationBranch llm w s analysis warningCount lastQuestion
  else if isPractice (interviewMode (config s))
       then practiceBranch llm w s
       else mockBranch llm w s.

(** Lines 142-364: one turn on an active session, up to the save. *)
Definition turn
           (llm : LLMService.t) (w : World) (s : InterviewSession)
           (text : string) : M (InterviewSession * string) :=
  let s := receive w text s in
  let lastQuestion := lastQuestionOf (messages s) in
  let warningCount := warningCountOf s in
  (analysis <- LLMService.analyzeResponseApproppriateness llm w text ;;
   p <- respond llm w s analysis warningCount lastQuestion ;;
   s' <- conclude llm w (shouldEndSession p) (reply w p) ;;
   ret (s', aiResponse p))%turn.

Record SendMessageRequest : Type := mkSend {
  requestSessionId : string;
  requestMessage : string
}.

(** [sendMessage]: the response, the store afterwards, and the calls
    made. *)
Definition sendMessage
           (llm : LLMService.t) (w : World) (db : Store)
           (body : SendMessageRequest) : list Call * Response * Store :=
  if (String.eqb (requestSessionId body) EmptyString
      || String.eqb (requestMessage body) EmptyString)%bool
  then
    ([], BadRequest
           "Missing required fields: sessionId and message are required",
     db)
  else
    match findOne db (requestSessionId body) with
    | None => ([], NotFound, db)
    | Some s =>
        if negb (isActive (state s)) then
          ([], BadRequest "Interview session has ended", db)
        else
          match (r <- turn llm w s (requestMessage body) ;;
                 _ <- await CallSave
                        (if (InterviewSessionModel.validate (fst r)
                             && saveSucceeds w)%bool
                         then Some tt else None) ;;
                 ret r)%turn with
          | (made, Some (s', text)) =>
              (made,
               Ok (requestSessionId body) text (state s') (evaluation s'),
               save db (clockAtSave w) s')
          | (made, None) => (made, ServerError, db)
          end
    end.

(** *** createSession *)

Record CreateSessionRequest : Type := mkCreate {
  newCandidateName : option string;
  newCandidateEmail : option string;
  newRole : string;
  newSeniority : string;
  newInterviewTypes : list string;
  newCompany : option string;
  newJobDescription : option string;
  newDurationMinutes : option Z;
  newQuestionFamiliarity : option string;
  newInterviewMode : option InterviewMode
}.

(** What [createSession] reads from outside. *)
Record Birth : Type := mkBirth {
  bornAt : Z;                       (* [new Date()] *)
  uuid : string;                    (* [uuidv4()] *)
  reachable : Network;              (* for [testConnection] *)
  initialQuestion : option string;  (* [generateInitialQuestion] *)
  stored : bool                     (* [session.save()] resolves, as far
                                       as the validators written out
                                       leave it open *)
}.

Definition orDefault {A : Type} (o : option A) (d : A) : A :=
  match o with
  | Some a => a
  | None => d
  end.

Definition initialState (t : Z) : SessionState :=
  mkState warmup 0 0 (Some t) None t true.

Definition createSession
           (llm : LLMService.t) (b : Birth) (db : Store)
           (body : CreateSessionRequest) : list Call * Response * Store :=
  if (String.eqb (newRole body) EmptyString
      || String.eqb (newSeniority body) EmptyString
      || Nat.eqb (List.length (newInterviewTypes body)) 0)%bool
  then
    ([], BadRequest
           "Missing required fields: role, seniority, and interviewTypes are required",
     db)
  else if negb (LLMService.testConnection llm (reachable b)) then
    ([CallTestConnection], ServiceUnavailable, db)
  else
    let cfg :=
      mkConfig (newRole body) (newSeniority body) (newInterviewTypes body)
               (orDefault (newCompany body) "Generic")
               (newJobDescription body)
               (orDefault (newDurationMinutes body) 30)
               (orDefault (newQuestionFamiliarity body) "mixed")
               (orDefault (newInterviewMode body) mock) in
    let st := initialState (bornAt b) in
    match LLMService.delegate llm CallInitialQuestion
                              (fun _ => initialQuestion b) with
    | (_, Some question) =>
        let doc :=
          InterviewSessionModel.construct
            (mkSession (uuid b) (newCandidateName body)
                       (newCandidateEmail body) cfg st
                       [Message.mk assistant question (bornAt b) None]
                       None [] (bornAt b) (bornAt b)) in
        if (InterviewSessionModel.validateNew doc && stored b)%bool then
          ([CallTestConnection; CallInitialQuestion; CallSave],
           Created (uuid b) question st, (db ++ [doc])%list)
        else
          ([CallTestConnection; CallInitialQuestion; CallSave],
           ServerError, db)
    | (_, None) =>
        ([CallTestConnection; CallInitialQuestion], ServerError, db)
    end.

(** *** healthCheck: [(connected, llmService)] *)
Definition healthCheck (llm : LLMService.t) (net : Network)
  : bool * string :=
  (LLMService.testConnection llm net, LLMService.getActiveServiceName llm).

End InterviewController.

(** ** Vocabulary for the properties *)

Import InterviewController.

(** How the active provider classifies a message. *)
Definition classify (llm : LLMService.t) (w : World) (text : string)
  : option ContentAnalysis :=
  outcome (LLMService.analyzeResponseApproppriateness llm w text).

(** What the planner proposes. *)
Definition proposal (llm : LLMService.t) (w : World)
  : option AgenticDecision :=
  outcome (LLMService.makeAgenticDecision llm w).

(** The gate of line 197. *)
Definition flagged (a : ContentAnalysis) : bool :=
  (negb (isAppropriate a) || containsProfanity a)%bool.

(** The four ways through lines 197-230. *)
Inductive Verdict : Type := Terminate | Moderate | Silent | Proceed.

Definition verdict (a : ContentAnalysis) (warningCount : Z)
           (question : string) : Verdict :=
  if flagged a then
    let r := generateModerationResponse a warningCount question in
    if shouldTerminate r then Terminate
    else if negb (String.eqb (message r) EmptyString) then Moderate
    else Silent
  else Proceed.

Definition frozen (s : InterviewSession) : Prop :=
  isActive (state s) = false
  /\ endTime (state s) <> None
  /\ phase (state s) = completed.

Definition isUser (m : Message.t) : bool := Role_eqb (Message.role m) user.

(** The user messages a session has taken in. *)
Definition userTurns (s : InterviewSession) : Z :=
  Z.of_nat (List.length (filter isUser (messages s))).

(** The state the end-of-interview check of a turn looks at when the
    branches left the phase alone. *)
Definition received (w : World) (text : string) (s : InterviewSession)
  : SessionState :=
  state (receive w text s).

(** A session as [createSession] seeds it: started, active, nothing
    asked yet. *)
Definition seeded (s : InterviewSession) : Prop :=
  startTime (state s) <> None
  /\ questionsAsked (state s) = 0
  /\ userTurns s = 0
  /\ isActive (state s) = true.

(** What a conversation preserves, for a 30-minute session. *)
Definition within30 (s : InterviewSession) : Prop :=
  durationMinutes (config s) = 30
  /\ startTime (state s) <> None
  /\ questionsAsked (state s) = userTurns s
  /\ (isActive (state s) = true -> userTurns s <= 6)
  /\ (isActive (state s) = false -> frozen s /\ userTurns s <= 7).

(** [elapsedMinutes] of line 271, for the session as received. *)
Definition elapsedAtDecision (w : World) (s : InterviewSession)
  : Double.t :=
  match startTime (state s) with
  | Some start => elapsedMinutesNumber (clockAtDecision w) start
  | None => Double.ofZ 0
  end.

(** Whether the end-of-interview test of line 333 holds for the session
    as it stands after the assistant message was appended. *)
Definition fires (w : World) (flag : bool) (s : InterviewSession) : bool :=
  (flag || shouldEndInterview (state s) (clockAtCheck w)
                              (durationMinutes (config s)))%bool.

(** A document as [createSession] stored it. *)
Definition created (llm : LLMService.t) (doc : InterviewSession) : Prop :=
  exists (b : Birth) (db : Store) (body : CreateSessionRequest)
         (made : list Call) (id question : string) (st : SessionState),
    createSession llm b db body
    = (made, Created id question st, (db ++ [doc])%list).

(** The three texts of a decision are non-empty strings. *)
Definition spelledOut (d : AgenticDecision) : bool :=
  match decision d, reasoning d, context d with
  | Js.Str x, Js.Str y, Js.Str z =>
      (negb (String.eqb x EmptyString) && negb (String.eqb y EmptyString)
       && negb (String.eqb z EmptyString))%bool
  | _, _, _ => false
  end.

(** The rest of a turn goes through: the question comes back as [q] and is
    not empty, the evaluation, if the turn asks for one, is not refused
    and fits its schema, and the store accepts the write. *)
Definition goesThrough (w : World) (q : string) : Prop :=
  questionReply w = Some q
  /\ q <> EmptyString
  /\ evaluationReply w <> Rejected
  /\ (forall e, evaluationReply w = Parsed e ->
                InterviewSessionModel.evaluationSchema (Some e) = true)
  /\ saveSucceeds w = true.

(** A conversation with one stored session: each message goes through
    [sendMessage] against the store holding that session. *)
Fixpoint converse (llm : LLMService.t) (s : InterviewSession)
         (inputs : list (World * string)) : InterviewSession :=
  match inputs with
  | [] => s
  | (w, text) :: rest =>
      let '(_, _, db) := sendMessage llm w [s] (mkSend (sessionId s) text) in
      converse llm (hd s db) rest
  end.

(** *** The facade as an object with a life *)

Inductive Request : Type :=
| AskTestConnection
| AskActiveServiceName
| AskService (c : Call).     (* any delegating method *)

Inductive Observation : Type :=
| Connected (b : bool)
| ServiceName (name : string)
| ServedBy (provider : option Service).

(** One method call on the facade: the object afterwards and what the
    caller sees.  No method assigns a field. *)
Definition handle (this : LLMService.t) (net : Network) (r : Request)
  : LLMService.t * Observation :=
  match r with
  | AskTestConnection => (this, Connected (LLMService.testConnection this net))
  | AskActiveServiceName =>
      (this, ServiceName (LLMService.getActiveServiceName this))
  | AskService _ => (this, ServedBy (LLMService.getService this))
  end.

Fixpoint serve (this : LLMService.t) (events : list (Network * Request))
  : LLMService.t * list Observation :=
  match events with
  | [] => (this, [])
  | (net, r) :: rest =>
      let (this', o) := handle this net r in
      let (final, os) := serve this' rest in
      (final, o :: os)
  end.

Definition serviceName (p : Service) : string :=
  match p with
  | Bedrock => "AWS Bedrock"
  | Ollama => "Ollama"
  end.

(** An observation agrees with [p] being the active provider. *)
Definition agrees (p : Service) (o : Observation) : Prop :=
  match o with
  | Connected _ => True
  | ServiceName name => name = serviceName p
  | ServedBy q => q = Some p
  end.

(** *** Concrete sessions and worlds for the examples *)

Definition llmOllama : LLMService.t :=
  LLMService.mk None (Some Ollama) (Some Ollama).

Definition llmBedrock : LLMService.t :=
  LLMService.mk (Some Bedrock) None (Some Bedrock).

Definition engineer (d : Z) (mode : InterviewMode) : SessionConfig :=
  mkConfig "Software Engineer" "Senior" ["Technical"] "Generic" None d
           "mixed" mode.

Definition opening : Message.t :=
  Message.mk assistant "Tell me about a project you led." 0 None.

(** The document [createSession] stores at time 0. *)
Definition newcomer (d : Z) (mode : InterviewMode) : InterviewSession :=
  mkSession "s-1" None None (engineer d mode) (initialState 0) [opening]
            None [] 0 0.

(** The same session after [n] answered questions, in phase [p]. *)
Definition seasoned (d : Z) (n : Z) (p : Phase) : InterviewSession :=
  mkSession "s-1" None None (engineer d mock)
            (mkState p 0 n (Some 0) None 0 true) [opening] None [] 0 0.

(** A planner reply naming an action. *)
Definition says (action : string) : Reply :=
  Parsed (Js.Obj [("decision", Js.Str action);
                  ("reasoning", Js.Str "because");
                  ("context", Js.Str "seen")]).

(** A moderation reply from the model. *)
Definition rates (appropriate onTopic profanity : bool) (sev : string)
  : Reply :=
  Parsed (Js.Obj [("isAppropriate", Js.Boolean appropriate);
                  ("containsProfanity", Js.Boolean profanity);
                  ("isAbusive", Js.Boolean false);
                  ("isOnTopic", Js.Boolean onTopic);
                  ("severity", Js.Str sev);
                  ("reason", Js.Str "as rated")]).

Definition fine : Reply := rates true true false "low".

Definition minute : Z := 60000.

(** A world in which every clock reads [t], the model answers every other
    prompt, and the store accepts the save. *)
Definition world (t : Z) (moderation planner : Reply) : World :=
  mkWorld t t t t false false moderation planner
          (Some "What would you do differently?") Garbled Garbled true t.

(** One earlier warning in the decision log. *)
Definition warned (s : InterviewSession) : InterviewSession :=
  pushDecision
    (mkDecision 0 (Js.Str "MODERATE")
                (Js.Str "Inappropriate or off-topic response detected")
                (Js.Str "as rated")) s.

(** The word [caf] followed by U+00E9, between two U+00A0: eight bytes,
    six UTF-16 code units, four of them left by [trim]. *)
Definition shortAnswer : string :=
  String (ascii_of_nat 194) (String (ascii_of_nat 160) "caf")
    ++ String (ascii_of_nat 195) (String (ascii_of_nat 169)
         (String (ascii_of_nat 194) (String (ascii_of_nat 160) EmptyString))).

(** [n] answers, one a minute, each passing moderation, the planner
    proposing [MOVE_NEXT] every time. *)
Definition answers (n : nat) : list (World * string) :=
  map (fun i => (world (Z.of_nat (S i) * minute) fine (says "MOVE_NEXT"),
                 "Here is my answer."))
      (seq 0 n).

(** ** Vocabulary for the further properties *)

(** The roles appended to a transcript by [n] answered turns. *)
Fixpoint exchanges (n : nat) : list Role :=
  match n with
  | O => []
  | S k => user :: assistant :: exchanges k
  end.

(** An active session is not in phase [completed]. *)
Definition livePhase (s : InterviewSession) : Prop :=
  isActive (state s) = true -> phase (state s) <> completed.

(** A session that is inactive is frozen: [endTime] set, phase
    [completed]. *)
Definition closedProperly (s : InterviewSession) : Prop :=
  isActive (state s) = false -> frozen s.

(** What a conversation preserves for a started session of any
    duration. *)
Definition withinLimit (s : InterviewSession) : Prop :=
  startTime (state s) <> None
  /\ questionsAsked (state s) = userTurns s
  /\ (isActive (state s) = true ->
      userTurns s < maxQuestions (durationMinutes (config s)))
  /\ (isActive (state s) = false ->
      frozen s /\ userTurns s <= maxQuestions (durationMinutes (config s))).

(** The entries a turn appends to the decision log, by the way it took
    through [sendMessage]. *)
Definition logged (llm : LLMService.t) (w : World) (s : InterviewSession)
           (a : ContentAnalysis) : list AgenticDecision :=
  match verdict a (warningCountOf s) (lastQuestionOf (messages s)) with
  | Terminate => [terminateEntry w a]
  | Moderate => [moderateEntry w a]
  | Silent => []
  | Proceed =>
      if isPractice (interviewMode (config s)) then []
      else match proposal llm w with
           | Some d => [d]
           | None => []
           end
  end.

(** ** The regular-expression classifier

    [BedrockService.analyzeResponseApproppriateness] and the earlier
    revision of [OllamaService] decide by regular expressions and
    substring tests.  Strings are sequences of bytes here; the patterns
    only name ASCII characters. *)

Module RegexClassifier.

Definition inRange (lo hi : nat) (c : ascii) : bool :=
  (Nat.leb lo (nat_of_ascii c) && Nat.leb (nat_of_ascii c) hi)%bool.

(** [[a-zA-Z]] *)
Definition isLetter (c : ascii) : bool :=
  (inRange 65 90 c || inRange 97 122 c)%bool.

(** [\w] *)
Definition isWordChar (c : ascii) : bool :=
  (isLetter c || inRange 48 57 c || Nat.eqb (nat_of_ascii c) 95)%bool.

(** The canonical form under the [i] flag. *)
Definition toLower (c : ascii) : ascii :=
  if inRange 65 90 c then ascii_of_nat (nat_of_ascii c + 32) else c.

(** [/[a-zA-Z]{3,}/.test(s)]; [run] is the number of letters just before
    [s]. *)
Fixpoint letterRun (run : nat) (s : string) : bool :=
  match s with
  | EmptyString => false
  | String c rest =>
      if isLetter c
      then if Nat.leb 2 run then true else letterRun (S run) rest
      else letterRun 0 rest
  end.

Definition hasThreeLetters (s : string) : bool := letterRun 0 s.

(** [s.includes(t)] *)
Fixpoint includes (s t : string) : bool :=
  (String.prefix t s
   || match s with
      | EmptyString => false
      | String _ rest => includes rest t
      end)%bool.

(** [isVeryShortNonsense] as [BedrockService] writes it:
    [short && !letters && (a || b || c)]. *)
Definition isVeryShortNonsense (response : string) : bool :=
  (Z.ltb (strLength (trim response)) 10
   && negb (hasThreeLetters response)
   && (includes response "jklsdf" || includes response "asdf"
       || includes response "qwerty"))%bool.

(** [isVeryShortNonsense] as the earlier [OllamaService] writes it, without
    the parentheses: [short && !letters && a || b || c]. *)
Definition isVeryShortNonsenseLegacy (response : string) : bool :=
  ((Z.ltb (strLength (trim response)) 10
    && negb (hasThreeLetters response)
    && includes response "jklsdf")
   || includes response "asdf"
   || includes response "qwerty")%bool.

(** The letters of the five [profanityPatterns]; each pattern is a word
    boundary, then the letters with an optional asterisk between them,
    under the [i] flag. *)
Definition stems : list string :=
  ["fuck"; "shit"; "bitch"; "asshole"; "damn"].

(** The letters of [stem], an optional [*] after each but the last, at the
    start of [s]. *)
Fixpoint matchStem (stem s : string) : bool :=
  match stem with
  | EmptyString => true
  | String c stem' =>
      match s with
      | EmptyString => false
      | String x rest =>
          if Ascii.eqb (toLower x) c then
            match stem' with
            | EmptyString => true
            | String _ _ =>
                match rest with
                | String "*" rest' => matchStem stem' rest'
                | _ => matchStem stem' rest
                end
            end
          else false
      end
  end.

Definition matchAny (s : string) : bool :=
  existsb (fun stem => matchStem stem s) stems.

(** Some pattern matches somewhere in [s]; [prevWord] tells whether the
    character before [s] is a word character, in which case there is no
    word boundary at the start of [s]. *)
Fixpoint scan (prevWord : bool) (s : string) : bool :=
  match s with
  | EmptyString => false
  | String c rest =>
      ((negb prevWord && matchAny s) || scan (isWordChar c) rest)%bool
  end.

(** [profanityPatterns.some(pattern => pattern.test(response))] *)
Definition hasProfanity (response : string) : bool := scan false response.

(** [BedrockService.analyzeResponseApproppriateness] on the text. *)
Definition analyze (response : string) : ContentAnalysis :=
  if hasProfanity response then
    mkAnalysis false true true (Js.Str "high")
               (Js.Str "Contains inappropriate language")
  else if isVeryShortNonsense response then
    mkAnalysis true false false (Js.Str "low")
               (Js.Str "Response appears to be random characters")
  else
    mkAnalysis true true false (Js.Str "low")
               (Js.Str "Response appears appropriate").

(** The same for the earlier [OllamaService]. *)
Definition analyzeLegacy (response : string) : ContentAnalysis :=
  if hasProfanity response then
    mkAnalysis false true true (Js.Str "high")
               (Js.Str "Contains inappropriate language")
  else if isVeryShortNonsenseLegacy response then
    mkAnalysis true false false (Js.Str "low")
               (Js.Str "Response appears to be random characters")
  else
    mkAnalysis true true false (Js.Str "low")
               (Js.Str "Response appears appropriate").

Fixpoint allWordChars (s : string) : bool :=
  match s with
  | EmptyString => true
  | String c rest => (isWordChar c && allWordChars rest)%bool
  end.

Fixpoint lowerCase (s : string) : string :=
  match s with
  | EmptyString => EmptyString
  | String c rest => String (toLower c) (lowerCase rest)
  end.

End RegexClassifier.

(** The world reports, for its two regular-expression fields, what the
    patterns give on [text]. *)
Definition reads (w : World) (text : string) : Prop :=
  profanityMatch w = RegexClassifier.hasProfanity text
  /\ shortNonsense w = RegexClassifier.isVeryShortNonsense text.

(** * Properties *)

(** ** The phase machine *)

Lemma Phase_eqb_eq (a b : Phase) : Phase_eqb a b = true <-> a = b.
Proof. destruct a, b; simpl; split; congruence. Qed.

Lemma indexOfFrom_absent {A : Type} (eqb : A -> A -> bool)
      (l : list A) (x : A) (i : Z) :
  (forall y, In y l -> eqb y x = false) -> indexOfFrom eqb i l x = -1.
Proof.
  revert i; induction l as [|y l IH]; intros i Hno; simpl; [reflexivity|].
  rewrite (Hno y (or_introl eq_refl)).
  apply IH; intros z Hz; apply Hno; right; exact Hz.
Qed.

Lemma getNextPhaseName_phaseName (p : Phase) :
  getNextPhaseName (phaseName p) = phaseName (getNextPhase p).
Proof. destruct p; reflexivity. Qed.

(** C6 (as amended): for a phase at position [i] of the list,
    [getNextPhase] is the entry at [i + 1], and [wrap_up] when there is
    none (the phase is [wrap_up]); for a phase that is not in the list
    ([setup], [completed]) it is the FIRST entry, [warmup], because
    [indexOf] gives [-1].  The string version of the providers does the
    same, for every string. *)
Theorem getNextPhase_follows_list :
  (forall p i, nth_error phases i = Some p ->
               getNextPhase p = nth (S i) phases wrap_up)
  /\ getNextPhase wrap_up = wrap_up
  /\ (forall p, ~ In p phases -> getNextPhase p = warmup)
  /\ (forall name i, nth_error phaseNames i = Some name ->
                     getNextPhaseName name = nth (S i) phaseNames "wrap_up")
  /\ (forall name, ~ In name phaseNames -> getNextPhaseName name = "warmup").
Proof.
  split; [|split; [reflexivity|split; [|split]]].
  - intros p i H.
    do 6 (destruct i as [|i]; [injection H as <-; reflexivity|]).
    destruct i; discriminate H.
  - intros p H. destruct p; try reflexivity;
      exfalso; apply H; simpl; tauto.
  - intros name i H.
    do 6 (destruct i as [|i]; [injection H as <-; reflexivity|]).
    destruct i; discriminate H.
  - intros name H. unfold getNextPhaseName, indexOf.
    rewrite indexOfFrom_absent; [reflexivity|].
    intros y Hy. destruct (String.eqb_spec y name) as [->|]; [|reflexivity].
    contradiction.
Qed.

Lemma getNextPhase_follows_list_witness :
  getNextPhase technical = system_design
  /\ getNextPhase setup = warmup
  /\ getNextPhaseName "technical" = "system_design"
  /\ getNextPhaseName "completed" = "warmup".
Proof.
  destruct getNextPhase_follows_list as (Hin & _ & Hout & Hnin & Hnout).
  split; [exact (Hin technical 2%nat eq_refl)|].
  split; [apply Hout; simpl; intuition discriminate|].
  split; [exact (Hnin "technical" 2%nat eq_refl)|].
  apply Hnout; simpl; intuition discriminate.
Defined.

(** C6 (as stated) fails: a phase outside the list does not give
    [wrap_up]. *)
Lemma getNextPhase_not_found_counterexample :
  ~ In setup phases
  /\ getNextPhase setup <> wrap_up
  /\ getNextPhase completed <> wrap_up
  /\ getNextPhaseName "completed" <> "wrap_up".
Proof.
  split; [simpl; intuition discriminate|].
  repeat split; vm_compute; discriminate.
Qed.

(** ** The facade *)

Lemma serve_keeps_object (this : LLMService.t)
      (events : list (Network * Request)) :
  fst (serve this events) = this.
Proof.
  induction events as [|[net r] rest IH]; simpl; [reflexivity|].
  replace (handle this net r) with (this, snd (handle this net r))
    by (destruct r; reflexivity).
  destruct (serve this rest) as [final os] eqn:E. simpl in *. exact IH.
Qed.

Lemma serve_observations (this : LLMService.t) (p : Service)
      (events : list (Network * Request)) :
  LLMService.getService this = Some p ->
  LLMService.getActiveServiceName this = serviceName p ->
  Forall (agrees p) (snd (serve this events)).
Proof.
  intros Hs Hn.
  induction events as [|[net r] rest IH]; simpl; [constructor|].
  replace (handle this net r) with (this, snd (handle this net r))
    by (destruct r; reflexivity).
  destruct (serve this rest) as [final os] eqn:E. simpl in *.
  constructor; [|exact IH].
  destruct r; simpl; auto.
Qed.

(** C8: when start-up selected a provider [p], it is the first reachable
    one, Bedrock being tried first when enabled and Ollama otherwise; and
    through every later sequence of facade calls, whatever the network does
    meanwhile, the facade object is unchanged, every delegating call is
    served by [p] and [getActiveServiceName] (hence [healthCheck]) reports
    [p]. *)
Theorem active_provider_is_fixed :
  forall (env : LLMService.Startup) (net0 : Network) (p : Service),
    LLMService.activeService (LLMService.initializeServices env net0)
    = Some p ->
    net0 p = true
    /\ (p = Bedrock <->
        (LLMService.USE_BEDROCK env
         && negb (LLMService.bedrockConstructorThrows env)
         && net0 Bedrock)%bool = true)
    /\ forall events : list (Network * Request),
        fst (serve (LLMService.initializeServices env net0) events)
        = LLMService.initializeServices env net0
        /\ Forall (agrees p)
                  (snd (serve (LLMService.initializeServices env net0)
                              events))
        /\ forall net : Network,
            snd (healthCheck
                   (fst (serve (LLMService.initializeServices env net0)
                               events)) net)
            = serviceName p.
Proof.
  intros env net0 p Hsel.
  assert (Hname : LLMService.getActiveServiceName
                    (LLMService.initializeServices env net0)
                  = serviceName p).
  { revert Hsel. unfold LLMService.initializeServices, LLMService.tryPrimary,
      LLMService.tryFallback, LLMService.getActiveServiceName.
    destruct (LLMService.USE_BEDROCK env),
      (LLMService.bedrockConstructorThrows env),
      (LLMService.ollamaConstructorThrows env),
      (net0 Bedrock), (net0 Ollama); simpl; intros H;
      try discriminate H; injection H as <-; reflexivity. }
  split; [|split].
  - revert Hsel. unfold LLMService.initializeServices, LLMService.tryPrimary,
      LLMService.tryFallback.
    destruct (LLMService.USE_BEDROCK env),
      (LLMService.bedrockConstructorThrows env),
      (LLMService.ollamaConstructorThrows env),
      (net0 Bedrock) eqn:Hb, (net0 Ollama) eqn:Ho; simpl; intros H;
      try discriminate H; injection H as <-; assumption.
  - revert Hsel. unfold LLMService.initializeServices, LLMService.tryPrimary,
      LLMService.tryFallback.
    destruct (LLMService.USE_BEDROCK env),
      (LLMService.bedrockConstructorThrows env),
      (LLMService.ollamaConstructorThrows env),
      (net0 Bedrock), (net0 Ollama); simpl; intros H;
      try discriminate H; injection H as <-;
      split; intros H'; try reflexivity; discriminate H'.
  - intros events. split; [apply serve_keeps_object|].
    split; [apply serve_observations; assumption|].
    intros net. rewrite serve_keeps_object. exact Hname.
Qed.

(** Bedrock is down at start-up and Ollama is up; later Bedrock recovers
    and Ollama goes down.  The facade keeps reporting Ollama. *)
Lemma active_provider_is_fixed_witness :
  let env := LLMService.mkStartup true false false in
  let atStart : Network :=
    fun s => match s with Bedrock => false | Ollama => true end in
  let later : Network :=
    fun s => match s with Bedrock => true | Ollama => false end in
  let events := [(later, AskActiveServiceName); (later, AskService CallPlanner);
                 (later, AskTestConnection); (later, AskActiveServiceName)] in
  LLMService.activeService (LLMService.initializeServices env atStart)
  = Some Ollama
  /\ Forall (agrees Ollama)
            (snd (serve (LLMService.initializeServices env atStart) events))
  /\ snd (healthCheck
            (fst (serve (LLMService.initializeServices env atStart) events))
            later) = "Ollama".
Proof.
  intros env atStart later events.
  split; [reflexivity|].
  destruct (active_provider_is_fixed env atStart Ollama eq_refl)
    as (_ & _ & Hlater).
  destruct (Hlater events) as (_ & Hobs & Hhealth).
  split; [exact Hobs|exact (Hhealth later)].
Defined.

(** ** The end-of-interview check *)

(** C10: without a [startTime], [shouldEndInterview] answers [false]
    whatever the clock, the counter and the phase are, so the check at the
    end of a turn leaves such a session exactly as it is and asks for no
    evaluation. *)
Theorem shouldEndInterview_needs_startTime :
  forall (st : SessionState) (clock durationMinutes : Z),
    startTime st = None ->
    shouldEndInterview st clock durationMinutes = false
    /\ forall (llm : LLMService.t) (w : World) (s : InterviewSession),
        state s = st -> conclude llm w false s = ret s.
Proof.
  intros st clock d Hnone. unfold shouldEndInterview. rewrite Hnone.
  split; [reflexivity|].
  intros llm w s Hs. unfold conclude, shouldEndInterview.
  rewrite Hs, Hnone. reflexivity.
Qed.

Lemma shouldEndInterview_needs_startTime_witness :
  shouldEndInterview (mkState completed 0 100 None None 0 true) 99999999 30
  = false.
Proof.
  exact (proj1 (shouldEndInterview_needs_startTime
                  (mkState completed 0 100 None None 0 true) 99999999 30
                  eq_refl)).
Defined.

(** ** Turn mechanics *)

Lemma bind_outcome {A B : Type} (m : M A) (k : A -> M B) (b : B) :
  outcome (bind m k) = Some b ->
  exists a, outcome m = Some a /\ outcome (k a) = Some b.
Proof.
  destruct m as [c [a|]]; simpl; [|discriminate].
  intros H. exists a. split; [reflexivity|exact H].
Qed.

Lemma bind_calls {A B : Type} (m : M A) (k : A -> M B) :
  calls (bind m k)
  = (calls m ++ match outcome m with
                | Some a => calls (k a)
                | None => []
                end)%list.
Proof.
  destruct m as [c [a|]]; simpl.
  - reflexivity.
  - symmetry; apply app_nil_r.
Qed.

Lemma delegate_served {A : Type} (llm : LLMService.t) (p : Service)
      (c : Call) (f : Service -> option A) :
  LLMService.getService llm = Some p ->
  LLMService.delegate llm c f = ([c], f p).
Proof. intros H. unfold LLMService.delegate, await. rewrite H. reflexivity. Qed.

Lemma classify_served (llm : LLMService.t) (w : World) (text : string)
      (a : ContentAnalysis) :
  classify llm w text = Some a ->
  exists p, LLMService.getService llm = Some p.
Proof.
  unfold classify, LLMService.analyzeResponseApproppriateness,
    LLMService.delegate, await, outcome; simpl.
  destruct (LLMService.getService llm) as [p|]; [eauto|discriminate].
Qed.

Lemma analyze_calls (llm : LLMService.t) (w : World) (text : string) :
  LLMService.analyzeResponseApproppriateness llm w text
  = ([CallAnalyze], classify llm w text).
Proof. reflexivity. Qed.

Lemma planner_calls (llm : LLMService.t) (w : World) :
  LLMService.makeAgenticDecision llm w = ([CallPlanner], proposal llm w).
Proof. reflexivity. Qed.

Lemma conclude_quiet (llm : LLMService.t) (w : World) (flag : bool)
      (s : InterviewSession) :
  fires w flag s = false -> conclude llm w flag s = ret s.
Proof. unfold fires, conclude. intros ->. reflexivity. Qed.

Lemma conclude_calls (llm : LLMService.t) (w : World) (flag : bool)
      (s : InterviewSession) :
  calls (conclude llm w flag s)
  = if (fires w flag s && negb flag)%bool then [CallEvaluation] else [].
Proof.
  unfold fires, conclude.
  destruct flag; simpl; [reflexivity|].
  destruct (shouldEndInterview _ _ _); simpl; [|reflexivity].
  unfold LLMService.generateEvaluation, LLMService.delegate, await, bind.
  destruct (LLMService.getService llm); [|reflexivity].
  destruct (evaluationReply w); reflexivity.
Qed.

Lemma conclude_fired (llm : LLMService.t) (w : World) (flag : bool)
      (s s' : InterviewSession) :
  fires w flag s = true ->
  outcome (conclude llm w flag s) = Some s' ->
  state s' = freeze w (state s)
  /\ sessionId s' = sessionId s
  /\ config s' = config s
  /\ messages s' = messages s
  /\ agenticDecisions s' = agenticDecisions s
  /\ (if flag then evaluation s' = evaluation s
      else evaluation s' <> None).
Proof.
  unfold fires, conclude. intros ->.
  destruct flag; simpl.
  - intros [= <-]. simpl. tauto.
  - unfold LLMService.generateEvaluation, LLMService.delegate, await, bind,
      outcome.
    destruct (LLMService.getService llm); [|discriminate].
    destruct (evaluationReply w); simpl; try discriminate;
      intros [= <-]; simpl; repeat split; discriminate.
Qed.

Lemma freeze_frozen (w : World) (s s' : InterviewSession) :
  state s' = freeze w (state s) -> frozen s'.
Proof.
  intros H. unfold frozen. rewrite H. simpl.
  repeat split. discriminate.
Qed.

Lemma shouldEndInterview_iff (st : SessionState) (clock d : Z) :
  shouldEndInterview st clock d = true <->
  exists start,
    startTime st = Some start
    /\ (Qle (inject_Z d) (elapsedMinutes clock start)
        \/ maxQuestions d <= questionsAsked st
        \/ phase st = completed).
Proof.
  unfold shouldEndInterview.
  destruct (startTime st) as [start|].
  - rewrite !Bool.orb_true_iff, Qle_bool_iff, Z.leb_le, Phase_eqb_eq.
    split.
    + intros H. exists start. split; [reflexivity|tauto].
    + intros (start' & [= <-] & H). tauto.
  - split; [discriminate|]. intros (start & H & _). discriminate H.
Qed.

Ltac break_matches :=
  repeat match goal with
         | |- context [match ?x with _ => _ end] => destruct x eqn:?
         | |- context [if ?x then _ else _] => destruct x eqn:?
         end.

Lemma respond_frame (llm : LLMService.t) (w : World) (s : InterviewSession)
      (a : ContentAnalysis) (n : Z) (q : string) (p : Progress) :
  outcome (respond llm w s a n q) = Some p ->
  sessionId (session p) = sessionId s
  /\ config (session p) = config s
  /\ messages (session p) = messages s
  /\ evaluation (session p) = evaluation s
  /\ questionsAsked (state (session p)) = questionsAsked (state s)
  /\ startTime (state (session p)) = startTime (state s)
  /\ lastActivity (state (session p)) = lastActivity (state s)
  /\ (shouldEndSession p = false ->
      isActive (state (session p)) = isActive (state s)
      /\ endTime (state (session p)) = endTime (state s)).
Proof.
  unfold respond, moderationBranch, practiceBranch, mockBranch, govern,
    LLMService.generateModerationResponse, LLMService.generatePracticeFeedback,
    LLMService.makeAgenticDecision, LLMService.generateNextQuestion,
    LLMService.delegate, await, bind, ret, outcome.
  break_matches; cbn [snd]; intros H; try discriminate H;
    injection H as <-; cbn; repeat split; discriminate.
Qed.

Lemma warningCount_receive (w : World) (text : string) (s : InterviewSession) :
  warningCountOf (receive w text s) = warningCountOf s.
Proof. reflexivity. Qed.

Lemma turn_inv (llm : LLMService.t) (w : World) (s s' : InterviewSession)
      (text msg : string) :
  outcome (turn llm w s text) = Some (s', msg) ->
  exists a p,
    classify llm w text = Some a
    /\ outcome (respond llm w (receive w text s) a (warningCountOf s)
                        (lastQuestionOf (messages (receive w text s))))
       = Some p
    /\ outcome (conclude llm w (shouldEndSession p) (reply w p)) = Some s'
    /\ msg = aiResponse p.
Proof.
  unfold turn. intros H.
  apply bind_outcome in H. destruct H as (a & Ha & H).
  apply bind_outcome in H. destruct H as (p & Hp & H).
  apply bind_outcome in H. destruct H as (s2 & Hs2 & H).
  injection H as <- <-.
  exists a, p. repeat split; assumption.
Qed.

Lemma turn_calls (llm : LLMService.t) (w : World) (s : InterviewSession)
      (text : string) (a : ContentAnalysis) :
  classify llm w text = Some a ->
  calls (turn llm w s text)
  = (CallAnalyze
       :: calls (respond llm w (receive w text s) a (warningCountOf s)
                         (lastQuestionOf (messages (receive w text s))))
       ++ match outcome (respond llm w (receive w text s) a
                                 (warningCountOf s)
                                 (lastQuestionOf
                                    (messages (receive w text s)))) with
          | Some p => calls (conclude llm w (shouldEndSession p) (reply w p))
          | None => []
          end)%list.
Proof.
  intros Ha. unfold turn.
  rewrite bind_calls, analyze_calls. cbn [calls outcome fst snd].
  rewrite Ha. cbn [app]. f_equal.
  rewrite bind_calls. f_equal.
  destruct (outcome (respond _ _ _ _ _ _)) as [p|]; [|reflexivity].
  rewrite bind_calls. cbn [calls outcome fst snd].
  match goal with
  | |- context [match ?x with _ => _ end] => destruct x
  end; cbn; apply app_nil_r.
Qed.

(** What every answered turn does to the session, whichever branch it
    took. *)
Lemma turn_frame (llm : LLMService.t) (w : World) (s s' : InterviewSession)
      (text msg : string) :
  outcome (turn llm w s text) = Some (s', msg) ->
  sessionId s' = sessionId s
  /\ config s' = config s
  /\ startTime (state s') = startTime (state s)
  /\ questionsAsked (state s') = questionsAsked (state s) + 1
  /\ lastActivity (state s') = now w
  /\ (exists meta,
         messages s'
         = (messages s ++ [Message.mk user text (now w) None;
                           Message.mk assistant msg (now w) (Some meta)])%list)
  /\ (forall start,
         startTime (state s) = Some start ->
         Qle (inject_Z (durationMinutes (config s)))
             (elapsedMinutes (clockAtCheck w) start)
         \/ maxQuestions (durationMinutes (config s))
            <= questionsAsked (state s) + 1 ->
         frozen s')
  /\ (frozen s' \/ isActive (state s') = isActive (state s)).
Proof.
  intros H. apply turn_inv in H.
  destruct H as (a & p & Ha & Hp & Hc & ->).
  apply respond_frame in Hp.
  destruct Hp as (Hid & Hcfg & Hmsg & Hev & Hq & Hst & Hla & Hflag).
  destruct (fires w (shouldEndSession p) (reply w p)) eqn:Hf.
  - destruct (conclude_fired _ _ _ _ _ Hf Hc) as (Hs' & Hid' & Hcfg' & Hmsg' & _).
    pose proof (freeze_frozen w (reply w p) s' Hs') as Hfrozen.
    rewrite Hs', Hid', Hcfg', Hmsg'. cbn.
    rewrite Hid, Hcfg, Hmsg, Hq, Hst, Hla. cbn.
    do 5 (split; [reflexivity|]). split; [|split].
    + eexists. rewrite <- app_assoc. reflexivity.
    + intros _ _ _. exact Hfrozen.
    + left. exact Hfrozen.
  - rewrite conclude_quiet in Hc by exact Hf. injection Hc as <-. cbn.
    rewrite Hid, Hcfg, Hmsg, Hq, Hst, Hla. cbn.
    assert (Hflag' : shouldEndSession p = false).
    { unfold fires in Hf. apply Bool.orb_false_iff in Hf. tauto. }
    do 5 (split; [reflexivity|]). split; [|split].
    + eexists. rewrite <- app_assoc. reflexivity.
    + intros start Hstart Hcase. exfalso.
      unfold fires in Hf. apply Bool.orb_false_iff in Hf. destruct Hf as [_ Hf].
      assert (Hfire : shouldEndInterview (state (reply w p)) (clockAtCheck w)
                        (durationMinutes (config (reply w p))) = true).
      { apply shouldEndInterview_iff. exists start. cbn.
        rewrite Hst, Hq, Hcfg. cbn. split; [exact Hstart|].
        destruct Hcase as [H1|H2]; [left; exact H1|right; left; exact H2]. }
      rewrite Hfire in Hf. discriminate Hf.
    + right. apply Hflag in Hflag'. cbn in Hflag'. tauto.
Qed.

(** ** C1: the hard-termination rule *)

Lemma userTurns_after (s s' : InterviewSession) (text msg : string) (t : Z)
      (meta : Message.Metadata) :
  messages s'
  = (messages s ++ [Message.mk user text t None;
                    Message.mk assistant msg t (Some meta)])%list ->
  userTurns s' = userTurns s + 1.
Proof.
  intros H. unfold userTurns. rewrite H, filter_app, length_app. cbn. lia.
Qed.

(** One step of [converse]: the message is refused or lost and the stored
    session is as before, or the turn was answered and its session saved. *)
Lemma converse_step (llm : LLMService.t) (w : World) (s : InterviewSession)
      (text : string) :
  let '(_, _, db) := sendMessage llm w [s] (mkSend (sessionId s) text) in
  hd s db = s
  \/ (isActive (state s) = true
      /\ exists s' msg,
          outcome (turn llm w s text) = Some (s', msg)
          /\ hd s db = set_updatedAt (clockAtSave w) s').
Proof.
  unfold sendMessage. cbn [requestSessionId requestMessage].
  destruct (_ || _)%bool; [left; reflexivity|].
  unfold findOne. cbn [find]. rewrite String.eqb_refl.
  destruct (isActive (state s)) eqn:Hact; cbn [negb]; [|left; reflexivity].
  destruct (turn llm w s text) as [made [[s' msg]|]] eqn:Hturn;
    cbn [bind await ret fst snd app]; [|left; reflexivity].
  destruct (InterviewSessionModel.validate s' && saveSucceeds w)%bool;
    cbn [hd save map]; [|left; reflexivity].
  right. split; [reflexivity|]. exists s', msg. split; [reflexivity|].
  assert (Hid : sessionId s' = sessionId s).
  { apply (turn_frame llm w s s' text msg). rewrite Hturn. reflexivity. }
  rewrite Hid, String.eqb_refl. reflexivity.
Qed.

Lemma within30_turn (llm : LLMService.t) (w : World)
      (s s' : InterviewSession) (text msg : string) (t : Z) :
  within30 s ->
  isActive (state s) = true ->
  outcome (turn llm w s text) = Some (s', msg) ->
  within30 (set_updatedAt t s').
Proof.
  intros (Hd & Hstart & Hq & Hact & _) Hactive Hturn.
  destruct (turn_frame llm w s s' text msg Hturn)
    as (_ & Hcfg & Hst & Hq' & _ & (meta & Hmsg) & Hfire & Hor).
  pose proof (userTurns_after s s' text msg (now w) meta Hmsg) as Hu.
  specialize (Hact Hactive).
  unfold within30. cbn.
  change (userTurns (set_updatedAt t s')) with (userTurns s').
  rewrite Hcfg, Hst, Hq', Hu, Hq.
  split; [exact Hd|]. split; [exact Hstart|]. split; [reflexivity|].
  assert (Hseven : userTurns s + 1 = 7 -> frozen s').
  { intros H7. destruct (startTime (state s)) as [start|] eqn:Es;
      [|contradiction].
    apply (Hfire start eq_refl). right. rewrite Hd, Hq.
    change (maxQuestions 30) with 7. lia. }
  split.
  - intros Hact'.
    assert (userTurns s + 1 <> 7); [|lia].
    intros H7. destruct (Hseven H7) as (Hoff & _). congruence.
  - intros Hoff. split; [|lia].
    destruct Hor as [Hfr|Hsame]; [|congruence].
    destruct Hfr as (H1 & H2 & H3). repeat split; assumption.
Qed.

Lemma within30_converse (llm : LLMService.t)
      (inputs : list (World * string)) :
  forall s, within30 s -> within30 (converse llm s inputs).
Proof.
  induction inputs as [|[w text] rest IH]; intros s Hs; [exact Hs|].
  cbn [converse].
  pose proof (converse_step llm w s text) as Hstep.
  destruct (sendMessage llm w [s] (mkSend (sessionId s) text))
    as [[made resp] db].
  apply IH.
  destruct Hstep as [->|(Hact & s' & msg & Hturn & ->)]; [exact Hs|].
  exact (within30_turn llm w s s' text msg _ Hs Hact Hturn).
Qed.

Lemma seeded_within30 (s : InterviewSession) :
  seeded s -> durationMinutes (config s) = 30 -> within30 s.
Proof.
  intros (Hstart & Hq & Hu & Hact) Hd. unfold within30.
  rewrite Hq, Hu, Hact. repeat split; try assumption; try lia; discriminate.
Qed.

(** What [createSession] stores is a seeded session. *)
Lemma createSession_seeded (llm : LLMService.t) (b : Birth) (db db' : Store)
      (body : CreateSessionRequest) (made : list Call) (id text : string)
      (st : SessionState) :
  createSession llm b db body = (made, Created id text st, db') ->
  exists doc,
    db' = (db ++ [doc])%list
    /\ seeded doc
    /\ sessionId doc = id
    /\ phase (state doc) = warmup
    /\ durationMinutes (config doc) = orDefault (newDurationMinutes body) 30.
Proof.
  unfold createSession, LLMService.delegate, await.
  break_matches; intros H; try discriminate H.
  injection H as <- <- <- <- <-.
  eexists. split; [reflexivity|].
  repeat split. discriminate.
Qed.

Lemma created_shape (llm : LLMService.t) (doc : InterviewSession) :
  created llm doc ->
  exists (b : Birth) (body : CreateSessionRequest) (question : string),
    doc
    = mkSession (uuid b) (newCandidateName body) (newCandidateEmail body)
                (mkConfig (newRole body) (newSeniority body)
                          (newInterviewTypes body)
                          (orDefault (newCompany body) "Generic")
                          (newJobDescription body)
                          (orDefault (newDurationMinutes body) 30)
                          (orDefault (newQuestionFamiliarity body) "mixed")
                          mock)
                (initialState (bornAt b))
                [Message.mk assistant question (bornAt b) None]
                None [] (bornAt b) (bornAt b)
    /\ InterviewSessionModel.validateNew doc = true.
Proof.
  intros (b & db & body & made & id & question & st & H).
  revert H. unfold createSession, LLMService.delegate, await.
  destruct (_ || _)%bool; [intros H; discriminate H|].
  destruct (negb _); [intros H; discriminate H|].
  destruct (LLMService.getService llm) as [prov|];
    [|intros H; discriminate H].
  destruct (initialQuestion b) as [q|]; [|intros H; discriminate H].
  cbv zeta.
  destruct (InterviewSessionModel.validateNew _) eqn:Hvalid;
    [|intros H; discriminate H].
  destruct (stored b); [|intros H; discriminate H].
  cbn [andb]. intros H. injection H as _ _ _ _ Hdb.
  apply app_inv_head in Hdb. injection Hdb as <-.
  exists b, body, q. split; [reflexivity|exact Hvalid].
Qed.

Lemma created_seeded (llm : LLMService.t) (doc : InterviewSession) :
  created llm doc ->
  seeded doc
  /\ isPractice (interviewMode (config doc)) = false
  /\ InterviewSessionModel.validate doc = true.
Proof.
  intros H. destruct (created_shape llm doc H) as (b & body & q & -> & Hv).
  split; [repeat split; discriminate|]. split; [reflexivity|].
  unfold InterviewSessionModel.validateNew in Hv.
  apply Bool.andb_true_iff in Hv. apply Hv.
Qed.

Lemma converse_keeps_start (llm : LLMService.t)
      (inputs : list (World * string)) :
  forall s,
    startTime (state (converse llm s inputs)) = startTime (state s).
Proof.
  induction inputs as [|[w text] rest IH]; intros s; [reflexivity|].
  cbn [converse].
  pose proof (converse_step llm w s text) as Hstep.
  destruct (sendMessage llm w [s] (mkSend (sessionId s) text))
    as [[made resp] db].
  rewrite IH.
  destruct Hstep as [->|(_ & s' & msg & Hturn & ->)]; [reflexivity|].
  apply (turn_frame llm w s s' text msg Hturn).
Qed.

Lemma converse_counts (llm : LLMService.t)
      (inputs : list (World * string)) :
  forall s,
    questionsAsked (state s) = userTurns s ->
    questionsAsked (state (converse llm s inputs))
    = userTurns (converse llm s inputs).
Proof.
  induction inputs as [|[w text] rest IH]; intros s Hs; [exact Hs|].
  cbn [converse].
  pose proof (converse_step llm w s text) as Hstep.
  destruct (sendMessage llm w [s] (mkSend (sessionId s) text))
    as [[made resp] db].
  apply IH.
  destruct Hstep as [->|(_ & s' & msg & Hturn & ->)]; [exact Hs|].
  destruct (turn_frame llm w s s' text msg Hturn)
    as (_ & _ & _ & Hq & _ & (meta & Hmsg) & _).
  change (userTurns (set_updatedAt (clockAtSave w) s')) with (userTurns s').
  cbn [state set_updatedAt].
  rewrite Hq, (userTurns_after s s' text msg (now w) meta Hmsg), Hs.
  reflexivity.
Qed.

(** An answered turn after which the end-of-interview test holds leaves
    the session frozen. *)
Lemma turn_check (llm : LLMService.t) (w : World) (s s' : InterviewSession)
      (text msg : string) :
  outcome (turn llm w s text) = Some (s', msg) ->
  shouldEndInterview (state s') (clockAtCheck w) (durationMinutes (config s'))
  = true ->
  frozen s'.
Proof.
  intros Hturn Hend.
  destruct (turn_inv llm w s s' text msg Hturn) as (a & p & _ & _ & Hc & _).
  destruct (fires w (shouldEndSession p) (reply w p)) eqn:Hf.
  - destruct (conclude_fired _ _ _ _ _ Hf Hc) as (Hs' & _).
    exact (freeze_frozen w (reply w p) s' Hs').
  - rewrite conclude_quiet in Hc by exact Hf. injection Hc as <-.
    unfold fires in Hf. apply Bool.orb_false_iff in Hf.
    destruct Hf as [_ Hf]. rewrite Hend in Hf. discriminate Hf.
Qed.

(** C1: [maxQuestions 30] is 7.  Take a session that [createSession]
    stored and any messages sent to it through [sendMessage], whatever
    the planner proposes ([MOVE_NEXT] every time included) and whatever
    the moderation says.  [questionsAsked] counts the user messages it has
    taken.  A 30-minute session never takes more than seven, and is
    frozen ([isActive = false], [endTime] set, phase [completed]) once it
    has taken the seventh.  In general every answered turn after which
    the elapsed minutes have reached [durationMinutes], or
    [questionsAsked] has reached
    [max 6 (min 12 (floor (durationMinutes / 4)))], or the phase is
    [completed], leaves the session frozen. *)
Theorem hard_termination :
  maxQuestions 30 = 7
  /\ forall (llm : LLMService.t) (doc : InterviewSession)
            (inputs : list (World * string)),
      created llm doc ->
      questionsAsked (state (converse llm doc inputs))
      = userTurns (converse llm doc inputs)
      /\ (durationMinutes (config doc) = 30 ->
          userTurns (converse llm doc inputs) <= 7
          /\ (userTurns (converse llm doc inputs) = 7 ->
              frozen (converse llm doc inputs)))
      /\ forall (w : World) (text msg : string) (s' : InterviewSession),
          outcome (turn llm w (converse llm doc inputs) text)
          = Some (s', msg) ->
          (exists start,
              startTime (state s') = Some start
              /\ Qle (inject_Z (durationMinutes (config s')))
                     (elapsedMinutes (clockAtCheck w) start))
          \/ maxQuestions (durationMinutes (config s'))
             <= questionsAsked (state s')
          \/ phase (state s') = completed ->
          frozen s'.
Proof.
  split; [reflexivity|].
  intros llm doc inputs Hdoc.
  destruct (created_seeded llm doc Hdoc) as (Hseed & _).
  split; [|split].
  - apply converse_counts. destruct Hseed as (_ & Hq & Hu & _). congruence.
  - intros Hd.
    destruct (within30_converse llm inputs doc (seeded_within30 doc Hseed Hd))
      as (_ & _ & _ & Hon & Hoff).
    destruct (isActive (state (converse llm doc inputs))) eqn:Hact.
    + specialize (Hon eq_refl). split; [lia|]. intros H7. lia.
    + destruct (Hoff eq_refl) as (Hfr & Hle).
      split; [exact Hle|]. intros _. exact Hfr.
  - intros w text msg s' Hturn Hcase.
    apply (turn_check llm w _ s' text msg Hturn).
    apply shouldEndInterview_iff.
    assert (Hstart : exists start, startTime (state s') = Some start).
    { destruct (turn_frame llm w _ s' text msg Hturn) as (_ & _ & Hst & _).
      rewrite Hst, converse_keeps_start.
      destruct Hseed as (Hs & _).
      destruct (startTime (state doc)) as [start|]; [eauto|contradiction]. }
    destruct Hcase as [(start & Hs & Ht)|Hrest].
    + exists start. split; [exact Hs|]. left. exact Ht.
    + destruct Hstart as (start & Hs). exists start.
      split; [exact Hs|]. right. exact Hrest.
Qed.

Lemma newcomer_seeded (d : Z) (mode : InterviewMode) : seeded (newcomer d mode).
Proof. repeat split. discriminate. Defined.

(** Seven answers to a freshly created 30-minute interview, the planner
    saying [MOVE_NEXT] each time: active after the sixth, frozen by the
    seventh. *)
Lemma hard_termination_witness :
  created llmOllama (newcomer 30 mock)
  /\ isActive (state (converse llmOllama (newcomer 30 mock) (answers 6)))
     = true
  /\ userTurns (converse llmOllama (newcomer 30 mock) (answers 7)) = 7
  /\ frozen (converse llmOllama (newcomer 30 mock) (answers 7)).
Proof.
  assert (Hdoc : created llmOllama (newcomer 30 mock)).
  { exists (mkBirth 0 "s-1" (fun _ => true)
                    (Some "Tell me about a project you led.") true),
      [],
      (mkCreate None None "Software Engineer" "Senior" ["Technical"]
                None None (Some 30) None None).
    eexists _, _, _, _. reflexivity. }
  split; [exact Hdoc|].
  split; [vm_compute; reflexivity|].
  split; [vm_compute; reflexivity|].
  destruct hard_termination as (_ & Hrun).
  destruct (Hrun llmOllama (newcomer 30 mock) (answers 7) Hdoc)
    as (_ & H30 & _).
  destruct (H30 eq_refl) as (_ & Hfrozen).
  apply Hfrozen. vm_compute. reflexivity.
Defined.

(** ** The moderation branch *)

Lemma warningCount_nonneg (s : InterviewSession) : 0 <= warningCountOf s.
Proof. unfold warningCountOf. lia. Qed.

Lemma respond_by_verdict (llm : LLMService.t) (prov : Service) (w : World)
      (s : InterviewSession) (a : ContentAnalysis) (n : Z) (q : string) :
  LLMService.getService llm = Some prov ->
  match verdict a n q with
  | Terminate =>
      respond llm w s a n q
      = ([CallModeration],
         Some (mkProgress
                 (pushDecision (terminateEntry w a) (updState (freeze w) s))
                 (message (generateModerationResponse a n q)) Js.Null true))
  | Moderate =>
      respond llm w s a n q
      = ([CallModeration],
         Some (mkProgress (pushDecision (moderateEntry w a) s)
                          (message (generateModerationResponse a n q))
                          Js.Null false))
  | Silent =>
      respond llm w s a n q
      = ([CallModeration], Some (mkProgress s EmptyString Js.Null false))
  | Proceed =>
      respond llm w s a n q
      = if isPractice (interviewMode (config s))
        then practiceBranch llm w s else mockBranch llm w s
  end.
Proof.
  intros Hs. unfold verdict, respond, flagged.
  destruct (negb (isAppropriate a) || containsProfanity a)%bool;
    [|reflexivity].
  unfold moderationBranch, LLMService.generateModerationResponse.
  rewrite (delegate_served llm prov) by exact Hs.
  cbn [bind].
  destruct (shouldTerminate (generateModerationResponse a n q));
    [reflexivity|].
  destruct (negb (message (generateModerationResponse a n q) =? ""));
    reflexivity.
Qed.

(** A turn, once the classification and the branch taken are known. *)
Lemma turn_after_respond (llm : LLMService.t) (w : World)
      (s : InterviewSession) (text : string) (a : ContentAnalysis)
      (made : list Call) (p : Progress) :
  classify llm w text = Some a ->
  respond llm w (receive w text s) a (warningCountOf s)
          (lastQuestionOf (messages (receive w text s)))
  = (made, Some p) ->
  calls (turn llm w s text)
  = (CallAnalyze :: made
       ++ calls (conclude llm w (shouldEndSession p) (reply w p)))%list
  /\ outcome (turn llm w s text)
     = option_map (fun s' => (s', aiResponse p))
                  (outcome (conclude llm w (shouldEndSession p) (reply w p))).
Proof.
  intros Ha Hr. split.
  - rewrite (turn_calls llm w s text a Ha), Hr. reflexivity.
  - unfold turn. cbv zeta.
    change (warningCountOf (receive w text s)) with (warningCountOf s).
    rewrite analyze_calls, Ha. cbn [bind]. rewrite Hr.
    cbn [bind fst snd]. unfold outcome.
    destruct (conclude llm w (shouldEndSession p) (reply w p)) as [c [s2|]];
      reflexivity.
Qed.

Lemma escalation_verdict (a : ContentAnalysis) (n : Z) (q : string) :
  0 <= n ->
  containsProfanity a = true
  \/ (Js.is_string (severity a) "high" = true /\ isAppropriate a = false) ->
  flagged a = true
  /\ (1 <= n ->
      verdict a n q = Terminate
      /\ message (generateModerationResponse a n q) = terminationNotice)
  /\ (n = 0 ->
      verdict a n q = Moderate
      /\ message (generateModerationResponse a n q) = warningNotice 1 q).
Proof.
  intros Hn Hcase.
  assert (Hflag : flagged a = true).
  { unfold flagged. destruct Hcase as [->|[_ ->]];
      [apply Bool.orb_true_r|reflexivity]. }
  assert (Hgate : (containsProfanity a
                   || Js.is_string (severity a) "high")%bool = true).
  { destruct Hcase as [->|[-> _]]; [reflexivity|apply Bool.orb_true_r]. }
  split; [exact Hflag|]. unfold verdict, generateModerationResponse.
  rewrite Hflag, Hgate. split.
  - intros H1. replace (Z.leb 2 (n + 1)) with true
      by (symmetry; apply Z.leb_le; lia).
    split; reflexivity.
  - intros ->. split; reflexivity.
Qed.

Lemma conclude_flagged (llm : LLMService.t) (w : World)
      (s : InterviewSession) :
  conclude llm w true s = ret (updState (freeze w) s).
Proof. reflexivity. Qed.

(** C2 (as amended): take a turn whose message is classified with
    profanity, or with severity [high] and as not appropriate (the gate of
    line 197 lets nothing else through to the escalation).  The planner is
    not called.  If the decision log already holds a [MODERATE] entry, the
    turn is answered with the termination notice after exactly two facade
    calls, the session is inactive with [endTime = now] and phase
    [completed], a [TERMINATE] entry is appended and no evaluation is
    made.  If the log holds none, every answered turn appends a [MODERATE]
    entry and answers with the first warning, which repeats the
    question. *)
Theorem moderation_escalation :
  forall (llm : LLMService.t) (w : World) (s : InterviewSession)
         (text : string) (a : ContentAnalysis),
    classify llm w text = Some a ->
    containsProfanity a = true
    \/ (Js.is_string (severity a) "high" = true /\ isAppropriate a = false) ->
    ~ called CallPlanner (turn llm w s text)
    /\ (1 <= warningCountOf s ->
        calls (turn llm w s text) = [CallAnalyze; CallModeration]
        /\ exists s',
            outcome (turn llm w s text) = Some (s', terminationNotice)
            /\ isActive (state s') = false
            /\ endTime (state s') = Some (now w)
            /\ phase (state s') = completed
            /\ agenticDecisions s'
               = (agenticDecisions s ++ [terminateEntry w a])%list
            /\ evaluation s' = evaluation s)
    /\ (warningCountOf s = 0 ->
        forall s' msg,
          outcome (turn llm w s text) = Some (s', msg) ->
          agenticDecisions s'
          = (agenticDecisions s ++ [moderateEntry w a])%list
          /\ msg = warningNotice 1 (lastQuestionOf
                                      (messages (receive w text s)))
          /\ exists meta,
              lastElement (messages s')
              = Some (Message.mk assistant msg (now w) (Some meta))).
Proof.
  intros llm w s text a Ha Hcase.
  destruct (classify_served llm w text a Ha) as [prov Hs].
  pose proof (warningCount_nonneg s) as Hn.
  set (q := lastQuestionOf (messages (receive w text s))).
  destruct (escalation_verdict a (warningCountOf s) q Hn Hcase)
    as (_ & Hmany & Hnone).
  pose proof (respond_by_verdict llm prov w (receive w text s) a
                (warningCountOf s) q Hs) as Hr.
  assert (Hterm : 1 <= warningCountOf s ->
            calls (turn llm w s text) = [CallAnalyze; CallModeration]
            /\ exists s',
                outcome (turn llm w s text) = Some (s', terminationNotice)
                /\ isActive (state s') = false
                /\ endTime (state s') = Some (now w)
                /\ phase (state s') = completed
                /\ agenticDecisions s'
                   = (agenticDecisions s ++ [terminateEntry w a])%list
                /\ evaluation s' = evaluation s).
  { intros H1. destruct (Hmany H1) as (Hv & Hm). rewrite Hv, Hm in Hr.
    destruct (turn_after_respond llm w s text a _ _ Ha Hr) as (Hc & Ho).
    cbn [shouldEndSession] in Hc, Ho. rewrite conclude_flagged in Hc, Ho.
    split; [exact Hc|]. eexists. split; [exact Ho|].
    cbn. repeat split. }
  assert (Hwarn : warningCountOf s = 0 ->
            calls (turn llm w s text)
            = (CallAnalyze :: CallModeration
                 :: calls (conclude llm w false
                             (reply w (mkProgress
                                         (pushDecision (moderateEntry w a)
                                                       (receive w text s))
                                         (warningNotice 1 q) Js.Null false))))
            /\ outcome (turn llm w s text)
               = option_map
                   (fun s' => (s', warningNotice 1 q))
                   (outcome (conclude llm w false
                              (reply w (mkProgress
                                          (pushDecision (moderateEntry w a)
                                                        (receive w text s))
                                          (warningNotice 1 q) Js.Null
                                          false))))).
  { intros H0. destruct (Hnone H0) as (Hv & Hm). rewrite Hv, Hm in Hr.
    exact (turn_after_respond llm w s text a _ _ Ha Hr). }
  split; [|split; [exact Hterm|]].
  - unfold called. intros Hin.
    destruct (Z.eq_dec (warningCountOf s) 0) as [H0|Hpos].
    + destruct (Hwarn H0) as (Hc & _). rewrite Hc, conclude_calls in Hin.
      destruct (_ && _)%bool; cbn in Hin; intuition discriminate.
    + destruct Hterm as (Hc & _); [lia|]. rewrite Hc in Hin.
      cbn in Hin. intuition discriminate.
  - intros H0 s' msg Hout. destruct (Hwarn H0) as (_ & Ho).
    rewrite Ho in Hout.
    destruct (outcome (conclude _ _ _ _)) as [s2|] eqn:Hconc;
      [|discriminate Hout].
    injection Hout as <- <-.
    destruct (fires w false
                (reply w (mkProgress
                            (pushDecision (moderateEntry w a)
                                          (receive w text s))
                            (warningNotice 1 q) Js.Null false))) eqn:Hf.
    + destruct (conclude_fired _ _ _ _ _ Hf Hconc)
        as (_ & _ & _ & Hmsg & Hdec & _).
      rewrite Hmsg, Hdec. cbn. split; [reflexivity|].
      split; [reflexivity|]. eexists. unfold lastElement.
      rewrite !rev_app_distr. reflexivity.
    + rewrite conclude_quiet in Hconc by exact Hf.
      injection Hconc as <-. cbn. split; [reflexivity|].
      split; [reflexivity|]. eexists. unfold lastElement.
      rewrite !rev_app_distr. reflexivity.
Qed.

(** A message rated profane: with one earlier warning it ends the session
    after two facade calls; without, the planner is still not called. *)
Lemma moderation_escalation_witness :
  let w := world (2 * minute) (rates false true true "high")
                 (says "MOVE_NEXT") in
  calls (turn llmOllama w (warned (newcomer 30 mock)) "a rude answer")
  = [CallAnalyze; CallModeration]
  /\ ~ called CallPlanner
       (turn llmOllama w (newcomer 30 mock) "a rude answer").
Proof.
  intros w.
  destruct (moderation_escalation
              llmOllama w (warned (newcomer 30 mock)) "a rude answer"
              (mkAnalysis false true true (Js.Str "high")
                          (Js.Str "as rated"))
              eq_refl (or_introl eq_refl)) as (_ & Hterm & _).
  destruct (moderation_escalation
              llmOllama w (newcomer 30 mock) "a rude answer"
              (mkAnalysis false true true (Js.Str "high")
                          (Js.Str "as rated"))
              eq_refl (or_introl eq_refl)) as (Hquiet & _).
  split; [|exact Hquiet].
  apply Hterm. apply Z.leb_le. vm_compute. reflexivity.
Defined.

(** C2 (as stated) fails: the model rates a message as severity [high]
    but appropriate and free of profanity.  The gate of line 197 does not
    open: with one warning already logged the planner is called, no
    [TERMINATE] entry is logged and the session stays active. *)
Lemma moderation_escalation_counterexample :
  let w := world (2 * minute) (rates true true false "high")
                 (says "MOVE_NEXT") in
  let s := warned (newcomer 30 mock) in
  let r := turn llmOllama w s "an intense answer" in
  option_map (fun a => Js.is_string (severity a) "high")
             (classify llmOllama w "an intense answer") = Some true
  /\ warningCountOf s = 1
  /\ called CallPlanner r
  /\ option_map (fun x => isActive (state (fst x))) (outcome r) = Some true
  /\ option_map (fun x => map decision (agenticDecisions (fst x))) (outcome r)
     = Some [Js.Str "MODERATE"; Js.Str "MOVE_NEXT"].
Proof.
  intros w s r.
  split; [reflexivity|]. split; [reflexivity|].
  split; [vm_compute; tauto|].
  split; vm_compute; reflexivity.
Qed.

(** The shape of a turn whose verdict is [Moderate]: two facade calls, the
    [MODERATE] entry, the provider's text, then the end-of-interview
    check. *)
Lemma moderated_turn_shape (llm : LLMService.t) (w : World)
      (s : InterviewSession) (text : string) (a : ContentAnalysis) :
  classify llm w text = Some a ->
  verdict a (warningCountOf s) (lastQuestionOf (messages (receive w text s)))
  = Moderate ->
  let p := mkProgress (pushDecision (moderateEntry w a) (receive w text s))
                      (message (generateModerationResponse
                                  a (warningCountOf s)
                                  (lastQuestionOf
                                     (messages (receive w text s)))))
                      Js.Null false in
  calls (turn llm w s text)
  = (CallAnalyze :: CallModeration
       :: calls (conclude llm w false (reply w p)))
  /\ outcome (turn llm w s text)
     = option_map (fun s' => (s', aiResponse p))
                  (outcome (conclude llm w false (reply w p)))
  /\ fires w false (reply w p)
     = shouldEndInterview (received w text s) (clockAtCheck w)
                          (durationMinutes (config s)).
Proof.
  intros Ha Hv p.
  destruct (classify_served llm w text a Ha) as [prov Hs].
  pose proof (respond_by_verdict llm prov w (receive w text s) a
                (warningCountOf s)
                (lastQuestionOf (messages (receive w text s))) Hs) as Hr.
  rewrite Hv in Hr.
  destruct (turn_after_respond llm w s text a _ _ Ha Hr) as (Hc & Ho).
  split; [exact Hc|]. split; [exact Ho|reflexivity].
Qed.

(** C5 (as amended): on every answered turn whose moderation outcome is
    [MODERATE], [questionsAsked] is one more than before the turn (the
    increment of line 153 precedes moderation), the transcript gains the
    user message and the warning, the decision log gains the [MODERATE]
    entry and [lastActivity] is the time of the turn.  Unless the
    end-of-interview check fires on that turn nothing else changes: the
    session is the one received with that entry and that message appended,
    so the phase, [isActive], [endTime] and the evaluation are as before.
    If the check fires, the session is frozen and evaluated.  Neither the
    planner nor the practice coach is called. *)
Theorem moderate_turn_changes :
  forall (llm : LLMService.t) (w : World) (s : InterviewSession)
         (text : string) (a : ContentAnalysis),
    classify llm w text = Some a ->
    verdict a (warningCountOf s)
            (lastQuestionOf (messages (receive w text s))) = Moderate ->
    ~ called CallPlanner (turn llm w s text)
    /\ ~ called CallPracticeFeedback (turn llm w s text)
    /\ forall s' msg,
        outcome (turn llm w s text) = Some (s', msg) ->
        msg = message (generateModerationResponse
                         a (warningCountOf s)
                         (lastQuestionOf (messages (receive w text s))))
        /\ agenticDecisions s'
           = (agenticDecisions s ++ [moderateEntry w a])%list
        /\ messages s'
           = (messages s
                ++ [Message.mk user text (now w) None;
                    Message.mk assistant msg (now w)
                      (Some (Message.mkMetadata
                               (phase (state s))
                               (isPractice (interviewMode (config s)))
                               Js.Undefined))])%list
        /\ questionsAsked (state s') = questionsAsked (state s) + 1
        /\ lastActivity (state s') = now w
        /\ currentQuestionIndex (state s') = currentQuestionIndex (state s)
        /\ startTime (state s') = startTime (state s)
        /\ sessionId s' = sessionId s
        /\ config s' = config s
        /\ (shouldEndInterview (received w text s) (clockAtCheck w)
                               (durationMinutes (config s)) = false ->
            phase (state s') = phase (state s)
            /\ isActive (state s') = isActive (state s)
            /\ endTime (state s') = endTime (state s)
            /\ evaluation s' = evaluation s
            /\ s' = pushMessage
                      (Message.mk assistant msg (now w)
                         (Some (Message.mkMetadata
                                  (phase (state s))
                                  (isPractice (interviewMode (config s)))
                                  Js.Undefined)))
                      (pushDecision (moderateEntry w a) (receive w text s)))
        /\ (shouldEndInterview (received w text s) (clockAtCheck w)
                               (durationMinutes (config s)) = true ->
            frozen s'
            /\ state s' = freeze w (received w text s)
            /\ evaluation s' <> None
            /\ called CallEvaluation (turn llm w s text)).
Proof.
  intros llm w s text a Ha Hv.
  destruct (moderated_turn_shape llm w s text a Ha Hv) as (Hc & Ho & Hfires).
  cbn [aiResponse] in Ho.
  set (p := mkProgress (pushDecision (moderateEntry w a) (receive w text s))
                       (message (generateModerationResponse
                                   a (warningCountOf s)
                                   (lastQuestionOf
                                      (messages (receive w text s)))))
                       Js.Null false) in *.
  set (b := shouldEndInterview (received w text s) (clockAtCheck w)
                               (durationMinutes (config s))) in *.
  split; [|split].
  - unfold called. rewrite Hc, conclude_calls.
    destruct (_ && _)%bool; cbn; intuition discriminate.
  - unfold called. rewrite Hc, conclude_calls.
    destruct (_ && _)%bool; cbn; intuition discriminate.
  - intros s' msg Hout. rewrite Ho in Hout.
    destruct (outcome (conclude llm w false (reply w p))) as [s2|] eqn:Hconc;
      [|discriminate Hout].
    injection Hout as <- <-.
    destruct (fires w false (reply w p)) eqn:Hf.
    + destruct (conclude_fired _ _ _ _ _ Hf Hconc)
        as (Hst & Hid & Hcfg & Hmsg & Hdec & Hev).
      pose proof (freeze_frozen w (reply w p) s2 Hst) as Hfrozen.
      rewrite Hst, Hid, Hcfg, Hmsg, Hdec.
      do 9 (split; [cbn; rewrite <- ?app_assoc; reflexivity|]).
      rewrite <- Hfires. split; [discriminate|]. intros _.
      split; [exact Hfrozen|].
      split; [reflexivity|]. split; [exact Hev|].
      unfold called. rewrite Hc, conclude_calls.
      change (fires w false (reply w p)) with b.
      rewrite <- Hfires. cbn. tauto.
    + rewrite conclude_quiet in Hconc by exact Hf.
      injection Hconc as <-.
      do 9 (split; [cbn; rewrite <- ?app_assoc; reflexivity|]).
      rewrite <- Hfires. split; [|discriminate].
      intros _. repeat split.
Qed.


(** A first rude answer to a new 30-minute interview: warned, counted. *)
Lemma moderate_turn_changes_witness :
  exists s' msg,
    outcome (turn llmOllama
                  (world (2 * minute) (rates false true true "high")
                         (says "MOVE_NEXT"))
                  (newcomer 30 mock) "a rude answer") = Some (s', msg)
    /\ questionsAsked (state s') = 1
    /\ phase (state s') = warmup
    /\ isActive (state s') = true.
Proof.
  destruct (outcome (turn llmOllama
                          (world (2 * minute) (rates false true true "high")
                                 (says "MOVE_NEXT"))
                          (newcomer 30 mock) "a rude answer"))
    as [[s' msg]|] eqn:E; [|vm_compute in E; discriminate E].
  exists s', msg. split; [reflexivity|].
  destruct (moderate_turn_changes
              llmOllama
              (world (2 * minute) (rates false true true "high")
                     (says "MOVE_NEXT"))
              (newcomer 30 mock) "a rude answer"
              (mkAnalysis false true true (Js.Str "high") (Js.Str "as rated"))
              eq_refl eq_refl) as (_ & _ & H).
  destruct (H s' msg E) as (_ & _ & _ & Hq & _ & _ & _ & _ & _ & Hquiet & _).
  split; [exact Hq|].
  destruct (Hquiet eq_refl) as (Hph & Hact & _).
  split; [exact Hph|exact Hact].
Defined.

(** C5 (as stated) fails: a [MODERATE] turn on a new session leaves
    [questionsAsked] at 1, not at 0. *)
Lemma moderate_turn_counterexample :
  verdict (mkAnalysis false true true (Js.Str "high") (Js.Str "as rated"))
          (warningCountOf (newcomer 30 mock))
          (lastQuestionOf (messages (newcomer 30 mock))) = Moderate
  /\ classify llmOllama
              (world (2 * minute) (rates false true true "high")
                     (says "MOVE_NEXT")) "a rude answer"
     = Some (mkAnalysis false true true (Js.Str "high") (Js.Str "as rated"))
  /\ questionsAsked (state (newcomer 30 mock)) = 0
  /\ option_map (fun x => questionsAsked (state (fst x)))
                (outcome (turn llmOllama
                               (world (2 * minute)
                                      (rates false true true "high")
                                      (says "MOVE_NEXT"))
                               (newcomer 30 mock) "a rude answer"))
     = Some 1.
Proof. repeat split; vm_compute; reflexivity. Qed.

(** ** Off-topic answers *)

Lemma lastQuestion_receive (w : World) (text : string)
      (s : InterviewSession) :
  lastQuestionOf (messages (receive w text s)) = lastQuestionOf (messages s).
Proof.
  unfold lastQuestionOf, receive. cbn. rewrite filter_app. cbn.
  rewrite app_nil_r. reflexivity.
Qed.

Lemma redirect_verdict (a : ContentAnalysis) (n : Z) (q : string) :
  isAppropriate a = false ->
  isOnTopic a = false ->
  containsProfanity a = false ->
  Js.is_string (severity a) "high" = false ->
  verdict a n q = Moderate
  /\ message (generateModerationResponse a n q) = redirectNotice q.
Proof.
  intros H1 H2 H3 H4. unfold verdict, flagged, generateModerationResponse.
  rewrite H1, H2, H3, H4. split; reflexivity.
Qed.

(** C4 (as amended): take a turn whose message is classified as not
    appropriate, not on-topic, not profane and not of severity [high].  The
    planner is not called; every answered turn restates the last question
    asked, is logged in the decision log as [MODERATE], and has counted the
    message ([questionsAsked] is one more than before); the phase and
    [isActive] are as before unless the end-of-interview check fires on
    that turn. *)
Theorem off_topic_redirect :
  forall (llm : LLMService.t) (w : World) (s : InterviewSession)
         (text : string) (a : ContentAnalysis),
    classify llm w text = Some a ->
    isAppropriate a = false ->
    isOnTopic a = false ->
    containsProfanity a = false ->
    Js.is_string (severity a) "high" = false ->
    ~ called CallPlanner (turn llm w s text)
    /\ forall s' msg,
        outcome (turn llm w s text) = Some (s', msg) ->
        msg = redirectNotice (lastQuestionOf (messages s))
        /\ agenticDecisions s'
           = (agenticDecisions s ++ [moderateEntry w a])%list
        /\ questionsAsked (state s') = questionsAsked (state s) + 1
        /\ (shouldEndInterview (received w text s) (clockAtCheck w)
                               (durationMinutes (config s)) = false ->
            phase (state s') = phase (state s)
            /\ isActive (state s') = isActive (state s)).
Proof.
  intros llm w s text a Ha H1 H2 H3 H4.
  destruct (redirect_verdict a (warningCountOf s)
              (lastQuestionOf (messages (receive w text s))) H1 H2 H3 H4)
    as (Hv & Hm).
  destruct (moderated_turn_shape llm w s text a Ha Hv) as (Hc & Ho & Hfires).
  rewrite Hm, lastQuestion_receive in Hc, Ho, Hfires.
  cbn [aiResponse] in Ho.
  split.
  - unfold called. rewrite Hc, conclude_calls.
    destruct (_ && _)%bool; cbn; intuition discriminate.
  - intros s' msg Hout. rewrite Ho in Hout.
    destruct (outcome (conclude _ _ _ _)) as [s2|] eqn:Hconc;
      [|discriminate Hout].
    injection Hout as <- <-. split; [reflexivity|].
    destruct (fires w false _) eqn:Hf in Hfires.
    + destruct (conclude_fired _ _ _ _ _ Hf Hconc)
        as (Hst & _ & _ & _ & Hdec & _).
      rewrite Hst, Hdec. split; [reflexivity|]. split; [reflexivity|].
      rewrite <- Hfires. discriminate.
    + rewrite conclude_quiet in Hconc by exact Hf. injection Hconc as <-.
      split; [reflexivity|]. split; [reflexivity|].
      intros _. split; reflexivity.
Qed.

(** The model is unreachable for moderation and the answer is "hi": the
    provider's fallback rates it not appropriate and not on-topic. *)
Lemma off_topic_redirect_witness :
  exists s' msg,
    outcome (turn llmOllama (world (2 * minute) Rejected (says "MOVE_NEXT"))
                  (newcomer 30 mock) "hi") = Some (s', msg)
    /\ msg = redirectNotice "Tell me about a project you led."
    /\ phase (state s') = warmup.
Proof.
  destruct (outcome (turn llmOllama
                          (world (2 * minute) Rejected (says "MOVE_NEXT"))
                          (newcomer 30 mock) "hi"))
    as [[s' msg]|] eqn:E; [|vm_compute in E; discriminate E].
  exists s', msg. split; [reflexivity|].
  destruct (off_topic_redirect
              llmOllama (world (2 * minute) Rejected (says "MOVE_NEXT"))
              (newcomer 30 mock) "hi"
              (OllamaService.analysisFallback "hi")
              eq_refl eq_refl eq_refl eq_refl eq_refl) as (_ & H).
  destruct (H s' msg E) as (Hmsg & _ & _ & Hquiet).
  split; [exact Hmsg|]. exact (proj1 (Hquiet eq_refl)).
Defined.

(** C4 (as stated) fails: for an answer classified as not on-topic and not
    profane the turn is logged as [MODERATE], not [REDIRECT], and the
    question count has moved from 0 to 1. *)
Lemma off_topic_redirect_counterexample :
  option_map (fun a => (isOnTopic a, containsProfanity a))
             (classify llmOllama
                       (world (2 * minute) Rejected (says "MOVE_NEXT")) "hi")
  = Some (false, false)
  /\ questionsAsked (state (newcomer 30 mock)) = 0
  /\ option_map (fun x => (questionsAsked (state (fst x)),
                           map decision (agenticDecisions (fst x))))
                (outcome (turn llmOllama
                               (world (2 * minute) Rejected
                                      (says "MOVE_NEXT"))
                               (newcomer 30 mock) "hi"))
     = Some (1, [Js.Str "MODERATE"]).
Proof. repeat split; vm_compute; reflexivity. Qed.

(** The same class of answers, when rated appropriate, does not reach the
    moderation branch at all: [BedrockService] rates short nonsense as
    appropriate and off-topic, the gate of line 197 stays shut, and the
    planner is asked what to do. *)
Lemma off_topic_but_appropriate_reaches_planner :
  classify llmBedrock
           (mkWorld minute minute minute minute false true Garbled
                    (says "MOVE_NEXT") (Some "Next question?") Garbled
                    Garbled true minute) "asdf"
  = Some (mkAnalysis true false false (Js.Str "low")
                     (Js.Str "Response appears to be random characters"))
  /\ calls (turn llmBedrock
                 (mkWorld minute minute minute minute false true Garbled
                          (says "MOVE_NEXT") (Some "Next question?") Garbled
                          Garbled true minute)
                 (newcomer 30 mock) "asdf")
     = [CallAnalyze; CallPlanner; CallNextQuestion (Js.Str "MOVE_NEXT")].
Proof. split; vm_compute; reflexivity. Qed.

(** ** The decision governor *)

(** [ceilDiv n 5] is [Math.ceil(n / 5)]: the least integer not below the
    quotient. *)
Lemma ceilDiv_5 (n : Z) :
  5 * (ceilDiv n 5 - 1) < n <= 5 * ceilDiv n 5.
Proof.
  unfold ceilDiv.
  pose proof (Z.div_mod (- n) 5 ltac:(lia)) as H.
  pose proof (Z.mod_pos_bound (- n) 5 ltac:(lia)) as Hb.
  lia.
Qed.

Lemma canWrapUp_iff (elapsed : Double.t) (s : InterviewSession) :
  canWrapUp elapsed s = true <->
  Double.geb elapsed
             (Double.mul (Double.ofZ (durationMinutes (config s)))
                         Double.lit_0_8) = true
  /\ Z.max 3 (ceilDiv (durationMinutes (config s)) 5)
     <= questionsAsked (state s).
Proof.
  unfold canWrapUp, minTimeElapsed, minQuestions.
  rewrite Bool.andb_true_iff, Z.leb_le. reflexivity.
Qed.

Lemma respond_mock (llm : LLMService.t) (w : World) (s : InterviewSession)
      (a : ContentAnalysis) (n : Z) (q : string) (d : AgenticDecision) :
  flagged a = false ->
  interviewMode (config s) = mock ->
  proposal llm w = Some d ->
  respond llm w s a n q
  = (CallPlanner
       :: calls (govern llm w (pushDecision d s) d
                        (match startTime (state s) with
                         | Some start =>
                             elapsedMinutesNumber (clockAtDecision w) start
                         | None => Double.ofZ 0
                         end)),
     outcome (govern llm w (pushDecision d s) d
                     (match startTime (state s) with
                      | Some start =>
                          elapsedMinutesNumber (clockAtDecision w) start
                      | None => Double.ofZ 0
                      end))).
Proof.
  intros Hf Hmode Hd. unfold respond. fold (flagged a). rewrite Hf, Hmode.
  unfold mockBranch. rewrite planner_calls, Hd. reflexivity.
Qed.

Lemma proposal_served (llm : LLMService.t) (w : World) (d : AgenticDecision) :
  proposal llm w = Some d -> exists prov, LLMService.getService llm = Some prov.
Proof.
  unfold proposal, LLMService.makeAgenticDecision, LLMService.delegate,
    await, outcome; simpl.
  destruct (LLMService.getService llm) as [p|]; [eauto|discriminate].
Qed.

Lemma govern_wrap_up (llm : LLMService.t) (prov : Service) (w : World)
      (s : InterviewSession) (d : AgenticDecision) (elapsed : Double.t) :
  LLMService.getService llm = Some prov ->
  decision d = Js.Str "WRAP_UP" ->
  govern llm w s d elapsed
  = if canWrapUp elapsed s then
      ([CallNextQuestion (Js.Str "WRAP_UP")],
       option_map (fun text => mkProgress (updState (set_phase wrap_up) s)
                                          text Js.Null true)
                  (questionReply w))
    else
      ([CallNextQuestion (Js.Str "MOVE_NEXT")],
       option_map (fun text =>
                     mkProgress (updState (set_phase (phase (state s))) s)
                                text Js.Null false)
                  (questionReply w)).
Proof.
  intros Hs Hd. unfold govern, LLMService.generateNextQuestion.
  rewrite Hd. cbn [Js.is_string String.eqb Ascii.eqb Bool.eqb decision].
  rewrite !(delegate_served llm prov) by exact Hs. rewrite <- Hd.
  destruct (canWrapUp elapsed s), (questionReply w); reflexivity.
Qed.

Lemma wrap_up_turn (llm : LLMService.t) (w : World) (s : InterviewSession)
      (text : string) (a : ContentAnalysis) (d : AgenticDecision) :
  classify llm w text = Some a ->
  flagged a = false ->
  interviewMode (config s) = mock ->
  proposal llm w = Some d ->
  decision d = Js.Str "WRAP_UP" ->
  respond llm w (receive w text s) a (warningCountOf s)
          (lastQuestionOf (messages (receive w text s)))
  = if canWrapUp (elapsedAtDecision w s) (receive w text s) then
      ([CallPlanner; CallNextQuestion (Js.Str "WRAP_UP")],
       option_map (fun reply =>
                     mkProgress (updState (set_phase wrap_up)
                                          (pushDecision d (receive w text s)))
                                reply Js.Null true)
                  (questionReply w))
    else
      ([CallPlanner; CallNextQuestion (Js.Str "MOVE_NEXT")],
       option_map (fun reply =>
                     mkProgress (updState (set_phase (phase (state s)))
                                          (pushDecision d (receive w text s)))
                                reply Js.Null false)
                  (questionReply w)).
Proof.
  intros Ha Hf Hmode Hd Hw.
  destruct (proposal_served llm w d Hd) as [prov Hs].
  rewrite (respond_mock llm w (receive w text s) a _ _ d Hf Hmode Hd).
  rewrite (govern_wrap_up llm prov w _ d _ Hs Hw).
  change (canWrapUp _ (pushDecision d (receive w text s)))
    with (canWrapUp (elapsedAtDecision w s) (receive w text s)).
  destruct (canWrapUp (elapsedAtDecision w s) (receive w text s));
    reflexivity.
Qed.

(** C3 (as amended): in a mock-mode turn that passes moderation and in
    which the planner proposes [WRAP_UP], the proposal is honoured exactly
    when [elapsedMinutes >= durationMinutes * 0.8], both sides being the
    binary64 numbers the source computes (for three minutes the product
    is 2.4000000000000004, so a proposal made exactly 2.4 minutes in is
    demoted), and [questionsAsked >= max 3 (ceil (durationMinutes / 5))]:
    the closing text is generated for [WRAP_UP] and the session is
    frozen.  Otherwise the text is generated for [MOVE_NEXT], never for
    [WRAP_UP], and the phase and [isActive] are as before the turn unless
    the end-of-interview check fires on that turn.  On the first turn of
    a 30-minute session the proposal is always demoted, so the session
    stays active in its phase provided less than the 30 minutes have
    run. *)
Theorem wrap_up_governor :
  forall (llm : LLMService.t) (w : World) (s : InterviewSession)
         (text : string) (a : ContentAnalysis) (d : AgenticDecision),
    classify llm w text = Some a ->
    flagged a = false ->
    interviewMode (config s) = mock ->
    proposal llm w = Some d ->
    decision d = Js.Str "WRAP_UP" ->
    (canWrapUp (elapsedAtDecision w s) (receive w text s) = true <->
     Double.geb (elapsedAtDecision w s)
                (Double.mul (Double.ofZ (durationMinutes (config s)))
                            Double.lit_0_8) = true
     /\ Z.max 3 (ceilDiv (durationMinutes (config s)) 5)
        <= questionsAsked (state s) + 1)
    /\ (canWrapUp (elapsedAtDecision w s) (receive w text s) = true ->
        called (CallNextQuestion (Js.Str "WRAP_UP")) (turn llm w s text)
        /\ forall s' msg,
            outcome (turn llm w s text) = Some (s', msg) -> frozen s')
    /\ (canWrapUp (elapsedAtDecision w s) (receive w text s) = false ->
        called (CallNextQuestion (Js.Str "MOVE_NEXT")) (turn llm w s text)
        /\ ~ called (CallNextQuestion (Js.Str "WRAP_UP")) (turn llm w s text)
        /\ forall s' msg,
            outcome (turn llm w s text) = Some (s', msg) ->
            shouldEndInterview (received w text s) (clockAtCheck w)
                               (durationMinutes (config s)) = false ->
            phase (state s') = phase (state s)
            /\ isActive (state s') = isActive (state s))
    /\ (durationMinutes (config s) = 30 ->
        questionsAsked (state s) = 0 ->
        canWrapUp (elapsedAtDecision w s) (receive w text s) = false).
Proof.
  intros llm w s text a d Ha Hf Hmode Hd Hw.
  pose proof (wrap_up_turn llm w s text a d Ha Hf Hmode Hd Hw) as Hr.
  split; [apply canWrapUp_iff|]. split; [|split].
  - intros Hcan. rewrite Hcan in Hr. split.
    + unfold called. rewrite (turn_calls llm w s text a Ha), Hr.
      cbn. tauto.
    + intros s' msg Hout.
      destruct (turn_inv llm w s s' text msg Hout)
        as (a' & p & Ha' & Hp & Hc & _).
      rewrite Ha in Ha'. injection Ha' as <-. rewrite Hr in Hp.
      cbn [outcome snd] in Hp.
      destruct (questionReply w) as [reply|]; [|discriminate Hp].
      injection Hp as <-. cbn [shouldEndSession] in Hc.
      rewrite conclude_flagged in Hc. injection Hc as <-.
      unfold frozen. cbn. repeat split. discriminate.
  - intros Hcan. rewrite Hcan in Hr. split; [|split].
    + unfold called. rewrite (turn_calls llm w s text a Ha), Hr.
      cbn. tauto.
    + unfold called. rewrite (turn_calls llm w s text a Ha), Hr.
      cbn [calls outcome fst snd app].
      destruct (questionReply w) as [reply|]; cbn [option_map];
        [rewrite conclude_calls; destruct (_ && _)%bool|];
        cbn; intuition discriminate.
    + intros s' msg Hout Hquiet.
      destruct (turn_inv llm w s s' text msg Hout)
        as (a' & p & Ha' & Hp & Hc & _).
      rewrite Ha in Ha'. injection Ha' as <-. rewrite Hr in Hp.
      cbn [outcome snd] in Hp.
      destruct (questionReply w) as [reply|]; [|discriminate Hp].
      injection Hp as <-. cbn [shouldEndSession] in Hc.
      rewrite conclude_quiet in Hc by exact Hquiet.
      injection Hc as <-. split; reflexivity.
  - intros H30 H0. apply Bool.not_true_is_false. intros Hcan.
    apply canWrapUp_iff in Hcan. destruct Hcan as (_ & Hq).
    cbn in Hq. rewrite H30, H0 in Hq. vm_compute in Hq. apply Hq. reflexivity.
Qed.

(** The planner proposes [WRAP_UP] on the first answer, two minutes into a
    30-minute interview: the question is generated for [MOVE_NEXT] and the
    session stays active in [warmup]. *)
Lemma wrap_up_governor_witness :
  exists s' msg,
    outcome (turn llmOllama (world (2 * minute) fine (says "WRAP_UP"))
                  (newcomer 30 mock) "I led the migration.")
    = Some (s', msg)
    /\ called (CallNextQuestion (Js.Str "MOVE_NEXT"))
              (turn llmOllama (world (2 * minute) fine (says "WRAP_UP"))
                    (newcomer 30 mock) "I led the migration.")
    /\ phase (state s') = warmup
    /\ isActive (state s') = true.
Proof.
  destruct (outcome (turn llmOllama
                          (world (2 * minute) fine (says "WRAP_UP"))
                          (newcomer 30 mock) "I led the migration."))
    as [[s' msg]|] eqn:E; [|vm_compute in E; discriminate E].
  exists s', msg. split; [reflexivity|].
  destruct (wrap_up_governor
              llmOllama (world (2 * minute) fine (says "WRAP_UP"))
              (newcomer 30 mock) "I led the migration."
              (mkAnalysis true true false (Js.Str "low") (Js.Str "as rated"))
              (mkDecision (2 * minute) (Js.Str "WRAP_UP") (Js.Str "because")
                          (Js.Str "seen"))
              eq_refl eq_refl eq_refl eq_refl eq_refl)
    as (_ & _ & Hdemoted & Hfirst).
  destruct (Hdemoted (Hfirst eq_refl eq_refl)) as (Hcall & _ & Hkeep).
  split; [exact Hcall|]. exact (Hkeep s' msg E eq_refl).
Defined.

(** C3 (as stated) fails: the first answer to a 30-minute interview comes
    31 minutes after it started and the planner proposes [WRAP_UP].  The
    proposal is demoted, but the end-of-interview check fires: the session
    is no longer active and its phase is [completed], which is not before
    [wrap_up]. *)
Lemma wrap_up_first_turn_counterexample :
  questionsAsked (state (newcomer 30 mock)) = 0
  /\ option_map decision
                (proposal llmOllama
                          (world (31 * minute) fine (says "WRAP_UP")))
     = Some (Js.Str "WRAP_UP")
  /\ calls (turn llmOllama (world (31 * minute) fine (says "WRAP_UP"))
                 (newcomer 30 mock) "I led the migration.")
     = [CallAnalyze; CallPlanner; CallNextQuestion (Js.Str "MOVE_NEXT");
        CallEvaluation]
  /\ option_map (fun x => (isActive (state (fst x)), phase (state (fst x))))
                (outcome (turn llmOllama
                               (world (31 * minute) fine (says "WRAP_UP"))
                               (newcomer 30 mock) "I led the migration."))
     = Some (false, completed)
  /\ phaseRank wrap_up < phaseRank completed.
Proof. repeat split; vm_compute; reflexivity. Qed.

(** The time threshold at its boundary.  For three minutes the product
    [3 * 0.8] is above 2.4 = 144000 ms, so a proposal made then is
    demoted and one made a millisecond later is honoured; for thirty
    minutes the product is 24 and the proposal made at 24 minutes is
    honoured. *)
Lemma wrap_up_threshold_examples :
  canWrapUp (elapsedMinutesNumber 144000 0) (seasoned 3 5 technical) = false
  /\ canWrapUp (elapsedMinutesNumber 144001 0) (seasoned 3 5 technical)
     = true
  /\ canWrapUp (elapsedMinutesNumber (24 * minute) 0)
               (seasoned 30 6 technical) = true
  /\ canWrapUp (elapsedMinutesNumber (24 * minute - 1) 0)
               (seasoned 30 6 technical) = false.
Proof. repeat split; vm_compute; reflexivity. Qed.

(** ** What a turn logs and what the save validates *)

Lemma govern_keeps_log (llm : LLMService.t) (w : World) (s : InterviewSession)
      (d : AgenticDecision) (elapsed : Double.t) (p : Progress) :
  outcome (govern llm w s d elapsed) = Some p ->
  agenticDecisions (session p) = agenticDecisions s.
Proof.
  unfold govern, LLMService.generateNextQuestion, LLMService.delegate, await,
    bind, ret, outcome.
  break_matches; cbn [snd]; intros H; try discriminate H;
    injection H as <-; reflexivity.
Qed.

Lemma practice_keeps_log (llm : LLMService.t) (w : World)
      (s : InterviewSession) (p : Progress) :
  outcome (practiceBranch llm w s) = Some p ->
  session p = s /\ shouldEndSession p = false.
Proof.
  unfold practiceBranch, LLMService.generatePracticeFeedback,
    LLMService.delegate, await, bind, ret, outcome.
  break_matches; cbn [snd]; intros H; try discriminate H;
    injection H as <-; split; reflexivity.
Qed.

Lemma conclude_keeps_log (llm : LLMService.t) (w : World) (flag : bool)
      (s s' : InterviewSession) :
  outcome (conclude llm w flag s) = Some s' ->
  agenticDecisions s' = agenticDecisions s /\ messages s' = messages s.
Proof.
  intros Hc. destruct (fires w flag s) eqn:Hf.
  - destruct (conclude_fired llm w flag s s' Hf Hc) as (_ & _ & _ & Hm & Hd & _).
    split; assumption.
  - rewrite conclude_quiet in Hc by exact Hf. injection Hc as <-.
    split; reflexivity.
Qed.

Lemma turn_log (llm : LLMService.t) (w : World) (s s' : InterviewSession)
      (text msg : string) (a : ContentAnalysis) :
  classify llm w text = Some a ->
  outcome (turn llm w s text) = Some (s', msg) ->
  agenticDecisions s' = (agenticDecisions s ++ logged llm w s a)%list.
Proof.
  intros Ha Hturn.
  destruct (turn_inv llm w s s' text msg Hturn) as (a' & p & Ha' & Hp & Hc & _).
  rewrite Ha in Ha'. injection Ha' as <-.
  destruct (conclude_keeps_log llm w _ _ s' Hc) as (Hlog & _).
  rewrite Hlog. cbn [reply agenticDecisions pushMessage].
  destruct (classify_served llm w text a Ha) as [prov Hs].
  pose proof (respond_by_verdict llm prov w (receive w text s) a
                (warningCountOf s)
                (lastQuestionOf (messages (receive w text s))) Hs) as Hr.
  unfold logged. rewrite <- (lastQuestion_receive w text s).
  destruct (verdict a (warningCountOf s)
                    (lastQuestionOf (messages (receive w text s)))).
  - rewrite Hr in Hp. injection Hp as <-. reflexivity.
  - rewrite Hr in Hp. injection Hp as <-. reflexivity.
  - rewrite Hr in Hp. injection Hp as <-. cbn. symmetry. apply app_nil_r.
  - rewrite Hr in Hp.
    change (interviewMode (config (receive w text s)))
      with (interviewMode (config s)) in Hp.
    destruct (isPractice (interviewMode (config s))).
    + apply practice_keeps_log in Hp. destruct Hp as (-> & _).
      cbn. symmetry. apply app_nil_r.
    + unfold mockBranch in Hp. rewrite planner_calls in Hp.
      destruct (proposal llm w) as [d|]; [|discriminate Hp].
      cbn [bind outcome snd] in Hp.
      apply govern_keeps_log in Hp. rewrite Hp. reflexivity.
Qed.

Lemma logged_mock (llm : LLMService.t) (w : World) (s : InterviewSession)
      (a : ContentAnalysis) (d : AgenticDecision) :
  flagged a = false ->
  interviewMode (config s) = mock ->
  proposal llm w = Some d ->
  logged llm w s a = [d].
Proof.
  intros Hf Hmode Hd. unfold logged, verdict. rewrite Hf, Hmode, Hd.
  reflexivity.
Qed.

Lemma conclude_evaluation (llm : LLMService.t) (w : World) (flag : bool)
      (s s' : InterviewSession) :
  outcome (conclude llm w flag s) = Some s' ->
  evaluation s' = evaluation s
  \/ evaluation s' = Some fallbackEvaluation
  \/ exists e, evaluationReply w = Parsed e /\ evaluation s' = Some e.
Proof.
  unfold conclude.
  destruct (_ || _)%bool; [|intros [= <-]; left; reflexivity].
  destruct flag; cbn [negb]; [intros [= <-]; left; reflexivity|].
  unfold LLMService.generateEvaluation, LLMService.delegate, await, bind,
    outcome.
  destruct (LLMService.getService llm); [|discriminate].
  destruct (evaluationReply w) as [| |e]; cbn; try discriminate;
    intros [= <-]; right; [left; reflexivity|right].
  exists e. split; reflexivity.
Qed.

Lemma turn_evaluation (llm : LLMService.t) (w : World)
      (s s' : InterviewSession) (text msg : string) :
  outcome (turn llm w s text) = Some (s', msg) ->
  evaluation s' = evaluation s
  \/ evaluation s' = Some fallbackEvaluation
  \/ exists e, evaluationReply w = Parsed e /\ evaluation s' = Some e.
Proof.
  intros Hturn.
  destruct (turn_inv llm w s s' text msg Hturn) as (a & p & _ & Hp & Hc & _).
  apply respond_frame in Hp. destruct Hp as (_ & _ & _ & Hev & _).
  apply conclude_evaluation in Hc. cbn [reply evaluation pushMessage] in Hc.
  rewrite Hev in Hc. exact Hc.
Qed.

(** The document an answered turn hands to [save] is valid exactly when
    the stored transcript and log were, the two new messages are not
    empty, what the turn logged has its three texts, and the evaluation
    fits its schema. *)
Lemma turn_validate (llm : LLMService.t) (w : World)
      (s s' : InterviewSession) (text msg : string) (a : ContentAnalysis) :
  classify llm w text = Some a ->
  outcome (turn llm w s text) = Some (s', msg) ->
  InterviewSessionModel.validate s'
  = (forallb InterviewSessionModel.messageSchema (messages s)
     && negb (String.eqb text EmptyString)
     && negb (String.eqb msg EmptyString)
     && forallb InterviewSessionModel.agenticDecisionSchema
                (agenticDecisions s)
     && forallb InterviewSessionModel.agenticDecisionSchema
                (logged llm w s a)
     && InterviewSessionModel.evaluationSchema (evaluation s'))%bool.
Proof.
  intros Ha Hturn.
  destruct (turn_frame llm w s s' text msg Hturn)
    as (_ & _ & _ & _ & _ & (meta & Hmsg) & _).
  pose proof (turn_log llm w s s' text msg a Ha Hturn) as Hlog.
  unfold InterviewSessionModel.validate.
  rewrite Hmsg, Hlog, !forallb_app.
  cbn [forallb InterviewSessionModel.messageSchema Message.content].
  rewrite Bool.andb_true_r, !Bool.andb_assoc. reflexivity.
Qed.

Lemma fallbackEvaluation_valid :
  InterviewSessionModel.evaluationSchema (Some fallbackEvaluation) = true.
Proof. reflexivity. Qed.

(** What [sendMessage] answers once the session is found active. *)
Lemma sendMessage_outcome (llm : LLMService.t) (w : World) (db : Store)
      (id text : string) (s : InterviewSession) :
  id <> EmptyString ->
  text <> EmptyString ->
  findOne db id = Some s ->
  isActive (state s) = true ->
  sendMessage llm w db (mkSend id text)
  = match outcome (turn llm w s text) with
    | Some (s', msg) =>
        if (InterviewSessionModel.validate s' && saveSucceeds w)%bool
        then ((calls (turn llm w s text) ++ [CallSave])%list,
              Ok id msg (state s') (evaluation s'),
              save db (clockAtSave w) s')
        else ((calls (turn llm w s text) ++ [CallSave])%list,
              ServerError, db)
    | None => (calls (turn llm w s text), ServerError, db)
    end.
Proof.
  intros Hid Htext Hfind Hact.
  unfold sendMessage. cbn [requestSessionId requestMessage].
  rewrite (proj2 (String.eqb_neq id EmptyString) Hid),
    (proj2 (String.eqb_neq text EmptyString) Htext), Hfind, Hact.
  cbn [orb negb].
  destruct (turn llm w s text) as [made [[s2 msg2]|]];
    cbn [bind await ret fst snd app calls outcome]; [|reflexivity].
  destruct (InterviewSessionModel.validate s2 && saveSucceeds w)%bool;
    reflexivity.
Qed.

(** ** Planner payloads *)

Lemma conclude_succeeds (llm : LLMService.t) (prov : Service) (w : World)
      (flag : bool) (s : InterviewSession) :
  LLMService.getService llm = Some prov ->
  evaluationReply w <> Rejected ->
  exists s',
    outcome (conclude llm w flag s) = Some s'
    /\ messages s' = messages s
    /\ agenticDecisions s' = agenticDecisions s
    /\ (fires w flag s = false -> s' = s).
Proof.
  intros Hs Hev. unfold fires, conclude.
  destruct flag; cbn [orb negb].
  - eexists. split; [reflexivity|]. repeat split. discriminate.
  - destruct (shouldEndInterview _ _ _).
    + unfold LLMService.generateEvaluation.
      rewrite (delegate_served llm prov) by exact Hs.
      destruct (evaluationReply w); [contradiction| |];
        (eexists; split; [reflexivity|]; repeat split; discriminate).
    + eexists. split; [reflexivity|]. repeat split.
Qed.

Lemma govern_default (llm : LLMService.t) (prov : Service) (w : World)
      (s : InterviewSession) (d : AgenticDecision) (elapsed : Double.t) :
  LLMService.getService llm = Some prov ->
  Js.is_string (decision d) "WRAP_UP" = false ->
  Js.is_string (decision d) "CHANGE_PHASE" = false ->
  govern llm w s d elapsed
  = ([CallNextQuestion (decision d)],
     option_map (fun text =>
                   mkProgress (updState (set_phase (phase (state s))) s)
                              text Js.Null false)
                (questionReply w)).
Proof.
  intros Hs H1 H2. unfold govern, LLMService.generateNextQuestion.
  rewrite H1, H2, (delegate_served llm prov) by exact Hs.
  destruct (questionReply w); reflexivity.
Qed.

(** A mock-mode turn that passes moderation and whose decision is handled
    by the [default] case of the [switch]. *)
Lemma plain_turn (llm : LLMService.t) (w : World) (s : InterviewSession)
      (text : string) (a : ContentAnalysis) (d : AgenticDecision) :
  classify llm w text = Some a ->
  flagged a = false ->
  interviewMode (config s) = mock ->
  proposal llm w = Some d ->
  Js.is_string (decision d) "WRAP_UP" = false ->
  Js.is_string (decision d) "CHANGE_PHASE" = false ->
  called (CallNextQuestion (decision d)) (turn llm w s text)
  /\ forall q,
      questionReply w = Some q ->
      evaluationReply w <> Rejected ->
      exists s' meta,
        outcome (turn llm w s text) = Some (s', q)
        /\ agenticDecisions s' = (agenticDecisions s ++ [d])%list
        /\ messages s'
           = (messages s ++ [Message.mk user text (now w) None;
                             Message.mk assistant q (now w) (Some meta)])%list
        /\ (shouldEndInterview (received w text s) (clockAtCheck w)
                               (durationMinutes (config s)) = false ->
            phase (state s') = phase (state s)
            /\ isActive (state s') = isActive (state s)).
Proof.
  intros Ha Hf Hmode Hd H1 H2.
  destruct (proposal_served llm w d Hd) as [prov Hs].
  pose proof (respond_mock llm w (receive w text s) a (warningCountOf s)
                (lastQuestionOf (messages (receive w text s))) d Hf Hmode Hd)
    as Hr.
  rewrite (govern_default llm prov w _ d _ Hs H1 H2) in Hr.
  cbn [calls outcome fst snd] in Hr.
  split.
  - unfold called. rewrite (turn_calls llm w s text a Ha), Hr. cbn. tauto.
  - intros q Hq Hev. rewrite Hq in Hr. cbn [option_map] in Hr.
    destruct (turn_after_respond llm w s text a _ _ Ha Hr) as (_ & Ho).
    cbn [shouldEndSession aiResponse] in Ho.
    match type of Ho with
    | context [conclude llm w false ?s1] =>
        destruct (conclude_succeeds llm prov w false s1 Hs Hev)
          as (s' & Hc & Hmsg & Hdec & Hquiet)
    end.
    rewrite Hc in Ho. exists s'. eexists.
    split; [exact Ho|]. split; [rewrite Hdec; reflexivity|].
    split; [rewrite Hmsg; cbn; rewrite <- app_assoc; reflexivity|].
    intros Hno. rewrite (Hquiet Hno). split; reflexivity.
Qed.

Lemma sendMessage_answers (llm : LLMService.t) (w : World) (db : Store)
      (id text msg : string) (s s' : InterviewSession) :
  id <> EmptyString ->
  text <> EmptyString ->
  findOne db id = Some s ->
  isActive (state s) = true ->
  outcome (turn llm w s text) = Some (s', msg) ->
  InterviewSessionModel.validate s' = true ->
  saveSucceeds w = true ->
  exists made,
    sendMessage llm w db (mkSend id text)
    = (made, Ok id msg (state s') (evaluation s'),
       save db (clockAtSave w) s').
Proof.
  intros Hid Htext Hfind Hact Hturn Hvalid Hsave.
  rewrite (sendMessage_outcome llm w db id text s Hid Htext Hfind Hact).
  rewrite Hturn, Hvalid, Hsave. eexists. reflexivity.
Qed.

Lemma sendMessage_rejects (llm : LLMService.t) (w : World) (db : Store)
      (id text : string) (s : InterviewSession) :
  id <> EmptyString ->
  text <> EmptyString ->
  findOne db id = Some s ->
  isActive (state s) = true ->
  (forall s' msg,
      outcome (turn llm w s text) = Some (s', msg) ->
      InterviewSessionModel.validate s' = false) ->
  exists made,
    sendMessage llm w db (mkSend id text) = (made, ServerError, db).
Proof.
  intros Hid Htext Hfind Hact Hbad.
  rewrite (sendMessage_outcome llm w db id text s Hid Htext Hfind Hact).
  destruct (outcome (turn llm w s text)) as [[s' msg]|] eqn:Hturn;
    [|eexists; reflexivity].
  rewrite (Hbad s' msg eq_refl). eexists. reflexivity.
Qed.

Lemma proposal_of_reply (llm : LLMService.t) (prov : Service) (w : World) :
  LLMService.getService llm = Some prov ->
  proposal llm w = decisionOfReply (clockAtPlanner w) (plannerReply w).
Proof.
  intros Hs. unfold proposal, LLMService.makeAgenticDecision.
  rewrite (delegate_served llm prov) by exact Hs. reflexivity.
Qed.

Lemma spelledOut_valid (d : AgenticDecision) :
  spelledOut d = true ->
  InterviewSessionModel.agenticDecisionSchema d = true.
Proof.
  unfold spelledOut, InterviewSessionModel.agenticDecisionSchema,
    InterviewSessionModel.requiredString.
  destruct (decision d), (reasoning d), (context d);
    try (intros H; discriminate H).
  cbn. intros H. exact H.
Qed.

(** An answered turn is stored and returned when the stored document was
    valid, the answer is not empty, what was logged has its three texts,
    a parsed evaluation fits its schema and the store accepts the write. *)
Lemma answered_turn_is_stored (llm : LLMService.t) (w : World) (db : Store)
      (id text q : string) (s s' : InterviewSession) (a : ContentAnalysis) :
  id <> EmptyString ->
  text <> EmptyString ->
  findOne db id = Some s ->
  isActive (state s) = true ->
  InterviewSessionModel.validate s = true ->
  classify llm w text = Some a ->
  outcome (turn llm w s text) = Some (s', q) ->
  q <> EmptyString ->
  forallb InterviewSessionModel.agenticDecisionSchema (logged llm w s a)
  = true ->
  (forall e, evaluationReply w = Parsed e ->
             InterviewSessionModel.evaluationSchema (Some e) = true) ->
  saveSucceeds w = true ->
  exists made,
    sendMessage llm w db (mkSend id text)
    = (made, Ok id q (state s') (evaluation s'), save db (clockAtSave w) s').
Proof.
  intros Hid Htext Hfind Hact Hvalid Ha Hturn Hq Hlog Hev Hsave.
  apply (sendMessage_answers llm w db id text q s s'); try assumption.
  rewrite (turn_validate llm w s s' text q a Ha Hturn).
  unfold InterviewSessionModel.validate in Hvalid.
  apply Bool.andb_true_iff in Hvalid. destruct Hvalid as [Hvalid Hold].
  apply Bool.andb_true_iff in Hvalid. destruct Hvalid as [Hm Hd].
  rewrite Hm, Hd, Hlog,
    (proj2 (String.eqb_neq text EmptyString) Htext),
    (proj2 (String.eqb_neq q EmptyString) Hq).
  cbn [negb andb].
  destruct (turn_evaluation llm w s s' text q Hturn)
    as [->|[->|(e & He & ->)]];
    [exact Hold|reflexivity|exact (Hev e He)].
Qed.

(** C7 (as amended): take a mock-mode turn on a stored, active session,
    the message passing moderation.  A planner reply that cannot be parsed
    (or parses to [null]) raises nothing: the decision is the fixed record
    [{decision: MOVE_NEXT, reasoning: 'Default action due to parsing
    error', context: 'Failed to parse AI decision response'}], the next
    question is generated for [MOVE_NEXT], and whenever the rest of the
    turn goes through [sendMessage] answers 200 with the generated
    question and the fallback decision logged.  A reply that parses is not
    rewritten.  With an unknown action, and the action, the reasoning and
    the context all non-empty strings, the decision is logged as received
    and the question generated by the default case, again answered 200.
    With the action, the reasoning or the context missing (or not of a
    kind that casts to a non-empty string) the document fails the
    validation of [save]: the caller gets 500 and the store keeps the
    session as it was. *)
Theorem planner_payload_is_recovered :
  forall (llm : LLMService.t) (w : World) (db : Store) (id text : string)
         (s : InterviewSession) (a : ContentAnalysis),
    id <> EmptyString ->
    text <> EmptyString ->
    findOne db id = Some s ->
    isActive (state s) = true ->
    InterviewSessionModel.validate s = true ->
    classify llm w text = Some a ->
    flagged a = false ->
    interviewMode (config s) = mock ->
    (plannerReply w = Garbled \/ plannerReply w = Parsed Js.Null ->
     proposal llm w = Some (parseFallback (clockAtPlanner w))
     /\ called (CallNextQuestion (Js.Str "MOVE_NEXT")) (turn llm w s text)
     /\ forall q,
         goesThrough w q ->
         exists made s' meta,
           sendMessage llm w db (mkSend id text)
           = (made, Ok id q (state s') (evaluation s'),
              save db (clockAtSave w) s')
           /\ agenticDecisions s'
              = (agenticDecisions s
                   ++ [parseFallback (clockAtPlanner w)])%list
           /\ messages s'
              = (messages s
                   ++ [Message.mk user text (now w) None;
                       Message.mk assistant q (now w) (Some meta)])%list)
    /\ (forall v act,
           plannerReply w = Parsed v ->
           Js.get v "decision" = Some act ->
           Js.is_string act "WRAP_UP" = false ->
           Js.is_string act "CHANGE_PHASE" = false ->
           exists d,
             proposal llm w = Some d
             /\ decision d = act
             /\ called (CallNextQuestion act) (turn llm w s text)
             /\ (spelledOut d = true ->
                 forall q,
                   goesThrough w q ->
                   exists made s' meta,
                     sendMessage llm w db (mkSend id text)
                     = (made, Ok id q (state s') (evaluation s'),
                        save db (clockAtSave w) s')
                     /\ agenticDecisions s'
                        = (agenticDecisions s ++ [d])%list
                     /\ messages s'
                        = (messages s
                             ++ [Message.mk user text (now w) None;
                                 Message.mk assistant q (now w)
                                            (Some meta)])%list)
             /\ (InterviewSessionModel.agenticDecisionSchema d = false ->
                 exists made,
                   sendMessage llm w db (mkSend id text)
                   = (made, ServerError, db))).
Proof.
  intros llm w db id text s a Hid Htext Hfind Hact Hvalid Ha Hf Hmode.
  destruct (classify_served llm w text a Ha) as [prov Hs].
  pose proof (proposal_of_reply llm prov w Hs) as Hprop.
  assert (Hstored :
            forall d q,
              proposal llm w = Some d ->
              Js.is_string (decision d) "WRAP_UP" = false ->
              Js.is_string (decision d) "CHANGE_PHASE" = false ->
              spelledOut d = true ->
              goesThrough w q ->
              exists made s' meta,
                sendMessage llm w db (mkSend id text)
                = (made, Ok id q (state s') (evaluation s'),
                   save db (clockAtSave w) s')
                /\ agenticDecisions s' = (agenticDecisions s ++ [d])%list
                /\ messages s'
                   = (messages s
                        ++ [Message.mk user text (now w) None;
                            Message.mk assistant q (now w)
                                       (Some meta)])%list).
  { intros d q Hd H1 H2 Hschema (Hq & Hne & Hev & Hfit & Hsave).
    destruct (plain_turn llm w s text a d Ha Hf Hmode Hd H1 H2)
      as (_ & Hans).
    destruct (Hans q Hq Hev) as (s' & meta & Hout & Hlog & Hmsg & _).
    destruct (answered_turn_is_stored llm w db id text q s s' a
                Hid Htext Hfind Hact Hvalid Ha Hout Hne) as [made Hsent];
      [|exact Hfit|exact Hsave|].
    - rewrite (logged_mock llm w s a d Hf Hmode Hd). cbn [forallb].
      rewrite (spelledOut_valid d Hschema). reflexivity.
    - exists made, s', meta. repeat split; assumption. }
  split.
  - intros Hbad.
    assert (Hd : proposal llm w = Some (parseFallback (clockAtPlanner w))).
    { rewrite Hprop. destruct Hbad as [-> | ->]; reflexivity. }
    destruct (plain_turn llm w s text a _ Ha Hf Hmode Hd eq_refl eq_refl)
      as (Hcall & _).
    split; [exact Hd|]. split; [exact Hcall|].
    intros q Hgo.
    exact (Hstored _ q Hd eq_refl eq_refl eq_refl Hgo).
  - intros v act Hv Hact' H1 H2.
    assert (Hd : exists d, proposal llm w = Some d /\ decision d = act).
    { rewrite Hprop, Hv. unfold decisionOfReply. rewrite Hact'.
      destruct v; try discriminate Hact'; cbn; eexists; split; reflexivity. }
    destruct Hd as (d & Hd & Hdec).
    exists d. split; [exact Hd|]. split; [exact Hdec|].
    rewrite <- Hdec in H1, H2.
    destruct (plain_turn llm w s text a d Ha Hf Hmode Hd H1 H2)
      as (Hcall & _).
    rewrite Hdec in Hcall. split; [exact Hcall|]. split.
    + intros Hschema q Hgo. exact (Hstored d q Hd H1 H2 Hschema Hgo).
    + intros Hschema.
      apply (sendMessage_rejects llm w db id text s Hid Htext Hfind Hact).
      intros s' msg Hout.
      rewrite (turn_validate llm w s s' text msg a Ha Hout),
        (logged_mock llm w s a d Hf Hmode Hd).
      cbn [forallb]. rewrite Hschema. cbn [andb].
      rewrite Bool.andb_false_r. reflexivity.
Qed.

(** The planner answers with text that is not JSON: the answer to a
    freshly created session is stored and returned all the same. *)
Lemma planner_payload_is_recovered_witness :
  exists made s',
    sendMessage llmOllama (world (2 * minute) fine Garbled)
                [newcomer 30 mock] (mkSend "s-1" "I led the migration.")
    = (made, Ok "s-1" "What would you do differently?" (state s')
                (evaluation s'),
       save [newcomer 30 mock] (2 * minute) s')
    /\ agenticDecisions s' = [parseFallback (2 * minute)].
Proof.
  destruct (planner_payload_is_recovered
              llmOllama (world (2 * minute) fine Garbled)
              [newcomer 30 mock] "s-1" "I led the migration."
              (newcomer 30 mock)
              (mkAnalysis true true false (Js.Str "low") (Js.Str "as rated")))
    as (Hbad & _);
    try reflexivity; try discriminate.
  destruct (Hbad (or_introl eq_refl)) as (_ & _ & Hans).
  destruct (Hans "What would you do differently?") as (made & s' & meta & H).
  - split; [reflexivity|]. split; [discriminate|]. split; [discriminate|].
    split; [intros e He; discriminate He|reflexivity].
  - destruct H as (Hsent & Hlog & _).
    exists made, s'. split; [exact Hsent|exact Hlog].
Defined.

(** C7 (as stated) fails.  A reply that parses without an action is not
    defaulted: the save rejects the decision, the caller gets the 500 and
    nothing is stored.  A reply that names an unknown action, with its
    reasoning and context, is answered, and logged as it came, not as
    [MOVE_NEXT].  And on a parse failure the context of the decision is a
    fixed text, the same for every reply. *)
Lemma planner_payload_counterexample :
  sendMessage llmOllama
              (world (2 * minute) fine (Parsed (Js.Obj [])))
              [newcomer 30 mock] (mkSend "s-1" "I led the migration.")
  = ([CallAnalyze; CallPlanner; CallNextQuestion Js.Undefined; CallSave],
     ServerError, [newcomer 30 mock])
  /\ (let '(_, r, db) :=
        sendMessage llmOllama (world (2 * minute) fine (says "DANCE"))
                    [newcomer 30 mock]
                    (mkSend "s-1" "I led the migration.") in
      (match r with
       | Ok _ text _ _ => Some text
       | _ => None
       end,
       map (fun doc => map decision (agenticDecisions doc)) db))
     = (Some "What would you do differently?", [[Js.Str "DANCE"]])
  /\ option_map context
                (proposal llmOllama (world (2 * minute) fine Garbled))
     = Some (Js.Str "Failed to parse AI decision response").
Proof. repeat split; vm_compute; reflexivity. Qed.

(** ** The evaluation *)

(** A turn changes the evaluation only by generating one, and then the
    session is frozen. *)
Lemma evaluation_only_when_frozen (llm : LLMService.t) (w : World)
      (s s' : InterviewSession) (text msg : string) :
  outcome (turn llm w s text) = Some (s', msg) ->
  evaluation s' <> evaluation s ->
  frozen s' /\ called CallEvaluation (turn llm w s text).
Proof.
  intros Hout Hne.
  destruct (turn_inv llm w s s' text msg Hout) as (a & p & Ha & Hp & Hc & _).
  destruct (respond _ _ _ _ _ _) as [made [p'|]] eqn:Hr;
    cbn in Hp; [|discriminate Hp].
  injection Hp as ->.
  destruct (respond_frame llm w _ a _ _ p ltac:(rewrite Hr; reflexivity))
    as (_ & _ & _ & Hev & _).
  destruct (turn_after_respond llm w s text a made p Ha Hr) as (Hcalls & _).
  destruct (fires w (shouldEndSession p) (reply w p)) eqn:Hf.
  - destruct (conclude_fired _ _ _ _ _ Hf Hc) as (Hst & _ & _ & _ & _ & Hev').
    split; [exact (freeze_frozen w (reply w p) s' Hst)|].
    destruct (shouldEndSession p) eqn:Hflag.
    + exfalso. apply Hne. rewrite Hev'. exact Hev.
    + unfold called. rewrite Hcalls, conclude_calls, Hf. cbn.
      apply in_cons, in_or_app. right. left. reflexivity.
  - rewrite conclude_quiet in Hc by exact Hf. injection Hc as <-.
    exfalso. apply Hne. exact Hev.
Qed.

(** A frozen session takes no further message: nothing is called and the
    store is untouched. *)
Lemma sendMessage_refuses_inactive (llm : LLMService.t) (w : World)
      (db : Store) (body : SendMessageRequest) (s : InterviewSession) :
  findOne db (requestSessionId body) = Some s ->
  isActive (state s) = false ->
  exists error, sendMessage llm w db body = ([], BadRequest error, db).
Proof.
  intros Hfind Hoff. unfold sendMessage. rewrite Hfind, Hoff.
  destruct (_ || _)%bool; eexists; reflexivity.
Qed.

(** C9, at the failing input: six questions asked, 25 minutes into a
    30-minute mock interview, the seventh answer passes moderation and the
    planner proposes [WRAP_UP].  The proposal is honoured, the
    end-of-interview condition holds as well ([questionsAsked = 7]), the
    session was not terminated by moderation, and the session is frozen
    with no call to [generateEvaluation] and no evaluation.  With any
    other proposal the same turn is evaluated. *)
Lemma honoured_wrap_up_is_not_evaluated :
  shouldEndInterview
    (received (world (25 * minute) fine (says "WRAP_UP"))
              "That is how I would scale it." (seasoned 30 6 technical))
    (25 * minute) 30 = true
  /\ option_map (fun a => verdict a 0 "Tell me about a project you led.")
                (classify llmOllama
                          (world (25 * minute) fine (says "WRAP_UP"))
                          "That is how I would scale it.")
     = Some Proceed
  /\ calls (turn llmOllama (world (25 * minute) fine (says "WRAP_UP"))
                 (seasoned 30 6 technical) "That is how I would scale it.")
     = [CallAnalyze; CallPlanner; CallNextQuestion (Js.Str "WRAP_UP")]
  /\ option_map (fun x => (isActive (state (fst x)), phase (state (fst x)),
                           endTime (state (fst x)), evaluation (fst x)))
                (outcome (turn llmOllama
                               (world (25 * minute) fine (says "WRAP_UP"))
                               (seasoned 30 6 technical)
                               "That is how I would scale it."))
     = Some (false, completed, Some (25 * minute), None)
  /\ calls (turn llmOllama (world (25 * minute) fine (says "MOVE_NEXT"))
                 (seasoned 30 6 technical) "That is how I would scale it.")
     = [CallAnalyze; CallPlanner; CallNextQuestion (Js.Str "MOVE_NEXT");
        CallEvaluation]
  /\ option_map (fun x => evaluation (fst x))
                (outcome (turn llmOllama
                               (world (25 * minute) fine (says "MOVE_NEXT"))
                               (seasoned 30 6 technical)
                               "That is how I would scale it."))
     = Some (Some fallbackEvaluation).
Proof. repeat split; vm_compute; reflexivity. Qed.

(** * Further properties *)

(** ** What one turn can do *)

Lemma respond_effect (llm : LLMService.t) (w : World) (s : InterviewSession)
      (a : ContentAnalysis) (n : Z) (q : string) (p : Progress) :
  outcome (respond llm w s a n q) = Some p ->
  (exists ds,
      agenticDecisions (session p) = (agenticDecisions s ++ ds)%list
      /\ (List.length ds <= 1)%nat)
  /\ (shouldEndSession p = false ->
      phase (state (session p)) = phase (state s)
      \/ phase (state (session p)) = getNextPhase (phase (state s))).
Proof.
  unfold respond, moderationBranch, practiceBranch, mockBranch, govern,
    LLMService.generateModerationResponse, LLMService.generatePracticeFeedback,
    LLMService.makeAgenticDecision, LLMService.generateNextQuestion,
    LLMService.delegate, await, bind, ret, outcome.
  break_matches; cbn [snd]; intros H; try discriminate H;
    injection H as <-; cbn; (split; [|intros Hflag; try discriminate Hflag; tauto]).
  all: first [ exists []; rewrite app_nil_r; split; [reflexivity|cbn; lia]
             | eexists [_]; split; [reflexivity|cbn; lia] ].
Qed.

Lemma turn_effect (llm : LLMService.t) (w : World) (s s' : InterviewSession)
      (text msg : string) :
  outcome (turn llm w s text) = Some (s', msg) ->
  (exists ds,
      agenticDecisions s' = (agenticDecisions s ++ ds)%list
      /\ (List.length ds <= 1)%nat)
  /\ candidateName s' = candidateName s
  /\ candidateEmail s' = candidateEmail s
  /\ createdAt s' = createdAt s
  /\ currentQuestionIndex (state s') = currentQuestionIndex (state s)
  /\ (frozen s'
      \/ (isActive (state s') = isActive (state s)
          /\ endTime (state s') = endTime (state s)
          /\ evaluation s' = evaluation s
          /\ (phase (state s') = phase (state s)
              \/ phase (state s') = getNextPhase (phase (state s))))).
Proof.
  intros H. apply turn_inv in H.
  destruct H as (a & p & Ha & Hp & Hc & ->).
  pose proof (respond_effect _ _ _ _ _ _ _ Hp) as ((ds & Hds & Hlen) & Hph).
  pose proof (respond_frame _ _ _ _ _ _ _ Hp)
    as (_ & _ & _ & Hev & _ & _ & _ & Hflag).
  assert (Hrest : candidateName (session p) = candidateName s
                  /\ candidateEmail (session p) = candidateEmail s
                  /\ createdAt (session p) = createdAt s
                  /\ currentQuestionIndex (state (session p))
                     = currentQuestionIndex (state s)).
  { revert Hp. unfold respond, moderationBranch, practiceBranch, mockBranch,
      govern, LLMService.generateModerationResponse,
      LLMService.generatePracticeFeedback, LLMService.makeAgenticDecision,
      LLMService.generateNextQuestion, LLMService.delegate, await, bind, ret,
      outcome.
    break_matches; cbn [snd]; intros H; try discriminate H;
      injection H as <-; cbn; repeat split. }
  destruct Hrest as (Hn & He & Hcr & Hci).
  destruct (fires w (shouldEndSession p) (reply w p)) eqn:Hf.
  - destruct (conclude_fired _ _ _ _ _ Hf Hc) as (Hst & _ & _ & _ & Hdec & _).
    pose proof (freeze_frozen w (reply w p) s' Hst) as Hfrozen.
    assert (Hsame : candidateName s' = candidateName (reply w p)
                    /\ candidateEmail s' = candidateEmail (reply w p)
                    /\ createdAt s' = createdAt (reply w p)).
    { revert Hc. unfold conclude. fold (fires w (shouldEndSession p) (reply w p)).
      rewrite Hf. unfold LLMService.generateEvaluation, LLMService.delegate,
        await, bind, ret, outcome.
      break_matches; cbn [snd]; intros H; try discriminate H;
        injection H as <-; cbn; repeat split. }
    destruct Hsame as (Hn' & He' & Hcr').
    split; [exists ds; rewrite Hdec; cbn; split; assumption|].
    rewrite Hn', He', Hcr', Hst. cbn.
    rewrite Hn, He, Hcr, Hci. cbn.
    do 4 (split; [reflexivity|]). left. exact Hfrozen.
  - rewrite conclude_quiet in Hc by exact Hf. injection Hc as <-.
    assert (Hoff : shouldEndSession p = false).
    { unfold fires in Hf. apply Bool.orb_false_iff in Hf. tauto. }
    split; [exists ds; cbn; split; assumption|].
    cbn. rewrite Hn, He, Hcr, Hci. cbn.
    do 4 (split; [reflexivity|]). right.
    destruct (Hflag Hoff) as (Hact & Hend). cbn in *.
    rewrite Hact, Hend, Hev. cbn. repeat split. exact (Hph Hoff).
Qed.

(** ** Whole conversations *)

Lemma converse_app (llm : LLMService.t) (i1 i2 : list (World * string)) :
  forall s, converse llm s (i1 ++ i2) = converse llm (converse llm s i1) i2.
Proof.
  induction i1 as [|[w text] rest IH]; intros s; [reflexivity|].
  cbn [converse app].
  destruct (sendMessage llm w [s] (mkSend (sessionId s) text))
    as [[made resp] db].
  apply IH.
Qed.

(** A property kept by every answered turn of an active session is kept
    by every conversation. *)
Lemma converse_invariant (llm : LLMService.t) (P : InterviewSession -> Prop) :
  (forall w s text s' msg t,
      P s -> isActive (state s) = true ->
      outcome (turn llm w s text) = Some (s', msg) ->
      P (set_updatedAt t s')) ->
  forall inputs s, P s -> P (converse llm s inputs).
Proof.
  intros Hstep inputs.
  induction inputs as [|[w text] rest IH]; intros s Hs; [exact Hs|].
  cbn [converse].
  pose proof (converse_step llm w s text) as H.
  destruct (sendMessage llm w [s] (mkSend (sessionId s) text))
    as [[made resp] db].
  apply IH.
  destruct H as [->|(Hact & s' & msg & Hturn & ->)]; [exact Hs|].
  exact (Hstep w s text s' msg _ Hs Hact Hturn).
Qed.

Lemma converse_inactive (llm : LLMService.t) (inputs : list (World * string)) :
  forall s, isActive (state s) = false -> converse llm s inputs = s.
Proof.
  induction inputs as [|[w text] rest IH]; intros s Hoff; [reflexivity|].
  cbn [converse].
  pose proof (converse_step llm w s text) as H.
  destruct (sendMessage llm w [s] (mkSend (sessionId s) text))
    as [[made resp] db].
  destruct H as [->|(Hact & _)]; [apply IH; exact Hoff|congruence].
Qed.

Lemma exchanges_snoc (n : nat) :
  (exchanges n ++ [user; assistant])%list = exchanges (S n).
Proof.
  induction n as [|n IH]; [reflexivity|].
  cbn [exchanges app]. rewrite IH. reflexivity.
Qed.

(** X1: The transcript and the decision log only grow, by one user message and
    one assistant message per answered turn and at most one decision;
    [questionsAsked] counts the answered turns; identity, configuration
    and start time never change. *)
Theorem conversation_is_append_only :
  forall (llm : LLMService.t) (s0 : InterviewSession)
         (inputs : list (World * string)),
  exists (n : nat) (tail : list Message.t) (ds : list AgenticDecision),
    messages (converse llm s0 inputs) = (messages s0 ++ tail)%list
    /\ map Message.role tail = exchanges n
    /\ questionsAsked (state (converse llm s0 inputs))
       = questionsAsked (state s0) + Z.of_nat n
    /\ agenticDecisions (converse llm s0 inputs)
       = (agenticDecisions s0 ++ ds)%list
    /\ (List.length ds <= n)%nat
    /\ sessionId (converse llm s0 inputs) = sessionId s0
    /\ config (converse llm s0 inputs) = config s0
    /\ startTime (state (converse llm s0 inputs)) = startTime (state s0)
    /\ createdAt (converse llm s0 inputs) = createdAt s0.
Proof.
  intros llm s0 inputs.
  apply (converse_invariant llm
           (fun s =>
              exists (n : nat) (tail : list Message.t)
                     (ds : list AgenticDecision),
                messages s = (messages s0 ++ tail)%list
                /\ map Message.role tail = exchanges n
                /\ questionsAsked (state s)
                   = questionsAsked (state s0) + Z.of_nat n
                /\ agenticDecisions s = (agenticDecisions s0 ++ ds)%list
                /\ (List.length ds <= n)%nat
                /\ sessionId s = sessionId s0
                /\ config s = config s0
                /\ startTime (state s) = startTime (state s0)
                /\ createdAt s = createdAt s0)).
  - intros w s text s' msg t
           (n & tail & ds & Hm & Hr & Hq & Hd & Hl & Hid & Hc & Hst & Hcr)
           _ Hturn.
    destruct (turn_frame llm w s s' text msg Hturn)
      as (Hid' & Hc' & Hst' & Hq' & _ & (meta & Hm') & _).
    destruct (turn_effect llm w s s' text msg Hturn)
      as ((ds' & Hd' & Hl') & _ & _ & Hcr' & _).
    exists (S n),
      (tail ++ [Message.mk user text (now w) None;
                Message.mk assistant msg (now w) (Some meta)])%list,
      (ds ++ ds')%list.
    cbn [messages agenticDecisions set_updatedAt state sessionId config
         createdAt].
    rewrite Hm', Hm, Hd', Hd, Hq', Hq, Hid', Hid, Hc', Hc, Hst', Hst, Hcr', Hcr.
    rewrite <- !app_assoc, map_app, Hr, length_app.
    cbn [map Message.role]. rewrite exchanges_snoc.
    repeat split; try reflexivity; lia.
  - exists 0%nat, [], []. rewrite !app_nil_r. cbn.
    repeat split; try reflexivity; lia.
Qed.

Lemma frozen_inactive (s : InterviewSession) :
  frozen s -> isActive (state s) = false.
Proof. intros (H & _). exact H. Qed.

Lemma frozen_set_updatedAt (t : Z) (s : InterviewSession) :
  frozen s -> frozen (set_updatedAt t s).
Proof. intros H. exact H. Qed.

(** X2: In any conversation an inactive session is frozen ([endTime] set,
    phase [completed]), provided it started that way; and once the session
    is inactive, no later message changes anything in it. *)
Theorem closed_sessions_stay_closed :
  forall (llm : LLMService.t) (s0 : InterviewSession)
         (before after : list (World * string)),
    closedProperly s0 ->
    closedProperly (converse llm s0 before)
    /\ (isActive (state (converse llm s0 before)) = false ->
        converse llm s0 (before ++ after) = converse llm s0 before).
Proof.
  intros llm s0 before after H0. split.
  - apply (converse_invariant llm closedProperly); [|exact H0].
    intros w s text s' msg t _ Hact Hturn Hoff.
    apply frozen_set_updatedAt.
    destruct (turn_effect llm w s s' text msg Hturn)
      as (_ & _ & _ & _ & _ & [Hfr|(Hsame & _)]); [exact Hfr|].
    cbn in Hoff. congruence.
  - intros Hoff. rewrite converse_app. apply converse_inactive. exact Hoff.
Qed.

Lemma closed_sessions_stay_closed_witness :
  frozen (converse llmOllama (newcomer 30 mock) (answers 7))
  /\ converse llmOllama (newcomer 30 mock) (answers 7 ++ answers 3)
     = converse llmOllama (newcomer 30 mock) (answers 7).
Proof.
  destruct (closed_sessions_stay_closed
              llmOllama (newcomer 30 mock) (answers 7) (answers 3))
    as (Hclosed & Hstay).
  - intros Hoff. discriminate Hoff.
  - assert (Hoff : isActive (state (converse llmOllama (newcomer 30 mock)
                                             (answers 7))) = false)
      by (vm_compute; reflexivity).
    split; [exact (Hclosed Hoff)|exact (Hstay Hoff)].
Defined.

(** X3: The evaluation of a session changes only when the session is frozen:
    as long as a conversation leaves the session active, its evaluation is
    the one it started with. *)
Theorem evaluation_changes_only_on_closing :
  forall (llm : LLMService.t) (s0 : InterviewSession)
         (inputs : list (World * string)),
    isActive (state (converse llm s0 inputs)) = true ->
    evaluation (converse llm s0 inputs) = evaluation s0.
Proof.
  intros llm s0 inputs.
  apply (converse_invariant llm
           (fun s => isActive (state s) = true ->
                     evaluation s = evaluation s0)); [|reflexivity].
  intros w s text s' msg t Hs Hact Hturn Hact'.
  destruct (turn_effect llm w s s' text msg Hturn)
    as (_ & _ & _ & _ & _ & [Hfr|(_ & _ & Hev & _)]).
  - apply frozen_inactive in Hfr. cbn in Hact'. congruence.
  - cbn. rewrite Hev. exact (Hs Hact).
Qed.

Lemma evaluation_changes_only_on_closing_witness :
  evaluation (converse llmOllama (newcomer 30 mock) (answers 6)) = None.
Proof.
  apply (evaluation_changes_only_on_closing
           llmOllama (newcomer 30 mock) (answers 6)).
  vm_compute. reflexivity.
Defined.

(** ** Phases over a conversation *)

Lemma getNextPhase_in_list (p : Phase) : In (getNextPhase p) phases.
Proof. destruct p; cbn; tauto. Qed.

Lemma getNextPhase_rank (p : Phase) :
  p <> completed -> phaseRank p <= phaseRank (getNextPhase p).
Proof.
  destruct p; intros H; try (apply Z.leb_le; reflexivity).
  exfalso; apply H; reflexivity.
Qed.

(** X4: [getNextPhase] always answers a phase of its list (never [setup], never
    [completed]); from a phase of the list it never steps back and steps
    at most one position; and six steps from any phase end in [wrap_up],
    where every further step stays. *)
Theorem getNextPhase_progress :
  forall p : Phase,
    In (getNextPhase p) phases
    /\ getNextPhase p <> completed
    /\ getNextPhase p <> setup
    /\ (In p phases ->
        phaseRank p <= phaseRank (getNextPhase p) <= phaseRank p + 1)
    /\ forall n : nat, (6 <= n)%nat -> Nat.iter n getNextPhase p = wrap_up.
Proof.
  intros p. split; [apply getNextPhase_in_list|].
  split; [destruct p; discriminate|]. split; [destruct p; discriminate|].
  split.
  - intros Hin.
    destruct p; try (split; apply Z.leb_le; reflexivity);
      cbn in Hin; intuition discriminate.
  - intros n Hn.
    replace n with ((n - 6) + 6)%nat by lia.
    rewrite Nat.iter_add.
    assert (H6 : Nat.iter 6 getNextPhase p = wrap_up)
      by (destruct p; reflexivity).
    rewrite H6. clear. induction (n - 6)%nat as [|k IH]; [reflexivity|].
    rewrite Nat.iter_succ, IH. reflexivity.
Qed.

Lemma getNextPhase_progress_witness :
  phaseRank technical <= phaseRank (getNextPhase technical)
  /\ Nat.iter 9 getNextPhase setup = wrap_up.
Proof.
  destruct (getNextPhase_progress technical) as (_ & _ & _ & Hrank & _).
  destruct (getNextPhase_progress setup) as (_ & _ & _ & _ & Hiter).
  split.
  - apply Hrank. cbn. tauto.
  - apply Hiter. lia.
Defined.

(** X5: Over a conversation the phase never moves back in the order
    [setup < warmup < ... < wrap_up < completed], for a session that is
    not active in phase [completed] to begin with; the only way to
    [completed] is the freeze, and an active session is never in it. *)
Theorem phase_never_moves_back :
  forall (llm : LLMService.t) (s0 : InterviewSession)
         (before after : list (World * string)),
    livePhase s0 ->
    phaseRank (phase (state (converse llm s0 before)))
    <= phaseRank (phase (state (converse llm s0 (before ++ after))))
    /\ livePhase (converse llm s0 (before ++ after)).
Proof.
  intros llm s0 before after H0.
  assert (Hinv : forall s inputs,
             livePhase s ->
             livePhase (converse llm s inputs)
             /\ phaseRank (phase (state s))
                <= phaseRank (phase (state (converse llm s inputs)))).
  { intros s inputs Hs.
    apply (converse_invariant llm
             (fun x => livePhase x
                       /\ phaseRank (phase (state s))
                          <= phaseRank (phase (state x)))); [|split; [exact Hs|lia]].
    intros w x text x' msg t (Hlive & Hrank) Hact Hturn.
    destruct (turn_effect llm w x x' text msg Hturn)
      as (_ & _ & _ & _ & _ & [Hfr|(Hsame & _ & _ & Hph)]).
    - destruct Hfr as (Hoff & _ & Hdone). split.
      + intros Hon. cbn in Hon. congruence.
      + cbn. rewrite Hdone. destruct (phase (state s)); cbn; lia.
    - specialize (Hlive Hact). split.
      + intros _. cbn. destruct Hph as [-> | ->]; [exact Hlive|].
        destruct (phase (state x)); discriminate.
      + cbn. destruct Hph as [-> | ->]; [exact Hrank|].
        pose proof (getNextPhase_rank (phase (state x)) Hlive). lia. }
  rewrite converse_app.
  destruct (Hinv s0 before H0) as (Hlive & _).
  destruct (Hinv (converse llm s0 before) after Hlive) as (Hlive' & Hrank).
  split; assumption.
Qed.

Lemma phase_never_moves_back_witness :
  phaseRank (phase (state (converse llmOllama (newcomer 30 mock) (answers 2))))
  <= phaseRank (phase (state (converse llmOllama (newcomer 30 mock)
                                       (answers 2 ++ answers 5)))).
Proof.
  apply (phase_never_moves_back llmOllama (newcomer 30 mock)
                                (answers 2) (answers 5)).
  intros _. discriminate.
Defined.

(** ** The thresholds *)

Lemma maxQuestions_bounds (d : Z) : 6 <= maxQuestions d <= 12.
Proof. unfold maxQuestions. lia. Qed.

Lemma limits_gap (d : Z) : 61 <= d -> maxQuestions d < minQuestions d.
Proof.
  unfold maxQuestions, minQuestions, ceilDiv. intros Hd.
  pose proof (Z.div_mod (- d) 5 ltac:(lia)) as H5.
  pose proof (Z.mod_pos_bound (- d) 5 ltac:(lia)) as B5.
  lia.
Qed.

(** X6: The question limit lies between 6 and 12 for every duration, grows
    with the duration, is 6 up to 27 minutes and 12 from 48 minutes on; the
    wrap-up minimum is at least 3, grows with the duration, and exceeds
    the question limit exactly from 61 minutes on. *)
Theorem question_thresholds :
  forall d : Z,
    6 <= maxQuestions d <= 12
    /\ (d < 28 -> maxQuestions d = 6)
    /\ (48 <= d -> maxQuestions d = 12)
    /\ (forall d', d <= d' -> maxQuestions d <= maxQuestions d')
    /\ 3 <= minQuestions d
    /\ (forall d', d <= d' -> minQuestions d <= minQuestions d')
    /\ (maxQuestions d < minQuestions d <-> 61 <= d).
Proof.
  intros d. unfold maxQuestions, minQuestions, ceilDiv.
  pose proof (Z.div_mod d 4 ltac:(lia)) as H4.
  pose proof (Z.mod_pos_bound d 4 ltac:(lia)) as B4.
  pose proof (Z.div_mod (- d) 5 ltac:(lia)) as H5.
  pose proof (Z.mod_pos_bound (- d) 5 ltac:(lia)) as B5.
  split; [lia|]. split; [lia|]. split; [lia|].
  split.
  { intros d' Hle. pose proof (Z.div_le_mono d d' 4 ltac:(lia) Hle). lia. }
  split; [lia|]. split.
  { intros d' Hle.
    pose proof (Z.div_le_mono (- d') (- d) 5 ltac:(lia) ltac:(lia)). lia. }
  lia.
Qed.

Lemma question_thresholds_witness :
  maxQuestions 20 = 6 /\ maxQuestions 90 = 12
  /\ (maxQuestions 61 < minQuestions 61).
Proof.
  destruct (question_thresholds 20) as (_ & Hlow & _).
  destruct (question_thresholds 90) as (_ & _ & Hhigh & _).
  destruct (question_thresholds 61) as (_ & _ & _ & _ & _ & _ & Hgap).
  split; [apply Hlow; lia|]. split; [apply Hhigh; lia|].
  apply Hgap. lia.
Defined.

(** ** The question limit over a conversation *)

Lemma withinLimit_turn (llm : LLMService.t) (w : World)
      (s s' : InterviewSession) (text msg : string) (t : Z) :
  withinLimit s ->
  isActive (state s) = true ->
  outcome (turn llm w s text) = Some (s', msg) ->
  withinLimit (set_updatedAt t s').
Proof.
  intros (Hstart & Hq & Hact & _) Hactive Hturn.
  destruct (turn_frame llm w s s' text msg Hturn)
    as (_ & Hcfg & Hst & Hq' & _ & (meta & Hmsg) & Hfire & Hor).
  pose proof (userTurns_after s s' text msg (now w) meta Hmsg) as Hu.
  specialize (Hact Hactive).
  unfold withinLimit. cbn.
  change (userTurns (set_updatedAt t s')) with (userTurns s').
  rewrite Hcfg, Hst, Hq', Hu, Hq.
  split; [exact Hstart|]. split; [reflexivity|].
  assert (Hfull : maxQuestions (durationMinutes (config s)) <= userTurns s + 1
                  -> frozen s').
  { intros Hmax. destruct (startTime (state s)) as [start|] eqn:Es;
      [|contradiction].
    apply (Hfire start eq_refl). right. rewrite Hq. exact Hmax. }
  split.
  - intros Hact'.
    destruct (Z.lt_ge_cases (userTurns s + 1)
                            (maxQuestions (durationMinutes (config s))))
      as [Hlt|Hge]; [exact Hlt|].
    destruct (Hfull Hge) as (Hoff & _). congruence.
  - intros Hoff. split; [|lia].
    destruct Hor as [Hfr|Hsame]; [exact Hfr|congruence].
Qed.

Lemma converse_keeps_config (llm : LLMService.t)
      (inputs : list (World * string)) (s0 : InterviewSession) :
  config (converse llm s0 inputs) = config s0.
Proof.
  apply (converse_invariant llm (fun s => config s = config s0));
    [|reflexivity].
  intros w s text s' msg t Hs _ Hturn.
  destruct (turn_frame llm w s s' text msg Hturn) as (_ & Hcfg & _).
  cbn. rewrite Hcfg. exact Hs.
Qed.

Lemma withinLimit_converse (llm : LLMService.t) (s0 : InterviewSession)
      (inputs : list (World * string)) :
  seeded s0 -> withinLimit (converse llm s0 inputs).
Proof.
  intros (Hstart & Hq & Hu & Hact).
  apply (converse_invariant llm withinLimit
           (fun w s text s' msg t Hs Ha Ht =>
              withinLimit_turn llm w s s' text msg t Hs Ha Ht)).
  unfold withinLimit. rewrite Hq, Hu, Hact.
  pose proof (maxQuestions_bounds (durationMinutes (config s0))).
  repeat split; try assumption; try lia; discriminate.
Qed.

(** X7: A started session takes at most
    [max 6 (min 12 (floor (durationMinutes / 4)))] user messages, hence
    never more than 12, whatever its duration, the planner and the
    moderation do; [questionsAsked] is the number of user messages in the
    transcript; and a session that has taken that many is frozen. *)
Theorem question_limit_holds :
  forall (llm : LLMService.t) (s0 : InterviewSession)
         (inputs : list (World * string)),
    seeded s0 ->
    questionsAsked (state (converse llm s0 inputs))
    = userTurns (converse llm s0 inputs)
    /\ userTurns (converse llm s0 inputs)
       <= maxQuestions (durationMinutes (config s0))
    /\ userTurns (converse llm s0 inputs) <= 12
    /\ (userTurns (converse llm s0 inputs)
        = maxQuestions (durationMinutes (config s0)) ->
        frozen (converse llm s0 inputs)).
Proof.
  intros llm s0 inputs Hseed.
  destruct (withinLimit_converse llm s0 inputs Hseed)
    as (_ & Hq' & Hon & Hoff).
  rewrite (converse_keeps_config llm inputs s0) in Hon, Hoff.
  pose proof (maxQuestions_bounds (durationMinutes (config s0))) as Hb.
  destruct (isActive (state (converse llm s0 inputs))) eqn:Hact'.
  - specialize (Hon eq_refl).
    split; [exact Hq'|]. split; [lia|]. split; [lia|]. intros Heq. lia.
  - destruct (Hoff eq_refl) as (Hfr & Hle).
    split; [exact Hq'|]. split; [exact Hle|]. split; [lia|].
    intros _. exact Hfr.
Qed.

Lemma question_limit_holds_witness :
  userTurns (converse llmOllama (newcomer 90 mock) (answers 20)) <= 12.
Proof.
  apply (question_limit_holds llmOllama (newcomer 90 mock) (answers 20)
                              (newcomer_seeded 90 mock)).
Defined.

(** ** When a wrap-up can be honoured *)

Lemma respond_wrap_up_call (llm : LLMService.t) (w : World)
      (s : InterviewSession) (a : ContentAnalysis) (n : Z) (q : string) :
  In (CallNextQuestion (Js.Str "WRAP_UP")) (calls (respond llm w s a n q)) ->
  minQuestions (durationMinutes (config s)) <= questionsAsked (state s)
  /\ interviewMode (config s) = mock
  /\ flagged a = false.
Proof.
  unfold respond, moderationBranch, practiceBranch, mockBranch, govern,
    LLMService.generateModerationResponse, LLMService.generatePracticeFeedback,
    LLMService.makeAgenticDecision, LLMService.generateNextQuestion,
    LLMService.delegate, await, bind, ret, calls, flagged, isPractice.
  break_matches; cbn [fst snd app In]; intros H;
    repeat match goal with
           | H : _ \/ _ |- _ => destruct H
           | H : False |- _ => contradiction
           end;
    try discriminate.
  all: try match goal with
           | H : CallNextQuestion ?x = CallNextQuestion _ |- _ =>
               injection H as H
           end.
  all: try match goal with
           | H : decision ?d = Js.Str _,
             E : Js.is_string (decision ?d) _ = false |- _ =>
               rewrite H in E; discriminate E
           end.
  all: try discriminate.
  all: match goal with
       | E : canWrapUp _ _ = true |- _ =>
           apply canWrapUp_iff in E; destruct E as (_ & E); cbn in E
       end.
  all: repeat split; try assumption.
  all: destruct (interviewMode (config s)); [discriminate|reflexivity].
Qed.

Lemma turn_wrap_up_call (llm : LLMService.t) (w : World)
      (s : InterviewSession) (text : string) :
  called (CallNextQuestion (Js.Str "WRAP_UP")) (turn llm w s text) ->
  minQuestions (durationMinutes (config s)) <= questionsAsked (state s) + 1
  /\ interviewMode (config s) = mock.
Proof.
  unfold called. intros Hin.
  destruct (classify llm w text) as [a|] eqn:Ha.
  - rewrite (turn_calls llm w s text a Ha) in Hin.
    cbn [In] in Hin. destruct Hin as [Hin|Hin]; [discriminate Hin|].
    apply in_app_or in Hin. destruct Hin as [Hin|Hin].
    + apply respond_wrap_up_call in Hin. cbn in Hin. tauto.
    + destruct (outcome (respond _ _ _ _ _ _)) as [p|]; [|contradiction].
      rewrite conclude_calls in Hin.
      destruct (_ && _)%bool; cbn in Hin; intuition discriminate.
  - unfold turn in Hin. rewrite analyze_calls, Ha in Hin.
    cbn in Hin. intuition discriminate.
Qed.

(** X8: The closing text is generated for [WRAP_UP] only in mock mode and only
    on a turn that brings [questionsAsked] to at least
    [max 3 (ceil (durationMinutes / 5))].  So in a started session of 61
    minutes or more, where that minimum exceeds the question limit, no
    conversation ever reaches a turn on which a [WRAP_UP] is honoured:
    such a session can only end by the end-of-interview check or by
    moderation. *)
Theorem long_sessions_never_wrap_up :
  forall (llm : LLMService.t) (s0 : InterviewSession)
         (inputs : list (World * string)) (w : World) (text : string),
    seeded s0 ->
    61 <= durationMinutes (config s0) ->
    isActive (state (converse llm s0 inputs)) = true ->
    ~ called (CallNextQuestion (Js.Str "WRAP_UP"))
        (turn llm w (converse llm s0 inputs) text).
Proof.
  intros llm s0 inputs w text Hseed Hd Hact Hcall.
  apply turn_wrap_up_call in Hcall. destruct Hcall as (Hq & _).
  destruct (withinLimit_converse llm s0 inputs Hseed)
    as (_ & Hcount & Hon & _).
  specialize (Hon Hact). rewrite Hcount in Hq.
  pose proof (limits_gap (durationMinutes (config (converse llm s0 inputs))))
    as Hgap.
  rewrite (converse_keeps_config llm inputs s0) in Hq, Hon, Hgap.
  lia.
Qed.

Lemma long_sessions_never_wrap_up_witness :
  ~ called (CallNextQuestion (Js.Str "WRAP_UP"))
      (turn llmOllama (world (80 * minute) fine (says "WRAP_UP"))
            (converse llmOllama (newcomer 90 mock) (answers 11))
            "That is how I would scale it.").
Proof.
  apply (long_sessions_never_wrap_up
           llmOllama (newcomer 90 mock) (answers 11)
           (world (80 * minute) fine (says "WRAP_UP"))
           "That is how I would scale it." (newcomer_seeded 90 mock)).
  - cbn. lia.
  - vm_compute. reflexivity.
Defined.

(** ** The decision log and the warning count *)

(** X9: What a turn logs.  A terminating turn logs [TERMINATE]; a warning and a
    redirect both log [MODERATE]; an answer let through in mock mode logs
    the planner's decision as received; practice mode and the silent
    branch log nothing.  The warning count therefore rises by one on every
    warning or redirect, and also when the planner itself names its
    decision [MODERATE]; it never falls. *)
Theorem decision_log_and_warnings :
  forall (llm : LLMService.t) (w : World) (s s' : InterviewSession)
         (text msg : string) (a : ContentAnalysis),
    classify llm w text = Some a ->
    outcome (turn llm w s text) = Some (s', msg) ->
    agenticDecisions s' = (agenticDecisions s ++ logged llm w s a)%list
    /\ warningCountOf s'
       = warningCountOf s
         + Z.of_nat (List.length (filter isModerate (logged llm w s a)))
    /\ warningCountOf s <= warningCountOf s'
    /\ (verdict a (warningCountOf s) (lastQuestionOf (messages s)) = Moderate ->
        warningCountOf s' = warningCountOf s + 1)
    /\ (verdict a (warningCountOf s) (lastQuestionOf (messages s)) = Proceed ->
        interviewMode (config s) = mock ->
        forall d, proposal llm w = Some d ->
                  decision d = Js.Str "MODERATE" ->
                  warningCountOf s' = warningCountOf s + 1).
Proof.
  intros llm w s s' text msg a Ha Hturn.
  pose proof (turn_log llm w s s' text msg a Ha Hturn) as Hlog.
  assert (Hcount : warningCountOf s'
                   = warningCountOf s
                     + Z.of_nat (List.length
                                   (filter isModerate (logged llm w s a)))).
  { unfold warningCountOf. rewrite Hlog, filter_app, length_app. lia. }
  split; [exact Hlog|]. split; [exact Hcount|]. split; [lia|]. split.
  - intros Hv. rewrite Hcount. unfold logged. rewrite Hv. reflexivity.
  - intros Hv Hmode d Hd Hdec. rewrite Hcount. unfold logged.
    rewrite Hv, Hmode, Hd. cbn [isPractice filter]. unfold isModerate.
    rewrite Hdec. reflexivity.
Qed.

(** The planner names its decision [MODERATE] on a first, harmless
    answer: the log then counts one warning, although none was given. *)
Lemma decision_log_and_warnings_witness :
  exists s' msg,
    outcome (turn llmOllama (world (2 * minute) fine (says "MODERATE"))
                  (newcomer 30 mock) "I led the migration.") = Some (s', msg)
    /\ warningCountOf s' = 1.
Proof.
  destruct (outcome (turn llmOllama
                          (world (2 * minute) fine (says "MODERATE"))
                          (newcomer 30 mock) "I led the migration."))
    as [[s' msg]|] eqn:E; [|vm_compute in E; discriminate E].
  exists s', msg. split; [reflexivity|].
  destruct (decision_log_and_warnings
              llmOllama (world (2 * minute) fine (says "MODERATE"))
              (newcomer 30 mock) s' "I led the migration." msg
              (mkAnalysis true true false (Js.Str "low") (Js.Str "as rated"))
              eq_refl E) as (_ & _ & _ & _ & Hplanner).
  exact (Hplanner eq_refl eq_refl
                  (mkDecision (2 * minute) (Js.Str "MODERATE")
                              (Js.Str "because") (Js.Str "seen"))
                  eq_refl eq_refl).
Defined.

(** ** The branch that answers nothing *)

Lemma silent_verdict (a : ContentAnalysis) (n : Z) (q : string) :
  isAppropriate a = false ->
  isOnTopic a = true ->
  containsProfanity a = false ->
  Js.is_string (severity a) "high" = false ->
  verdict a n q = Silent.
Proof.
  intros H1 H2 H3 H4. unfold verdict, flagged, generateModerationResponse.
  rewrite H1, H2, H3, H4. reflexivity.
Qed.

(** X10: A message rated not appropriate, yet on-topic, free of profanity and
    not of severity [high], falls between the branches: the planner is not
    called, nothing is logged, and the assistant's message of that turn is
    the empty string.  The message schema requires a content, so the save
    rejects the document: sent to a stored, active session such a message
    is answered 500 and the store keeps the session as it was. *)
Theorem inappropriate_but_unhandled_answer :
  forall (llm : LLMService.t) (w : World) (db : Store) (id text : string)
         (s : InterviewSession) (a : ContentAnalysis),
    id <> EmptyString ->
    text <> EmptyString ->
    findOne db id = Some s ->
    isActive (state s) = true ->
    classify llm w text = Some a ->
    isAppropriate a = false ->
    isOnTopic a = true ->
    containsProfanity a = false ->
    Js.is_string (severity a) "high" = false ->
    ~ called CallPlanner (turn llm w s text)
    /\ (forall s' msg,
           outcome (turn llm w s text) = Some (s', msg) ->
           msg = EmptyString
           /\ agenticDecisions s' = agenticDecisions s
           /\ InterviewSessionModel.validate s' = false)
    /\ exists made,
        sendMessage llm w db (mkSend id text) = (made, ServerError, db).
Proof.
  intros llm w db id text s a Hid Htext Hfind Hact Ha H1 H2 H3 H4.
  destruct (classify_served llm w text a Ha) as [prov Hs].
  pose proof (respond_by_verdict llm prov w (receive w text s) a
                (warningCountOf s)
                (lastQuestionOf (messages (receive w text s))) Hs) as Hr.
  rewrite (silent_verdict a _ _ H1 H2 H3 H4) in Hr.
  destruct (turn_after_respond llm w s text a _ _ Ha Hr) as (Hc & Ho).
  cbn [shouldEndSession aiResponse] in Hc, Ho.
  assert (Hshape : forall s' msg,
             outcome (turn llm w s text) = Some (s', msg) ->
             msg = EmptyString
             /\ agenticDecisions s' = agenticDecisions s
             /\ InterviewSessionModel.validate s' = false).
  { intros s' msg Hout.
    assert (Hmsg : msg = EmptyString).
    { rewrite Ho in Hout.
      destruct (outcome (conclude _ _ _ _)); [|discriminate Hout].
      injection Hout as _ <-. reflexivity. }
    subst msg. split; [reflexivity|].
    pose proof (turn_log llm w s s' text EmptyString a Ha Hout) as Hlog.
    unfold logged in Hlog.
    rewrite <- (lastQuestion_receive w text s),
      (silent_verdict a _ _ H1 H2 H3 H4), app_nil_r in Hlog.
    split; [exact Hlog|].
    rewrite (turn_validate llm w s s' text EmptyString a Ha Hout).
    cbn [String.eqb negb]. rewrite Bool.andb_false_r. reflexivity. }
  split; [|split].
  - unfold called. rewrite Hc, conclude_calls.
    destruct (_ && _)%bool; cbn; intuition discriminate.
  - exact Hshape.
  - apply (sendMessage_rejects llm w db id text s Hid Htext Hfind Hact).
    intros s' msg Hout. apply (Hshape s' msg Hout).
Qed.

(** The model rates an answer not appropriate, on-topic, of severity
    [medium]: the caller gets a 500. *)
Lemma inappropriate_but_unhandled_answer_witness :
  exists made,
    sendMessage llmOllama
                (world (2 * minute) (rates false true false "medium")
                       (says "MOVE_NEXT"))
                [newcomer 30 mock] (mkSend "s-1" "Whatever you say.")
    = (made, ServerError, [newcomer 30 mock]).
Proof.
  destruct (inappropriate_but_unhandled_answer
              llmOllama
              (world (2 * minute) (rates false true false "medium")
                     (says "MOVE_NEXT"))
              [newcomer 30 mock] "s-1" "Whatever you say."
              (newcomer 30 mock)
              (mkAnalysis false true false (Js.Str "medium")
                          (Js.Str "as rated")))
    as (_ & _ & Hsent);
    try reflexivity; try discriminate.
  exact Hsent.
Defined.

(** ** Practice mode *)

Lemma no_practice_call (llm : LLMService.t) (w : World)
      (s : InterviewSession) (text : string) :
  isPractice (interviewMode (config s)) = false ->
  ~ called CallPracticeFeedback (turn llm w s text).
Proof.
  intros Hmode. unfold called.
  destruct (classify llm w text) as [a|] eqn:Ha.
  - rewrite (turn_calls llm w s text a Ha).
    assert (Hr : ~ In CallPracticeFeedback
                    (calls (respond llm w (receive w text s) a
                                    (warningCountOf s)
                                    (lastQuestionOf
                                       (messages (receive w text s)))))).
    { unfold respond.
      change (interviewMode (config (receive w text s)))
        with (interviewMode (config s)). rewrite Hmode.
      unfold moderationBranch, mockBranch, govern,
        LLMService.generateModerationResponse,
        LLMService.makeAgenticDecision, LLMService.generateNextQuestion,
        LLMService.delegate, await, bind, ret, calls.
      break_matches; cbn; intuition discriminate. }
    cbn [In]. intros [H|H]; [discriminate H|].
    apply in_app_or in H. destruct H as [H|H]; [exact (Hr H)|].
    destruct (outcome _) as [p|]; [|contradiction].
    rewrite conclude_calls in H.
    destruct (_ && _)%bool; cbn in H; intuition discriminate.
  - unfold turn. rewrite analyze_calls, Ha. cbn. intuition discriminate.
Qed.

(** X11: Practice mode is never taken.  The session schema has no path for
    [interviewMode], so the document [createSession] stores does not keep
    the mode that was asked for: whatever the request said, a created
    session reads as not being in practice mode through every
    conversation, no turn on it calls [generatePracticeFeedback], and an
    answer that passes moderation goes to the planner. *)
Theorem practice_mode_is_never_taken :
  forall (llm : LLMService.t) (doc : InterviewSession)
         (inputs : list (World * string)) (w : World) (text : string),
    created llm doc ->
    isPractice (interviewMode (config (converse llm doc inputs))) = false
    /\ ~ called CallPracticeFeedback
         (turn llm w (converse llm doc inputs) text)
    /\ forall a,
        classify llm w text = Some a ->
        flagged a = false ->
        called CallPlanner (turn llm w (converse llm doc inputs) text).
Proof.
  intros llm doc inputs w text Hdoc.
  destruct (created_seeded llm doc Hdoc) as (_ & Hmode & _).
  assert (Hnow : isPractice
                   (interviewMode (config (converse llm doc inputs)))
                 = false).
  { rewrite converse_keeps_config. exact Hmode. }
  split; [exact Hnow|]. split; [apply no_practice_call; exact Hnow|].
  intros a Ha Hf. unfold called.
  rewrite (turn_calls llm w _ text a Ha).
  unfold respond. fold (flagged a). rewrite Hf.
  change (interviewMode (config (receive w text (converse llm doc inputs))))
    with (interviewMode (config (converse llm doc inputs))).
  rewrite Hnow. unfold mockBranch. rewrite planner_calls.
  rewrite bind_calls. cbn. tauto.
Qed.

(** A session is asked for in practice mode; its first answer goes to the
    planner. *)
Lemma practice_mode_is_never_taken_witness :
  exists doc,
    createSession llmOllama
                  (mkBirth 0 "s-1" (fun _ => true) (Some "Welcome.") true)
                  []
                  (mkCreate None None "Software Engineer" "Senior"
                            ["Behavioral"] None None None None
                            (Some practice))
    = ([CallTestConnection; CallInitialQuestion; CallSave],
       Created "s-1" "Welcome." (initialState 0), [doc])
    /\ called CallPlanner
              (turn llmOllama (world (2 * minute) fine (says "MOVE_NEXT"))
                    doc "I led the migration.").
Proof.
  eexists. split; [reflexivity|].
  match goal with
  | |- called _ (turn _ _ ?doc _) =>
      destruct (practice_mode_is_never_taken
                  llmOllama doc [] (world (2 * minute) fine (says "MOVE_NEXT"))
                  "I led the migration.") as (_ & _ & Hplanner)
  end.
  - exists (mkBirth 0 "s-1" (fun _ => true) (Some "Welcome.") true), [],
      (mkCreate None None "Software Engineer" "Senior" ["Behavioral"]
                None None None None (Some practice)).
    eexists _, _, _, _. reflexivity.
  - exact (Hplanner (mkAnalysis true true false (Js.Str "low")
                                (Js.Str "as rated")) eq_refl eq_refl).
Defined.

(** ** The regular-expression classifier *)

Import RegexClassifier.

Lemma prefix_gives_letters (a b c : ascii) (t s : string) :
  isLetter a = true -> isLetter b = true -> isLetter c = true ->
  String.prefix (String a (String b (String c t))) s = true ->
  forall run, letterRun run s = true.
Proof.
  intros Ha Hb Hc Hp run.
  destruct s as [|x s]; [discriminate Hp|]. cbn [String.prefix] in Hp.
  destruct (ascii_dec a x) as [<-|]; [|discriminate Hp].
  destruct s as [|y s]; [discriminate Hp|]. cbn [String.prefix] in Hp.
  destruct (ascii_dec b y) as [<-|]; [|discriminate Hp].
  destruct s as [|z s]; [discriminate Hp|]. cbn [String.prefix] in Hp.
  destruct (ascii_dec c z) as [<-|]; [|discriminate Hp].
  cbn [letterRun]. rewrite Ha, Hb, Hc.
  destruct run as [|[|run]]; reflexivity.
Qed.

Lemma includes_gives_letters (a b c : ascii) (t : string) :
  isLetter a = true -> isLetter b = true -> isLetter c = true ->
  forall s run,
    includes s (String a (String b (String c t))) = true ->
    letterRun run s = true.
Proof.
  intros Ha Hb Hc s.
  induction s as [|x s IH]; intros run Hin.
  - discriminate Hin.
  - cbn [includes] in Hin. apply Bool.orb_true_iff in Hin.
    destruct Hin as [Hp|Hin].
    + exact (prefix_gives_letters a b c t _ Ha Hb Hc Hp run).
    + cbn [letterRun]. destruct (isLetter x).
      * destruct (Nat.leb 2 run); [reflexivity|]. apply IH. exact Hin.
      * apply IH. exact Hin.
Qed.

Lemma nonsense_words_have_letters (s : string) :
  (includes s "jklsdf" || includes s "asdf" || includes s "qwerty")%bool
  = true ->
  hasThreeLetters s = true.
Proof.
  intros H. unfold hasThreeLetters.
  apply Bool.orb_true_iff in H. destruct H as [H|H];
    [apply Bool.orb_true_iff in H; destruct H as [H|H]|];
    revert H; apply includes_gives_letters; reflexivity.
Qed.

(** X12: The rule-based [BedrockService] never rates an answer as random
    characters: each of the three substrings it looks for contains three
    letters in a row, which the test before them excludes.  With it as the
    provider every answer is therefore on-topic, an answer is flagged
    exactly when a profanity pattern matches, and the only moderation
    outcomes are the warning and the termination: the redirect is never
    given. *)
Theorem bedrock_never_redirects :
  (forall response : string,
      isVeryShortNonsense response = false
      /\ isOnTopic (analyze response) = true)
  /\ forall (llm : LLMService.t) (w : World) (text : string)
            (a : ContentAnalysis),
      LLMService.getService llm = Some Bedrock ->
      reads w text ->
      classify llm w text = Some a ->
      a = analyze text
      /\ isOnTopic a = true
      /\ flagged a = hasProfanity text
      /\ forall (n : Z) (q : string),
          0 <= n ->
          verdict a n q
          = if hasProfanity text
            then if Z.leb 1 n then Terminate else Moderate
            else Proceed.
Proof.
  assert (Hnever : forall response, isVeryShortNonsense response = false).
  { intros response. unfold isVeryShortNonsense.
    destruct (includes response "jklsdf" || includes response "asdf"
              || includes response "qwerty")%bool eqn:Hin.
    - rewrite (nonsense_words_have_letters response Hin).
      destruct (Z.ltb (strLength (trim response)) 10); reflexivity.
    - apply Bool.andb_false_r. }
  split.
  - intros response. split; [apply Hnever|].
    unfold analyze. rewrite Hnever. destruct (hasProfanity response);
      reflexivity.
  - intros llm w text a Hs (Hp & Hn) Ha.
    unfold classify, LLMService.analyzeResponseApproppriateness in Ha.
    rewrite (delegate_served llm Bedrock) in Ha by exact Hs.
    cbn in Ha. injection Ha as <-.
    unfold BedrockService.analyzeResponseApproppriateness, analyze.
    rewrite Hp, Hn, Hnever.
    destruct (hasProfanity text); cbn.
    + repeat split. intros n q Hn0.
      unfold verdict, flagged, generateModerationResponse. cbn.
      destruct (Z.leb_spec 1 n) as [H1|H1].
      * replace (Z.leb 2 (n + 1)) with true
          by (symmetry; apply Z.leb_le; lia). reflexivity.
      * replace n with 0 by lia. reflexivity.
    + repeat split.
Qed.

Lemma bedrock_never_redirects_witness :
  classify llmBedrock
           (mkWorld minute minute minute minute false false Garbled
                    (says "MOVE_NEXT") (Some "Next question?") Garbled
                    Garbled true minute) "asdf"
  = Some (analyze "asdf")
  /\ isOnTopic (analyze "asdf") = true.
Proof.
  destruct bedrock_never_redirects as (_ & H).
  destruct (H llmBedrock
              (mkWorld minute minute minute minute false false Garbled
                       (says "MOVE_NEXT") (Some "Next question?") Garbled
                       Garbled true minute)
              "asdf" (analyze "asdf") eq_refl
              (conj eq_refl eq_refl) eq_refl) as (_ & Hon & _).
  split; [reflexivity|exact Hon].
Defined.

(** X13: In the earlier [OllamaService] the missing parentheses make the same
    test a pure substring test: an answer is rated random characters, and
    so off-topic, exactly when it has no profanity and contains [asdf] or
    [qwerty], whatever its length and whatever else it says. *)
Theorem legacy_nonsense_is_a_substring_test :
  forall response : string,
    isVeryShortNonsenseLegacy response
    = (includes response "asdf" || includes response "qwerty")%bool
    /\ (hasProfanity response = false ->
        isOnTopic (analyzeLegacy response)
        = negb (includes response "asdf" || includes response "qwerty")).
Proof.
  intros response.
  assert (H : isVeryShortNonsenseLegacy response
              = (includes response "asdf" || includes response "qwerty")%bool).
  { unfold isVeryShortNonsenseLegacy.
    destruct (includes response "jklsdf") eqn:Hj.
    - rewrite (includes_gives_letters "j" "k" "l" "sdf"
                 eq_refl eq_refl eq_refl response 0%nat Hj : hasThreeLetters response = true).
      destruct (Z.ltb (strLength (trim response)) 10); reflexivity.
    - rewrite Bool.andb_false_r. reflexivity. }
  split; [exact H|].
  intros Hp. unfold analyzeLegacy. rewrite Hp, H.
  destruct (includes response "asdf" || includes response "qwerty")%bool;
    reflexivity.
Qed.

Lemma legacy_nonsense_is_a_substring_test_witness :
  isOnTopic (analyzeLegacy
               "I have typed on qwerty keyboards for twenty years of work.")
  = false.
Proof.
  destruct (legacy_nonsense_is_a_substring_test
              "I have typed on qwerty keyboards for twenty years of work.")
    as (_ & H).
  rewrite H; [vm_compute; reflexivity|vm_compute; reflexivity].
Defined.

Lemma star_is_no_word_char (x : ascii) (A : Type) (r : string)
      (yes : string -> A) (no : A) :
  isWordChar x = true ->
  match String x r with
  | String "*" rest' => yes rest'
  | _ => no
  end = no.
Proof.
  destruct x as [[] [] [] [] [] [] [] []]; intros H;
    try reflexivity; discriminate H.
Qed.

Lemma matchStem_word (stem : string) :
  forall s, allWordChars s = true ->
            matchStem stem s = String.prefix stem (lowerCase s).
Proof.
  induction stem as [|c stem IH]; intros s Hw.
  - destruct s; reflexivity.
  - destruct s as [|x rest]; [reflexivity|].
    cbn [allWordChars] in Hw. apply Bool.andb_true_iff in Hw.
    destruct Hw as [_ Hrest].
    cbn [matchStem lowerCase String.prefix].
    destruct (ascii_dec c (toLower x)) as [->|Hne].
    + rewrite Ascii.eqb_refl.
      destruct stem as [|c' stem'].
      * destruct (lowerCase rest); reflexivity.
      * rewrite <- (IH rest Hrest).
        destruct rest as [|y rest']; [reflexivity|].
        cbn [allWordChars] in Hrest. apply Bool.andb_true_iff in Hrest.
        apply star_is_no_word_char. apply Hrest.
    + destruct (Ascii.eqb_spec (toLower x) c) as [E|_];
        [congruence|reflexivity].
Qed.

Lemma scan_inside_word (s : string) :
  allWordChars s = true -> scan true s = false.
Proof.
  induction s as [|c s IH]; intros Hw; [reflexivity|].
  cbn [allWordChars] in Hw. apply Bool.andb_true_iff in Hw.
  destruct Hw as [Hc Hs]. cbn [scan negb andb orb]. rewrite Hc.
  apply IH. exact Hs.
Qed.

(** X14: On a single word (letters, digits and underscores only) the profanity
    test is a test of how the word begins, whatever the case of its
    letters: a word is flagged exactly when it starts with one of the five
    stems, so a stem in the middle or at the end of a word is not seen,
    while a harmless word that begins with one is flagged. *)
Theorem profanity_in_a_word_is_a_prefix_test :
  forall word : string,
    allWordChars word = true ->
    hasProfanity word
    = existsb (fun stem => String.prefix stem (lowerCase word)) stems.
Proof.
  intros word Hw. unfold hasProfanity.
  destruct word as [|c rest]; [reflexivity|].
  pose proof Hw as Hw'.
  cbn [allWordChars] in Hw'. apply Bool.andb_true_iff in Hw'.
  destruct Hw' as [Hc Hrest].
  cbn [scan negb andb]. rewrite Hc, (scan_inside_word rest Hrest).
  rewrite Bool.orb_false_r.
  unfold matchAny, stems. cbn [existsb].
  rewrite !(fun stem => matchStem_word stem _ Hw). reflexivity.
Qed.

Lemma profanity_in_a_word_is_a_prefix_test_witness :
  hasProfanity "Shitake" = true /\ hasProfanity "bullshit" = false.
Proof.
  split.
  - rewrite (profanity_in_a_word_is_a_prefix_test "Shitake" eq_refl).
    reflexivity.
  - rewrite (profanity_in_a_word_is_a_prefix_test "bullshit" eq_refl).
    reflexivity.
Defined.

(** ** Start-up without a provider *)

(** X15: When start-up selects no provider (Bedrock disabled, not constructed or
    unreachable, and Ollama not constructed or unreachable), the facade
    stays without one: every health check reports [connected = false],
    under the name [AWS Bedrock] when Bedrock was never constructed,
    [Ollama] when Bedrock was constructed and Ollama was not, and [None]
    only when both were; every valid [createSession] is answered 503 and
    every [sendMessage] fails, both leaving the store as it is. *)
Theorem startup_without_provider :
  forall (env : LLMService.Startup) (net0 : Network),
    LLMService.activeService (LLMService.initializeServices env net0) = None ->
    ((LLMService.USE_BEDROCK env
      && negb (LLMService.bedrockConstructorThrows env)
      && net0 Bedrock)%bool = false
     /\ (negb (LLMService.ollamaConstructorThrows env)
         && net0 Ollama)%bool = false)
    /\ (forall net : Network,
           healthCheck (LLMService.initializeServices env net0) net
           = (false,
              if (negb (LLMService.USE_BEDROCK env)
                  || LLMService.bedrockConstructorThrows env)%bool
              then "AWS Bedrock"
              else if LLMService.ollamaConstructorThrows env
                   then "Ollama" else "None"))
    /\ (forall (b : Birth) (db : Store) (body : CreateSessionRequest),
           newRole body <> EmptyString ->
           newSeniority body <> EmptyString ->
           newInterviewTypes body <> [] ->
           createSession (LLMService.initializeServices env net0) b db body
           = ([CallTestConnection], ServiceUnavailable, db))
    /\ (forall (w : World) (db : Store) (body : SendMessageRequest),
           snd (sendMessage (LLMService.initializeServices env net0) w db
                            body) = db
           /\ forall id text st ev,
               snd (fst (sendMessage (LLMService.initializeServices env net0)
                                     w db body))
               <> Ok id text st ev).
Proof.
  intros env net0 Hnone.
  split; [|split; [|split]].
  - revert Hnone. unfold LLMService.initializeServices, LLMService.tryPrimary,
      LLMService.tryFallback.
    destruct (LLMService.USE_BEDROCK env),
      (LLMService.bedrockConstructorThrows env),
      (LLMService.ollamaConstructorThrows env),
      (net0 Bedrock), (net0 Ollama); simpl; intros H;
      try discriminate H; split; reflexivity.
  - intros net. unfold healthCheck, LLMService.testConnection,
      LLMService.getService.
    rewrite Hnone. f_equal.
    revert Hnone. unfold LLMService.initializeServices, LLMService.tryPrimary,
      LLMService.tryFallback, LLMService.getActiveServiceName.
    destruct (LLMService.USE_BEDROCK env),
      (LLMService.bedrockConstructorThrows env),
      (LLMService.ollamaConstructorThrows env),
      (net0 Bedrock), (net0 Ollama); simpl; intros H;
      try discriminate H; reflexivity.
  - intros b db body Hr Hs Ht. unfold createSession.
    rewrite (proj2 (String.eqb_neq _ _) Hr), (proj2 (String.eqb_neq _ _) Hs).
    destruct (newInterviewTypes body) as [|ty tys]; [contradiction|].
    cbn [List.length Nat.eqb orb].
    unfold LLMService.testConnection, LLMService.getService.
    rewrite Hnone. reflexivity.
  - intros w db body. unfold sendMessage.
    destruct (_ || _)%bool; [split; [reflexivity|discriminate]|].
    destruct (findOne db (requestSessionId body)) as [s|];
      [|split; [reflexivity|discriminate]].
    destruct (negb (isActive (state s)));
      [split; [reflexivity|discriminate]|].
    unfold turn, LLMService.analyzeResponseApproppriateness,
      LLMService.delegate, LLMService.getService.
    rewrite Hnone. cbn. split; [reflexivity|discriminate].
Qed.

(** Bedrock is not enabled and Ollama is down at start-up: the health check
    names [AWS Bedrock]. *)
Lemma startup_without_provider_witness :
  healthCheck
    (LLMService.initializeServices (LLMService.mkStartup false false false)
                                   (fun _ => false))
    (fun _ => true)
  = (false, "AWS Bedrock").
Proof.
  destruct (startup_without_provider
              (LLMService.mkStartup false false false) (fun _ => false)
              eq_refl) as (_ & H & _).
  exact (H (fun _ => true)).
Defined.

(** ** The store *)

Lemma findOne_sessionId (db : Store) (id : string) (s : InterviewSession) :
  findOne db id = Some s -> sessionId s = id.
Proof.
  intros H. apply find_some in H. destruct H as [_ H].
  apply String.eqb_eq. exact H.
Qed.

Lemma save_ids (db : Store) (t : Z) (s : InterviewSession) :
  map sessionId (save db t s) = map sessionId db.
Proof.
  induction db as [|doc db IH]; [reflexivity|].
  cbn [save map] in *. fold (save db t s). rewrite IH. f_equal.
  destruct (String.eqb_spec (sessionId doc) (sessionId s)) as [E|_];
    [symmetry; exact E|reflexivity].
Qed.

Lemma findOne_save_other (db : Store) (t : Z) (s : InterviewSession)
      (id : string) :
  id <> sessionId s -> findOne (save db t s) id = findOne db id.
Proof.
  intros Hne. induction db as [|doc db IH]; [reflexivity|].
  cbn [save map findOne find] in *. fold (save db t s).
  destruct (String.eqb_spec (sessionId doc) (sessionId s)) as [E|_].
  - cbn [set_updatedAt sessionId].
    destruct (String.eqb_spec (sessionId s) id) as [E'|_];
      [congruence|].
    destruct (String.eqb_spec (sessionId doc) id) as [E'|_];
      [congruence|].
    exact IH.
  - destruct (String.eqb (sessionId doc) id); [reflexivity|exact IH].
Qed.

Lemma findOne_save_same (db : Store) (t : Z) (s s' : InterviewSession) :
  findOne db (sessionId s') = Some s ->
  findOne (save db t s') (sessionId s') = Some (set_updatedAt t s').
Proof.
  induction db as [|doc db IH]; intros H; [discriminate H|].
  cbn [save map findOne find] in *. fold (save db t s').
  destruct (String.eqb_spec (sessionId doc) (sessionId s')) as [E|Hne].
  - cbn [set_updatedAt sessionId]. rewrite String.eqb_refl. reflexivity.
  - destruct (String.eqb_spec (sessionId doc) (sessionId s')) as [E|_];
      [contradiction|].
    apply IH. exact H.
Qed.

(** X16: [sendMessage] touches one document only.  Whatever it answers, the
    store keeps its documents' ids in their order and every session other
    than the one addressed reads as before; unless it answers 200 the store
    is exactly as it was, and a 400 or a 404 comes without any call to the
    model; after a 200 the addressed session reads back with the state and
    the evaluation that the response carried. *)
Theorem sendMessage_touches_one_document :
  forall (llm : LLMService.t) (w : World) (db : Store)
         (body : SendMessageRequest),
    let made := fst (fst (sendMessage llm w db body)) in
    let r := snd (fst (sendMessage llm w db body)) in
    let db' := snd (sendMessage llm w db body) in
    map sessionId db' = map sessionId db
    /\ (forall id, id <> requestSessionId body ->
                   findOne db' id = findOne db id)
    /\ ((forall id text st ev, r <> Ok id text st ev) -> db' = db)
    /\ ((r = NotFound \/ exists e, r = BadRequest e) -> made = [])
    /\ (forall id text st ev,
           r = Ok id text st ev ->
           id = requestSessionId body
           /\ exists s',
               findOne db' id = Some s'
               /\ state s' = st
               /\ evaluation s' = ev
               /\ updatedAt s' = clockAtSave w).
Proof.
  intros llm w db body. cbv zeta. unfold sendMessage.
  destruct (_ || _)%bool.
  { cbn. repeat split; try discriminate; auto. }
  destruct (findOne db (requestSessionId body)) as [s|] eqn:Hfind.
  2:{ cbn. repeat split; try discriminate; auto. }
  destruct (negb (isActive (state s))).
  { cbn. repeat split; try discriminate; auto. }
  destruct (turn llm w s (requestMessage body)) as [made [[s2 msg]|]] eqn:Ht.
  2:{ cbn. repeat split; try discriminate; auto.
      intros [H|[e H]]; discriminate H. }
  cbn [bind await ret fst snd].
  destruct (InterviewSessionModel.validate s2 && saveSucceeds w)%bool.
  2:{ cbn. repeat split; try discriminate; auto.
      intros [H|[e H]]; discriminate H. }
  cbn [bind await ret fst snd app].
  assert (Hid : sessionId s2 = requestSessionId body).
  { assert (Ho : outcome (turn llm w s (requestMessage body))
                 = Some (s2, msg)) by (rewrite Ht; reflexivity).
    apply turn_frame in Ho. destruct Ho as (Ho & _).
    rewrite Ho. exact (findOne_sessionId _ _ _ Hfind). }
  split; [apply save_ids|].
  split.
  { intros id Hne. apply findOne_save_other. congruence. }
  split.
  { intros H. exfalso. exact (H _ _ _ _ eq_refl). }
  split.
  { intros [H|[e H]]; discriminate H. }
  intros id text st ev H. injection H as <- <- <- <-.
  split; [reflexivity|].
  exists (set_updatedAt (clockAtSave w) s2).
  rewrite <- Hid.
  rewrite (findOne_save_same db (clockAtSave w) s s2)
    by (rewrite Hid; exact Hfind).
  repeat split.
Qed.

Lemma findOne_app_new (db : Store) (doc : InterviewSession) (id : string) :
  findOne db id = None ->
  findOne (db ++ [doc])%list id
  = if String.eqb (sessionId doc) id then Some doc else None.
Proof.
  induction db as [|d db IH]; intros H; [reflexivity|].
  cbn [findOne find app] in *.
  destruct (String.eqb (sessionId d) id); [discriminate H|].
  apply IH. exact H.
Qed.

Lemma findOne_app_old (db : Store) (doc : InterviewSession) (id : string) :
  sessionId doc <> id ->
  findOne (db ++ [doc])%list id = findOne db id.
Proof.
  intros Hne. induction db as [|d db IH].
  - cbn. destruct (String.eqb_spec (sessionId doc) id); [contradiction|].
    reflexivity.
  - cbn [findOne find app] in *.
    destruct (String.eqb (sessionId d) id); [reflexivity|exact IH].
Qed.

(** X17: A session that [createSession] answered with 201 under an id not yet
    in the store can be talked to at once.  It reads back as an active
    session in phase [warmup], valid for its schema, holding the opening
    question, which is not empty, as its only message, with 30 minutes
    when no duration was given and, whatever mode was asked for, not in
    practice mode; no other session reads differently; and the first
    non-empty message sent to it is never answered 404 or 400: it is
    either lost with a 500, the store as it was, or answered 200 with
    [questionsAsked = 1]. *)
Theorem created_session_takes_messages :
  forall (llm : LLMService.t) (b : Birth) (db db' : Store)
         (body : CreateSessionRequest) (made : list Call)
         (id question : string) (st : SessionState),
    createSession llm b db body = (made, Created id question st, db') ->
    findOne db id = None ->
    (exists doc,
        findOne db' id = Some doc
        /\ state doc = st
        /\ st = mkState warmup 0 0 (Some (bornAt b)) None (bornAt b) true
        /\ messages doc = [Message.mk assistant question (bornAt b) None]
        /\ question <> EmptyString
        /\ lastQuestionOf (messages doc) = question
        /\ evaluation doc = None
        /\ agenticDecisions doc = []
        /\ durationMinutes (config doc)
           = orDefault (newDurationMinutes body) 30
        /\ isPractice (interviewMode (config doc)) = false
        /\ InterviewSessionModel.validateNew doc = true)
    /\ id <> EmptyString
    /\ (forall other, other <> id -> findOne db' other = findOne db other)
    /\ forall (w : World) (text : string),
        text <> EmptyString ->
        (snd (fst (sendMessage llm w db' (mkSend id text))) = ServerError
         /\ snd (sendMessage llm w db' (mkSend id text)) = db')
        \/ exists msg st' ev,
            snd (fst (sendMessage llm w db' (mkSend id text)))
            = Ok id msg st' ev
            /\ questionsAsked st' = 1.
Proof.
  intros llm b db db' body made id question st Hc Hfresh.
  assert (Hdoc : exists doc,
             db' = (db ++ [doc])%list
             /\ sessionId doc = id
             /\ state doc = st
             /\ st = mkState warmup 0 0 (Some (bornAt b)) None (bornAt b) true
             /\ messages doc = [Message.mk assistant question (bornAt b) None]
             /\ evaluation doc = None
             /\ agenticDecisions doc = []
             /\ durationMinutes (config doc)
                = orDefault (newDurationMinutes body) 30
             /\ isPractice (interviewMode (config doc)) = false
             /\ InterviewSessionModel.validateNew doc = true).
  { revert Hc. unfold createSession, LLMService.delegate, await.
    destruct (_ || _)%bool; [intros H; discriminate H|].
    destruct (negb _); [intros H; discriminate H|].
    destruct (LLMService.getService llm) as [prov|];
      [|intros H; discriminate H].
    destruct (initialQuestion b) as [q|]; [|intros H; discriminate H].
    cbv zeta.
    destruct (InterviewSessionModel.validateNew _) eqn:Hvalid;
      [|intros H; discriminate H].
    destruct (stored b); [|intros H; discriminate H].
    cbn [andb]. intros H. injection H as <- <- <- <- <-.
    eexists. split; [reflexivity|]. repeat split. exact Hvalid. }
  destruct Hdoc
    as (doc & -> & Hsid & Hst & Hst' & Hmsgs & Hev & Hlog & Hd & Hm & Hv).
  assert (Hparts : id <> EmptyString /\ question <> EmptyString).
  { pose proof Hv as Hparts.
    unfold InterviewSessionModel.validateNew, InterviewSessionModel.validate
      in Hparts.
    rewrite Hsid, Hmsgs in Hparts.
    cbn [forallb] in Hparts.
    unfold InterviewSessionModel.messageSchema in Hparts.
    cbn [Message.content] in Hparts.
    split; apply String.eqb_neq.
    - destruct (String.eqb id EmptyString); [discriminate Hparts|reflexivity].
    - destruct (String.eqb question EmptyString); [|reflexivity].
      cbn [negb andb] in Hparts.
      rewrite Bool.andb_false_r in Hparts. discriminate Hparts. }
  destruct Hparts as (Hid & Hq).
  assert (Hfind : findOne (db ++ [doc])%list id = Some doc).
  { rewrite (findOne_app_new db doc id Hfresh), <- Hsid, String.eqb_refl.
    reflexivity. }
  split; [|split; [exact Hid|split]].
  - exists doc. split; [exact Hfind|]. split; [exact Hst|].
    split; [exact Hst'|]. split; [exact Hmsgs|]. split; [exact Hq|].
    split.
    { rewrite Hmsgs. unfold lastQuestionOf.
      cbn [filter Message.role Role_eqb]. unfold lastElement. cbn.
      rewrite (proj2 (String.eqb_neq question EmptyString) Hq).
      reflexivity. }
    split; [exact Hev|]. split; [exact Hlog|]. split; [exact Hd|].
    split; [exact Hm|exact Hv].
  - intros other Hne. apply findOne_app_old. congruence.
  - intros w text Htext.
    assert (Hact : isActive (state doc) = true)
      by (rewrite Hst, Hst'; reflexivity).
    rewrite (sendMessage_outcome llm w _ id text doc Hid Htext Hfind Hact).
    destruct (outcome (turn llm w doc text)) as [[s2 msg]|] eqn:Ht.
    2:{ left. split; reflexivity. }
    destruct (InterviewSessionModel.validate s2 && saveSucceeds w)%bool.
    2:{ left. split; reflexivity. }
    right. exists msg, (state s2), (evaluation s2). split; [reflexivity|].
    apply turn_frame in Ht. destruct Ht as (_ & _ & _ & Hqa & _).
    rewrite Hqa, Hst, Hst'. reflexivity.
Qed.

(** A session asked for in practice mode, with no duration. *)
Lemma created_session_takes_messages_witness :
  exists made id question st db',
    createSession llmOllama
                  (mkBirth 0 "s-1" (fun _ => true) (Some "Welcome.") true)
                  []
                  (mkCreate None None "Software Engineer" "Senior"
                            ["Behavioral"] None None None None
                            (Some practice))
    = (made, Created id question st, db')
    /\ exists doc,
        findOne db' id = Some doc
        /\ durationMinutes (config doc) = 30
        /\ isPractice (interviewMode (config doc)) = false.
Proof.
  eexists _, _, _, _, _. split; [reflexivity|].
  destruct (created_session_takes_messages
              llmOllama
              (mkBirth 0 "s-1" (fun _ => true) (Some "Welcome.") true)
              [] _
              (mkCreate None None "Software Engineer" "Senior"
                        ["Behavioral"] None None None None (Some practice))
              _ _ _ _ eq_refl eq_refl)
    as ((doc & Hf & _ & _ & _ & _ & _ & _ & _ & Hd & Hm & _) & _).
  exists doc. split; [exact Hf|]. split; [exact Hd|exact Hm].
Defined.

(** ** The providers' classifications *)

(** X18: Whichever provider serves, a classification with profanity is never
    appropriate, so the gate of [sendMessage] opens exactly on
    [isAppropriate = false]; and a flagged message that gets no moderation
    text can only come from a reply of the moderation model that
    [JSON.parse] accepted: neither the regular-expression rules nor the
    fallback of the [catch] branch produce one. *)
Theorem classifications_are_consistent :
  forall (llm : LLMService.t) (w : World) (text : string)
         (a : ContentAnalysis),
    classify llm w text = Some a ->
    (containsProfanity a = true -> isAppropriate a = false)
    /\ flagged a = negb (isAppropriate a)
    /\ forall (n : Z) (q : string),
        verdict a n q = Silent ->
        exists v, moderationReply w = Parsed v.
Proof.
  intros llm w text a Ha.
  destruct (classify_served llm w text a Ha) as [prov Hs].
  unfold classify, LLMService.analyzeResponseApproppriateness in Ha.
  rewrite (delegate_served llm prov) in Ha by exact Hs.
  destruct prov; cbn in Ha; injection Ha as <-.
  - unfold BedrockService.analyzeResponseApproppriateness.
    destruct (profanityMatch w); [|destruct (shortNonsense w)];
      (split; [intros H; try reflexivity; discriminate H|]);
      (split; [reflexivity|]); intros n q Hv;
      unfold verdict, flagged, generateModerationResponse in Hv;
      cbn in Hv; try discriminate Hv;
      destruct (Z.leb 2 (n + 1)); discriminate Hv.
  - unfold OllamaService.analyzeResponseApproppriateness.
    assert (Hfb : forall response,
               (containsProfanity (OllamaService.analysisFallback response)
                = true ->
                isAppropriate (OllamaService.analysisFallback response)
                = false)
               /\ flagged (OllamaService.analysisFallback response)
                  = negb (isAppropriate
                            (OllamaService.analysisFallback response))
               /\ forall n q,
                   verdict (OllamaService.analysisFallback response) n q
                   <> Silent).
    { intros response. unfold OllamaService.analysisFallback, verdict,
        flagged, generateModerationResponse.
      destruct (Z.ltb (strLength (trim response)) 5); cbn;
        (split; [intros H; discriminate H|]);
        (split; [reflexivity|]); intros n q; discriminate. }
    destruct (moderationReply w) as [| |v] eqn:Hreply.
    1,2: destruct (Hfb text) as (H1 & H2 & H3);
      split; [exact H1|]; split; [exact H2|];
      intros n q Hv; exfalso; exact (H3 n q Hv).
    destruct (Js.get v "isAppropriate") as [x1|];
      [destruct (Js.get v "containsProfanity") as [x2|];
       [destruct (Js.get v "isAbusive") as [x3|];
        [destruct (Js.get v "isOnTopic") as [x4|];
         [destruct (Js.get v "severity") as [x5|];
          [destruct (Js.get v "reason") as [x6|]|]|]|]|]|].
    2-7: destruct (Hfb text) as (H1 & H2 & H3);
      split; [exact H1|]; split; [exact H2|];
      intros n q Hv; exfalso; exact (H3 n q Hv).
    cbn [containsProfanity isAppropriate flagged].
    split; [|split].
    + intros H. destruct (Js.truthy x1), (Js.truthy x2), (Js.truthy x3);
        try reflexivity; discriminate H.
    + unfold flagged. cbn [containsProfanity isAppropriate].
      destruct (Js.truthy x1), (Js.truthy x2), (Js.truthy x3); reflexivity.
    + intros n q _. exists v. reflexivity.
Qed.

Lemma classifications_are_consistent_witness :
  flagged (OllamaService.analysisFallback "ok")
  = negb (isAppropriate (OllamaService.analysisFallback "ok")).
Proof.
  exact (proj1 (proj2 (classifications_are_consistent
                         llmOllama
                         (mkWorld minute minute minute minute false false
                                  Garbled (says "MOVE_NEXT")
                                  (Some "Next question?") Garbled Garbled
                                  true minute)
                         "ok" _ eq_refl))).
Defined.

(** X19: When Ollama serves and its moderation model gives no reply that can be
    parsed, the content of the message is not looked at: a message whose
    [trim().length] is below five (UTF-16 code units, Unicode white space
    removed) gets the redirect and counts as a warning, every other
    message goes on to the planner whatever it says, and nobody is
    terminated. *)
Theorem ollama_moderation_fails_open :
  forall (llm : LLMService.t) (w : World) (text : string),
    LLMService.getService llm = Some Ollama ->
    (forall v, moderationReply w <> Parsed v) ->
    classify llm w text = Some (OllamaService.analysisFallback text)
    /\ forall (n : Z) (q : string),
        verdict (OllamaService.analysisFallback text) n q
        = (if Z.ltb (strLength (trim text)) 5 then Moderate else Proceed)
        /\ shouldTerminate
             (generateModerationResponse
                (OllamaService.analysisFallback text) n q) = false
        /\ (Z.ltb (strLength (trim text)) 5 = true ->
            message (generateModerationResponse
                       (OllamaService.analysisFallback text) n q)
            = redirectNotice q).
Proof.
  intros llm w text Hs Hreply.
  split.
  - unfold classify, LLMService.analyzeResponseApproppriateness.
    rewrite (delegate_served llm Ollama) by exact Hs. cbn.
    unfold OllamaService.analyzeResponseApproppriateness.
    destruct (moderationReply w) as [| |v] eqn:E; try reflexivity.
    exfalso. exact (Hreply v eq_refl).
  - intros n q. unfold OllamaService.analysisFallback, verdict, flagged,
      generateModerationResponse.
    destruct (Z.ltb (strLength (trim text)) 5); cbn.
    + repeat split.
    + repeat split. intros H. discriminate H.
Qed.

(** Four letters, one of them outside ASCII, between two no-break
    spaces: a redirect.  A rude sentence: on to the planner. *)
Lemma ollama_moderation_fails_open_witness :
  strLength shortAnswer = 6
  /\ strLength (trim shortAnswer) = 4
  /\ verdict (OllamaService.analysisFallback shortAnswer) 0 "Q?" = Moderate
  /\ classify llmOllama
              (mkWorld minute minute minute minute false false Garbled
                       (says "MOVE_NEXT") (Some "Next question?") Garbled
                       Garbled true minute)
              "what the fuck is this question"
     = Some (OllamaService.analysisFallback "what the fuck is this question")
  /\ verdict (OllamaService.analysisFallback
                "what the fuck is this question") 1 "Q?"
     = Proceed.
Proof.
  split; [reflexivity|]. split; [reflexivity|].
  split.
  - destruct (ollama_moderation_fails_open
                llmOllama
                (mkWorld minute minute minute minute false false Garbled
                         (says "MOVE_NEXT") (Some "Next question?") Garbled
                         Garbled true minute)
                shortAnswer eq_refl) as (_ & Hv).
    + intros v H. discriminate H.
    + destruct (Hv 0 "Q?") as (H & _). exact H.
  - destruct (ollama_moderation_fails_open
                llmOllama
                (mkWorld minute minute minute minute false false Garbled
                         (says "MOVE_NEXT") (Some "Next question?") Garbled
                         Garbled true minute)
                "what the fuck is this question" eq_refl)
      as (Hc & Hv).
    + intros v H. discriminate H.
    + split; [exact Hc|]. destruct (Hv 1 "Q?") as (H & _). exact H.
Defined.
